(** * CryptoTrack: a shallow embedding of [cryptotrack.py]

    The development follows the layout of the Python module: the text
    helpers the code takes from [str], the number formatting behind the
    f-string format specs, the [CryptoTracker] methods, the watch loop as a
    state machine driven by its environment, and the two command
    dispatchers ([run_interactive] and [main]).

    Scope of the model.  Text is ASCII: [upper], [lower], [strip],
    [isdigit], [len] and the padding widths work on bytes below 128.  A
    number is the exact rational value of a finite Python [float], or of an
    [int] that binary64 holds exactly (every [int] up to 2^53 in
    magnitude): the [f] presentation type rounds that exact value to the
    requested digits, ties to even, as CPython does.  It converts an [int]
    to [float] first, so an [int] that is not a binary64 value prints the
    digits of the nearest [float] and lies outside the model, as do the
    values of binary64 that are not rationals (NaN, the infinities) and
    the negative zero.  An [int] is read and written in decimal within
    CPython's limit of 4300 digits.  [time.sleep] is the one of CPython
    3.11 on Linux.  The operator's interrupt is delivered at the two
    blocking calls of the watch loop, the request and the sleep. *)

From Stdlib Require Import QArith Ascii Decimal DecimalN.
From stdpp Require Import gmap strings list.

Open Scope Z_scope.

(** ** Text helpers ([str] methods used by the program) *)

Module Py.

Definition chr (n : nat) : ascii := Ascii.ascii_of_nat n.
Definition ord (c : ascii) : nat := Ascii.nat_of_ascii c.

Definition ESC : string := String (chr 27) "".
Definition LF : string := String (chr 10) "".
Definition CR : string := String (chr 13) "".

Definition chars (s : string) : list ascii := String.list_ascii_of_string s.
Definition text (l : list ascii) : string := String.string_of_list_ascii l.

(** [c.upper()] and [c.lower()] on an ASCII letter; other bytes are kept. *)
Definition upper_char (c : ascii) : ascii :=
  let n := ord c in
  if (97 <=? n)%nat && (n <=? 122)%nat then chr (n - 32) else c.

Definition lower_char (c : ascii) : ascii :=
  let n := ord c in
  if (65 <=? n)%nat && (n <=? 90)%nat then chr (n + 32) else c.

Fixpoint map_string (f : ascii → ascii) (s : string) : string :=
  match s with
  | EmptyString => EmptyString
  | String c s' => String (f c) (map_string f s')
  end.

Definition upper : string → string := map_string upper_char.
Definition lower : string → string := map_string lower_char.

(** [str.isspace] on one ASCII character: TAB, LF, VT, FF, CR, the four
    separators 0x1c-0x1f and the space. *)
Definition isspace (c : ascii) : bool :=
  let n := ord c in
  ((9 <=? n)%nat && (n <=? 13)%nat)
  || ((28 <=? n)%nat && (n <=? 31)%nat)
  || (n =? 32)%nat.

Fixpoint lstrip_chars (l : list ascii) : list ascii :=
  match l with
  | c :: l' => if isspace c then lstrip_chars l' else l
  | [] => []
  end.

Definition lstrip (s : string) : string := text (lstrip_chars (chars s)).
Definition rstrip (s : string) : string :=
  text (reverse (lstrip_chars (reverse (chars s)))).
Definition strip (s : string) : string := rstrip (lstrip s).

(** [s.startswith(p)] *)
Definition startswith (s p : string) : bool := String.prefix p s.

(** [s[n:]] and [s[:n]] for [n >= 0] *)
Definition slice_from (n : nat) (s : string) : string := text (drop n (chars s)).
Definition slice_to (n : nat) (s : string) : string := text (take n (chars s)).

Definition len (s : string) : nat := String.length s.

(** [c * n] for a one-character string *)
Definition repeat_char (c : ascii) (n : nat) : string := text (replicate n c).

(** The format spec [<w]: left-justify in a field of width [w], padding
    with spaces; longer text is not cut. *)
Definition ljust (w : nat) (s : string) : string :=
  s +:+ repeat_char " "%char (w - len s).

(** [s.split()]: maximal runs of non-space characters. *)
Fixpoint split_go (cur : list ascii) (l : list ascii) : list string :=
  match l with
  | [] => match cur with [] => [] | _ => [text (reverse cur)] end
  | c :: l' =>
      if isspace c
      then match cur with
           | [] => split_go [] l'
           | _ => text (reverse cur) :: split_go [] l'
           end
      else split_go (c :: cur) l'
  end.

Definition split (s : string) : list string := split_go [] (chars s).

Definition is_digit_char (c : ascii) : bool :=
  let n := ord c in (48 <=? n)%nat && (n <=? 57)%nat.

(** [s.isdigit()] on ASCII text: non-empty and every character a decimal
    digit.  (Beyond ASCII [str.isdigit] also accepts digits that [int]
    refuses, such as the superscript two.) *)
Definition isdigit (s : string) : bool :=
  match chars s with
  | [] => false
  | l => forallb is_digit_char l
  end.

(** The number a string of decimal digits denotes. *)
Definition digits_value (s : string) : Z :=
  fold_left (λ acc c, 10 * acc + Z.of_nat (ord c - 48)) (chars s) 0.

(** [sys.get_int_max_str_digits()]: the default limit on the digits of a
    decimal text that [int] reads and [str] writes. *)
Definition INT_MAX_STR_DIGITS : nat := 4300.

(** [int(s)] for a string that passed [isdigit]: its value, or [None] for
    the [ValueError] raised when [s] has more digits than the limit
    (leading zeros count). *)
Definition int_of_digits (s : string) : option Z :=
  if (len s <=? INT_MAX_STR_DIGITS)%nat then Some (digits_value s) else None.

(** The characters of a decimal numeral. *)
Fixpoint uint_chars (u : Decimal.uint) : list ascii :=
  match u with
  | Decimal.Nil => []
  | Decimal.D0 u' => "0"%char :: uint_chars u'
  | Decimal.D1 u' => "1"%char :: uint_chars u'
  | Decimal.D2 u' => "2"%char :: uint_chars u'
  | Decimal.D3 u' => "3"%char :: uint_chars u'
  | Decimal.D4 u' => "4"%char :: uint_chars u'
  | Decimal.D5 u' => "5"%char :: uint_chars u'
  | Decimal.D6 u' => "6"%char :: uint_chars u'
  | Decimal.D7 u' => "7"%char :: uint_chars u'
  | Decimal.D8 u' => "8"%char :: uint_chars u'
  | Decimal.D9 u' => "9"%char :: uint_chars u'
  end.

(** Decimal digits of a natural number, no leading zero. *)
Definition nat_digits (n : N) : list ascii := uint_chars (N.to_uint n).

(** [str(n)] for an [int] of at most [INT_MAX_STR_DIGITS] digits (beyond
    them [str] raises [ValueError]).  The ints the program writes are read
    by [int] before, from the command line or by [int_of_digits], or are
    literals and list positions, so they are within the limit. *)
Definition str_int (n : Z) : string :=
  (if n <? 0 then "-" else "") +:+ text (nat_digits (Z.abs_N n)).

End Py.

(** ** Numbers and the [f] presentation type *)

Module Fmt.

Definition digit (n : Z) : ascii := Py.chr (48 + Z.to_nat (n mod 10)).

(** Nearest integer to [|q| * 10^d], ties to even. *)
Definition round_scaled (d : nat) (q : Q) : Z :=
  let n := Z.abs (Qnum q) * 10 ^ Z.of_nat d in
  let den := Z.pos (Qden q) in
  let k := n / den in
  let r := n mod den in
  if 2 * r <? den then k
  else if den <? 2 * r then k + 1
  else if Z.even k then k else k + 1.

(** The [d] low decimal digits of [n], most significant first. *)
Fixpoint frac_digits (d : nat) (n : Z) : list ascii :=
  match d with
  | O => []
  | S d' => frac_digits d' (n / 10) ++ [digit n]
  end.

Definition int_digits (n : Z) : list ascii := Py.nat_digits (Z.to_N n).

Definition comma : ascii := ","%char.

(** The [,] option: a comma before every group of three digits, counted
    from the right.  The argument and the result are least significant
    digit first. *)
Fixpoint group3_rev (l : list ascii) : list ascii :=
  match l with
  | a :: b :: c :: ((_ :: _) as rest) => a :: b :: c :: comma :: group3_rev rest
  | _ => l
  end.

Definition group3 (l : list ascii) : list ascii := reverse (group3_rev (reverse l)).

Definition sign_text (q : Q) : string := if Qnum q <? 0 then "-" else "".

(** [format(q, ",.df")] when [grouping], [format(q, ".df")] otherwise, for
    a binary64 value [q]: the digits are those of the exact value, rounded
    to nearest, ties to even.  (An [int] is converted to [float] before it
    is formatted; one that is not a binary64 value is rounded, or refused
    with [OverflowError], by that conversion.) *)
Definition fixed (grouping : bool) (d : nat) (q : Q) : string :=
  let n := round_scaled d q in
  let ip := int_digits (n / 10 ^ Z.of_nat d) in
  sign_text q
  +:+ Py.text (if grouping then group3 ip else ip)
  +:+ match d with
      | O => ""
      | _ => "." +:+ Py.text (frac_digits d n)
      end.

End Fmt.

(** ** [CryptoTracker]: the formatters *)

Definition Qge_bool (a b : Q) : bool := Qle_bool b a.
Definition Qgt_bool (a b : Q) : bool := negb (Qle_bool a b).
Definition Qlt_bool (a b : Q) : bool := negb (Qle_bool b a).

Definition format_price (price : Q) : string :=
  if Qge_bool price (1000 # 1) then "$" +:+ Fmt.fixed true 2 price
  else if Qge_bool price (1 # 1) then "$" +:+ Fmt.fixed false 4 price
  else "$" +:+ Fmt.fixed false 8 price.

Definition GREEN : string := Py.ESC +:+ "[92m".
Definition RED : string := Py.ESC +:+ "[91m".
Definition RESET : string := Py.ESC +:+ "[0m".

Definition format_change (change : Q) : string :=
  if Qgt_bool change 0 then GREEN +:+ "+" +:+ Fmt.fixed false 2 change +:+ "%" +:+ RESET
  else if Qlt_bool change 0 then RED +:+ Fmt.fixed false 2 change +:+ "%" +:+ RESET
  else Fmt.fixed false 2 change +:+ "%".


(** ** Reading a formatted number back

    These definitions are not in the program: they say what a reader of the
    output sees, and the theorems relate them to the formatters. *)

Definition is_digit (c : ascii) : Prop := Py.is_digit_char c = true.

Definition digit_value (c : ascii) : Z := Z.of_nat (Py.ord c - 48).

(** The number a run of digits denotes, separators skipped. *)
Definition decode_from (acc : Z) (l : list ascii) : Z :=
  fold_left (λ a c, if bool_decide (c = Fmt.comma) then a else 10 * a + digit_value c) l acc.

Definition decode (l : list ascii) : Z := decode_from 0 l.

(** An integer part starts with a digit; when [grouped], counting from the
    right every fourth character is a comma and the others are digits;
    otherwise all are digits. *)
Definition int_part (grouped : bool) (ip : list ascii) : Prop :=
  (∃ c l, ip = c :: l ∧ is_digit c) ∧
  ∀ i c, reverse ip !! i = Some c →
    if grouped && bool_decide (i mod 4 = 3)%nat then c = Fmt.comma else is_digit c.

(** [s] is a decimal numeral with exactly [d] digits after the point that
    denotes [n / 10^d]. *)
Definition numeral (grouped : bool) (d : nat) (n : Z) (s : string) : Prop :=
  ∃ ip frac,
    s = Py.text ip +:+ "." +:+ Py.text frac
    ∧ int_part grouped ip
    ∧ Forall is_digit frac
    ∧ length frac = d
    ∧ decode ip * 10 ^ Z.of_nat d + decode frac = n.

(** [sub in s] *)
Fixpoint contains (s sub : string) : bool :=
  String.prefix sub s
  || match s with
     | EmptyString => false
     | String _ s' => contains s' sub
     end.

(** The text left when the terminal colour sequences [ESC [ ... m] are
    taken out. *)
Fixpoint strip_style_go (in_seq : bool) (l : list ascii) : list ascii :=
  match l with
  | [] => []
  | c :: l' =>
      if in_seq then strip_style_go (negb (Ascii.eqb c "m")) l'
      else if Ascii.eqb c (Py.chr 27) then strip_style_go true l'
      else c :: strip_style_go false l'
  end.

Definition strip_style (s : string) : string := Py.text (strip_style_go false (Py.chars s)).

(** The sign-prefixed two-decimal percentage, without styling. *)
Definition plain_change (percent : Q) : string :=
  (if Qnum percent >? 0 then "+" else "") +:+ Fmt.fixed false 2 percent +:+ "%".

(** The binary64 value nearest to -3.2. *)
Definition double_minus_3_2 : Q := (-7205759403792794) # 2251799813685248.

(** The finite values of binary64: [m * 2^e] with a significand of at most
    53 bits and an exponent in range.  Every finite [float] is one, and so
    is every [int] up to 2^53 in magnitude. *)
Definition binary64 (q : Q) : Prop :=
  ∃ m e : Z, Z.abs m < 2 ^ 53 ∧ -1074 <= e <= 971 ∧ (q == inject_Z m * 2 ^ e)%Q.

(** ** Values, exceptions and effects *)

(** The scalar values found in the JSON records the program reads. *)
Inductive pyval :=
| VNone
| VNum (q : Q)
| VStr (s : string).

(** A JSON object of scalars ([Dict]). *)
Abbreviation pydict := (gmap string pyval).

(** The body of [/simple/price]: asset id to quote record. *)
Abbreviation price_payload := (gmap string (gmap string pyval)).

(** The body of [/search]: a record whose [coins] field lists the matches. *)
Abbreviation search_payload := (gmap string (list (gmap string pyval))).

Inductive exn :=
| KeyboardInterrupt
| KeyError (key : string)
| TypeError
| AttributeError
| ValueError
| OverflowError
| OSError.

(** What the program does to the outside world. *)
Inductive event :=
| Print (s : string)        (* text written to stdout, line end included *)
| Get (url : string) (params : list (string * string))
| Sleep (secs : Z).

(** What one [requests.get(...)], [raise_for_status()] and [json()] gives:
    the operator interrupts the wait, a [requests.RequestException] [e] is
    raised ([why] is [str(e)]), or the decoded body arrives. *)
Inductive http_reply (A : Type) :=
| Interrupted
| Failed (why : string)
| Body (json : A).
Arguments Interrupted {A}.
Arguments Failed {A} why.
Arguments Body {A} json.

(** A computation writes events and then returns or raises. *)
Definition M (A : Type) : Type := list event * (exn + A).

Definition ret {A} (a : A) : M A := ([], inr a).
Definition raise {A} (e : exn) : M A := ([], inl e).
Definition emit (ev : event) : M unit := ([ev], inr tt).
Definition print (s : string) : M unit := emit (Print (s +:+ Py.LF)).

Definition bind {A B} (f : A → M B) (m : M A) : M B :=
  match m with
  | (t, inl e) => (t, inl e)
  | (t, inr a) => let '(t', r) := f a in (t ++ t', r)
  end.

#[global] Instance M_ret : MRet M := @ret.
#[global] Instance M_bind : MBind M := @bind.

Definition trace {A} (m : M A) : list event := fst m.
Definition outcome {A} (m : M A) : exn + A := snd m.

(** [d[k]] *)
Definition subscript (d : gmap string pyval) (k : string) : M pyval :=
  match d !! k with
  | Some v => ret v
  | None => raise (KeyError k)
  end.

(** [d.get(k, 0)] *)
Definition get_or_zero (d : gmap string pyval) (k : string) : pyval :=
  default (VNum 0) (d !! k).

(** [format(v, spec)] with an [f] spec: numbers only. *)
Definition format_f (grouping : bool) (d : nat) (v : pyval) : M string :=
  match v with
  | VNum q => ret (Fmt.fixed grouping d q)
  | VNone => raise TypeError
  | VStr _ => raise ValueError
  end.

(** [format_price] and [format_change] on a value read from a record: the
    comparisons raise [TypeError] on anything but a number. *)
Definition format_price_of (v : pyval) : M string :=
  match v with
  | VNum q => ret (format_price q)
  | _ => raise TypeError
  end.

Definition format_change_of (v : pyval) : M string :=
  match v with
  | VNum q => ret (format_change q)
  | _ => raise TypeError
  end.

(** ** [CryptoTracker]: the requests *)

Definition base_url : string := "https://api.coingecko.com/api/v3".
Definition vs_currency : string := "usd".

Definition price_request (crypto_id : string) : event :=
  Get (base_url +:+ "/simple/price")
      [("ids", crypto_id); ("vs_currencies", vs_currency);
       ("include_24hr_change", "true"); ("include_last_updated_at", "true")].

Definition markets_request (limit : Z) : event :=
  Get (base_url +:+ "/coins/markets")
      [("vs_currency", vs_currency); ("order", "market_cap_desc");
       ("per_page", Py.str_int limit); ("page", "1"); ("sparkline", "false")].

Definition search_request (query : string) : event :=
  Get (base_url +:+ "/search") [("query", query)].

Definition get_crypto_price (crypto_id : string) (r : http_reply price_payload)
  : M (option price_payload) :=
  emit (price_request crypto_id);;
  match r with
  | Interrupted => raise KeyboardInterrupt
  | Failed why => print ("Error fetching data: " +:+ why);; ret None
  | Body json => ret (Some json)
  end.

Definition get_top_cryptos (limit : Z) (r : http_reply (list (gmap string pyval)))
  : M (option (list (gmap string pyval))) :=
  emit (markets_request limit);;
  match r with
  | Interrupted => raise KeyboardInterrupt
  | Failed why => print ("Error fetching data: " +:+ why);; ret None
  | Body json => ret (Some json)
  end.

Definition search_crypto (query : string) (r : http_reply search_payload)
  : M (option (list (gmap string pyval))) :=
  emit (search_request query);;
  match r with
  | Interrupted => raise KeyboardInterrupt
  | Failed why => print ("Error searching: " +:+ why);; ret None
  | Body json => ret (Some (take 10 (default [] (json !! "coins"))))
  end.

(** ** [CryptoTracker]: the table *)

Definition header_line : string :=
  Py.LF +:+ Py.ljust 8 "Symbol" +:+ " " +:+ Py.ljust 20 "Name" +:+ " "
  +:+ Py.ljust 15 "Price" +:+ " " +:+ Py.ljust 12 "24h Change" +:+ " "
  +:+ Py.ljust 15 "Market Cap".

Definition rule_line : string := Py.repeat_char "-"%char 75.

(** [v.upper()] *)
Definition upper_of (v : pyval) : M string :=
  match v with
  | VStr s => ret (Py.upper s)
  | _ => raise AttributeError
  end.

(** [v[:18] + (".." if len(v) > 18 else "")] *)
Definition short_name_of (v : pyval) : M string :=
  match v with
  | VStr s => ret (Py.slice_to 18 s +:+ (if (18 <? Py.len s)%nat then ".." else ""))
  | _ => raise TypeError
  end.

(** The body of the [for] loop of [display_top_list], up to the text of the
    row. *)
Definition table_row (crypto : gmap string pyval) : M string :=
  sym ← subscript crypto "symbol";
  symbol ← upper_of sym;
  nm ← subscript crypto "name";
  name ← short_name_of nm;
  cp ← subscript crypto "current_price";
  price ← format_price_of cp;
  change ← format_change_of (get_or_zero crypto "price_change_percentage_24h");
  cap ← format_f true 0 (get_or_zero crypto "market_cap");
  ret (Py.ljust 8 symbol +:+ " " +:+ Py.ljust 20 name +:+ " "
       +:+ Py.ljust 15 price +:+ " " +:+ Py.ljust 12 change +:+ " "
       +:+ Py.ljust 15 ("$" +:+ cap)).

Fixpoint display_rows (cryptos : list (gmap string pyval)) : M unit :=
  match cryptos with
  | [] => ret tt
  | crypto :: rest => (row ← table_row crypto; print row);; display_rows rest
  end.

Definition display_top_list (cryptos : list (gmap string pyval)) : M unit :=
  print header_line;;
  print rule_line;;
  display_rows cryptos.

(** [if cryptos:], [if results:] for an [Optional[List]]. *)
Definition truthy_list {A} (l : option (list A)) : bool :=
  match l with
  | Some (_ :: _) => true
  | _ => false
  end.

(** The fragment [cryptos = get_top_cryptos(n); if cryptos:
    display_top_list(cryptos)] shared by [main] and [run_interactive]. *)
Definition show_top (limit : Z) (r : http_reply (list (gmap string pyval))) : M unit :=
  cryptos ← get_top_cryptos limit r;
  if truthy_list cryptos then display_top_list (default [] cryptos) else ret tt.

(** The [price] branch of [main]. *)
Definition main_price (crypto_id : string) (r : http_reply price_payload) : M unit :=
  price_data ← get_crypto_price crypto_id r;
  match price_data with
  | Some json =>
      if negb (bool_decide (json = ∅)) && bool_decide (is_Some (json !! crypto_id))
      then
        match json !! crypto_id with
        | Some data =>
            usd ← subscript data "usd";
            amount ← format_f true 8 usd;
            print (Py.upper crypto_id +:+ ": $" +:+ amount);;
            match data !! "usd_24h_change" with
            | Some ch => c ← format_change_of ch; print ("24h Change: " +:+ c)
            | None => ret tt
            end
        | None => raise (KeyError crypto_id)
        end
      else print "Cryptocurrency not found."
  | None => print "Cryptocurrency not found."
  end.

(** ** The watch loop *)

(** [time.sleep(secs)] for an [int], as CPython 3.11 does it on Linux.  The
    length is converted to a 64-bit count of nanoseconds: one that does
    not fit raises [OverflowError], a negative one [ValueError].  The
    deadline is the length added to the reading of the monotonic clock,
    again in 64-bit nanoseconds; [clock_nanosleep] refuses a deadline that
    does not fit ([OSError], errno 22).  Otherwise the call blocks, and
    returns unless the operator interrupts it. *)
Definition SLEEP_MAX : Z := 9223372036.

(** The largest 64-bit timestamp, in nanoseconds. *)
Definition TIME_MAX : Z := 2 ^ 63 - 1.

Definition time_sleep (secs : Z) (monotonic : Z) (interrupted : bool) : M unit :=
  if (secs <? - SLEEP_MAX) || (SLEEP_MAX <? secs) then raise OverflowError
  else if secs <? 0 then raise ValueError
  else if TIME_MAX <? monotonic + secs * 10 ^ 9 then raise OSError
  else emit (Sleep secs);; if interrupted then raise KeyboardInterrupt else ret tt.

(** What the outside world contributes to one iteration of the loop: the
    reply to the request, the wall clock read for the line, the monotonic
    clock (in nanoseconds) read when the sleep starts, and whether the
    operator interrupts the sleep. *)
Record cycle := {
  reply : http_reply price_payload;
  clock : string;
  monotonic : Z;
  sleep_interrupted : bool
}.

(** The [if price_data and crypto_id in price_data:] block. *)
Definition watch_render (crypto_id now : string) (price_data : option (gmap string (gmap string pyval)))
  : M unit :=
  match price_data with
  | Some json =>
      if negb (bool_decide (json = ∅)) && bool_decide (is_Some (json !! crypto_id))
      then
        match json !! crypto_id with
        | Some data =>
            price ← subscript data vs_currency;
            p ← format_price_of price;
            ch ← format_change_of (get_or_zero data (vs_currency +:+ "_24h_change"));
            emit (Print (Py.CR +:+ "[" +:+ now +:+ "] " +:+ Py.upper crypto_id
                         +:+ ": " +:+ p +:+ " (" +:+ ch +:+ ")"))
        | None => raise (KeyError crypto_id)
        end
      else ret tt
  | None => ret tt
  end.

(** The body of [while True:]. *)
Definition watch_body (crypto_id : string) (interval : Z) (c : cycle) : M unit :=
  price_data ← get_crypto_price crypto_id (reply c);
  watch_render crypto_id (clock c) price_data;;
  time_sleep interval (monotonic c) (sleep_interrupted c).

(** Where a call of [watch_crypto] is.  The loop is left in two ways, and
    both put an end to the running state: through the handler of
    [KeyboardInterrupt], after which [watch_crypto] returns, and through
    any other exception, which no handler catches. *)
Inductive watch_state :=
| Idle
| Running
| Stopped                (* left through the handler: [watch_crypto] has returned *)
| Crashed (e : exn).     (* left through the exception [e], which goes on to the caller *)

Record session := {
  assetId : string;
  intervalSeconds : Z;
  state : watch_state;
  out : list event
}.

Definition stop_notice : event := Print (Py.LF +:+ Py.LF +:+ "Stopped watching." +:+ Py.LF).

Definition new_session (crypto_id : string) (interval : Z) : session :=
  {| assetId := crypto_id; intervalSeconds := interval; state := Idle; out := [] |}.

(** The two [print]s before the [try], then the loop is entered. *)
Definition start (s : session) : session :=
  match state s with
  | Idle =>
      {| assetId := assetId s; intervalSeconds := intervalSeconds s;
         state := Running;
         out := out s ++
                [ Print ("Watching " +:+ Py.upper (assetId s) +:+ " - Press Ctrl+C to stop" +:+ Py.LF);
                  Print ("Update interval: " +:+ Py.str_int (intervalSeconds s) +:+ " seconds" +:+ Py.LF) ] |}
  | _ => s
  end.

(** One iteration under [try: ... except KeyboardInterrupt:]. *)
Definition step (s : session) (c : cycle) : session :=
  match state s with
  | Running =>
      let '(t, r) := watch_body (assetId s) (intervalSeconds s) c in
      {| assetId := assetId s; intervalSeconds := intervalSeconds s;
         state := match r with
                  | inr _ => Running
                  | inl KeyboardInterrupt => Stopped
                  | inl e => Crashed e
                  end;
         out := out s ++ t ++
                match r with
                | inl KeyboardInterrupt => [stop_notice]
                | _ => []
                end |}
  | _ => s
  end.

Definition run (s : session) (env : list cycle) : session := fold_left step env s.

Definition DEFAULT_INTERVAL : Z := 30.

(** [watch_crypto(crypto_id, interval)] against the first [length env]
    iterations the environment allows. *)
Definition watch_crypto (crypto_id : string) (interval : Z) (env : list cycle) : session :=
  run (start (new_session crypto_id interval)) env.

(** ** The command dispatchers *)

Inductive repl_action :=
| ReplQuit
| ReplTop (limit : Z)
| ReplSearch (query : string)
| ReplPrice (crypto_id : string)
| ReplWatch (crypto_id : string) (interval : Z)
| ReplUnknown
| ReplError (e : exn).      (* the line raised [e] before any call was made *)

(** The [if]/[elif] chain of [run_interactive] on one line of input. *)
Definition run_interactive_command (line : string) : repl_action :=
  let cmd := Py.lower (Py.strip line) in
  if bool_decide (cmd ∈ ["quit"; "exit"; "q"]) then ReplQuit
  else if Py.startswith cmd "top" then
    let parts := Py.split cmd in
    match parts !! 1%nat with
    | Some p =>
        if Py.isdigit p
        then match Py.int_of_digits p with
             | Some limit => ReplTop limit
             | None => ReplError ValueError
             end
        else ReplTop 10
    | None => ReplTop 10
    end
  else if Py.startswith cmd "search " then ReplSearch (Py.slice_from 7 cmd)
  else if Py.startswith cmd "price " then ReplPrice (Py.slice_from 6 cmd)
  else if Py.startswith cmd "watch " then ReplWatch (Py.slice_from 6 cmd) DEFAULT_INTERVAL
  else ReplUnknown.

(** The parsed command line of [main]. *)
Record args := {
  arg_top : option Z;
  arg_price : option string;
  arg_search : option string;
  arg_watch : option string;
  arg_interval : Z;
  arg_interactive : bool
}.

Inductive main_action :=
| MainInteractive
| MainTop (limit : Z)
| MainPrice (crypto_id : string)
| MainSearch (query : string)
| MainWatch (crypto_id : string) (interval : Z)
| MainDefault.

(** Truth value of an optional [int] and of an optional [str]. *)
Definition truthy_int (v : option Z) : option Z :=
  match v with
  | Some n => if n =? 0 then None else Some n
  | None => None
  end.

Definition truthy_str (v : option string) : option string :=
  match v with
  | Some "" => None
  | other => other
  end.

(** The [if]/[elif] chain of [main]. *)
Definition main (a : args) : main_action :=
  if arg_interactive a then MainInteractive
  else match truthy_int (arg_top a) with
  | Some n => MainTop n
  | None =>
  match truthy_str (arg_price a) with
  | Some id => MainPrice id
  | None =>
  match truthy_str (arg_search a) with
  | Some q => MainSearch q
  | None =>
  match truthy_str (arg_watch a) with
  | Some id => MainWatch id (arg_interval a)
  | None => MainDefault
  end end end end.

(** ** Vocabulary for the watch loop properties *)

#[global] Instance event_eq_dec : EqDecision event.
Proof. solve_decision. Defined.

#[global] Instance exn_eq_dec : EqDecision exn.
Proof. solve_decision. Defined.

#[global] Instance watch_state_eq_dec : EqDecision watch_state.
Proof. solve_decision. Defined.


(** The operator interrupts the cycle, during the request or the sleep. *)
Definition cancelled (c : cycle) : Prop :=
  reply c = Interrupted ∨ sleep_interrupted c = true.

(** [time.sleep] carries out the sleep of the cycle: the interval is not
    negative, fits the 64-bit nanoseconds, and so does the deadline it
    gives on the monotonic clock. *)
Definition sleep_accepted (interval : Z) (c : cycle) : Prop :=
  0 <= interval <= SLEEP_MAX ∧ monotonic c + interval * 10 ^ 9 <= TIME_MAX.

(** The reply lets the cycle get to its sleep: the request is not
    interrupted, and it brings no quote for the asset, or one with a
    numeric price and a 24h change that is numeric or absent. *)
Definition reaches_sleep (crypto_id : string) (c : cycle) : Prop :=
  match reply c with
  | Interrupted => False
  | Failed _ => True
  | Body json =>
      match json !! crypto_id with
      | None => True
      | Some data =>
          (∃ p, data !! "usd" = Some (VNum p))
          ∧ ∃ ch, get_or_zero data "usd_24h_change" = VNum ch
      end
  end.

(** The session has left the running state. *)
Definition ended (s : session) : Prop := state s = Stopped ∨ ∃ e, state s = Crashed e.

(** Text within the scope of the model. *)
Definition is_ascii (s : string) : bool := forallb (λ c, (Py.ord c <? 128)%nat) (Py.chars s).


(** What an iteration may do: any request, any line but the stop notice,
    and a sleep of the session's interval only. *)
Definition body_event (interval : Z) (ev : event) : Prop :=
  match ev with
  | Sleep secs => secs = interval
  | Print _ => ev ≠ stop_notice
  | Get _ _ => True
  end.

Definition count_notices (t : list event) : nat :=
  length (filter (λ ev, ev = stop_notice) t).


(** ** Well-formed records and sample inputs *)

(** A market record as the API documents it: [symbol] and [name] are
    strings, [current_price] is a number, and the two optional fields are
    numbers when present. *)
Definition is_market_entry (c : gmap string pyval) : bool :=
  match c !! "symbol", c !! "name", c !! "current_price" with
  | Some (VStr _), Some (VStr _), Some (VNum _) =>
      match c !! "price_change_percentage_24h" with
      | None | Some (VNum _) =>
          match c !! "market_cap" with
          | None | Some (VNum _) => true
          | _ => false
          end
      | _ => false
      end
  | _, _, _ => false
  end.

Definition market_entry (symbol name : string) (price change cap : Q) : gmap string pyval :=
  <["symbol" := VStr symbol]> (<["name" := VStr name]> (<["current_price" := VNum price]>
  (<["price_change_percentage_24h" := VNum change]> (<["market_cap" := VNum cap]> ∅)))).

Definition sample_markets : list (gmap string pyval) :=
  [ market_entry "btc" "Bitcoin" (6543210 # 100) (125 # 100) (1290000000000 # 1);
    market_entry "eth" "Ethereum" (345678 # 100) (-32 # 10) (415000000000 # 1);
    market_entry "usdt" "Tether" (1 # 1) 0 (110000000000 # 1) ].

Definition coin (id name symbol : string) : gmap string pyval :=
  <["id" := VStr id]> (<["name" := VStr name]> (<["symbol" := VStr symbol]> ∅)).

Definition sample_coins : list (gmap string pyval) :=
  (λ n : nat, coin ("coin-" +:+ Py.str_int (Z.of_nat n)) "Coin" "c") <$> seq 1 15.

Definition sample_quote : gmap string pyval :=
  <["usd" := VNum (6543210 # 100)]> (<["usd_24h_change" := VNum (-32 # 10)]> ∅).

Definition sample_payload : gmap string (gmap string pyval) :=
  <["bitcoin" := sample_quote]> ∅.

Definition other_payload : gmap string (gmap string pyval) :=
  <["ethereum" := sample_quote]> ∅.

Definition cycle_ok : cycle :=
  {| reply := Body sample_payload; clock := "12:00:01"; monotonic := 3600000000000; sleep_interrupted := false |}.
Definition cycle_network_error : cycle :=
  {| reply := Failed "timed out"; clock := "12:00:31"; monotonic := 3630000000000; sleep_interrupted := false |}.
Definition cycle_interrupted_sleep : cycle :=
  {| reply := Body sample_payload; clock := "12:02:01"; monotonic := 3720000000000; sleep_interrupted := true |}.
Definition cycle_interrupted_request : cycle :=
  {| reply := Interrupted; clock := "12:02:31"; monotonic := 3750000000000; sleep_interrupted := false |}.

(** ** The rest of the module

    The parts of the Python runtime that the program prints without fixing
    their text are taken as given: [str] of a number (an [int] or the
    shortest [repr] of a [float]) and [str] of an exception. *)

Record runtime := {
  str_number : Q → string;
  str_exn : exn → string
}.

(** [f"{v}"] *)
Definition str_of (rt : runtime) (v : pyval) : string :=
  match v with
  | VNone => "None"
  | VNum q => str_number rt q
  | VStr s => s
  end.

(** Truth value of a scalar. *)
Definition truthy (v : pyval) : bool :=
  match v with
  | VNone => false
  | VNum q => negb (Qnum q =? 0)
  | VStr s => negb (String.eqb s "")
  end.

(** [for x in l: f(x)] and [for i, x in enumerate(l, i): f(i, x)] *)
Fixpoint for_each {A} (f : A → M unit) (l : list A) : M unit :=
  match l with
  | [] => ret tt
  | x :: rest => f x;; for_each f rest
  end.

Fixpoint for_each_from {A} (i : nat) (f : nat → A → M unit) (l : list A) : M unit :=
  match l with
  | [] => ret tt
  | x :: rest => f i x;; for_each_from (S i) f rest
  end.

(** *** [display_crypto] *)

(** [f"Label: ${v:,.0f}" if v else "Label: N/A"] *)
Definition amount_or_na (label : string) (v : pyval) : M string :=
  if truthy v
  then amount ← format_f true 0 v; ret (label +:+ ": $" +:+ amount)
  else ret (label +:+ ": N/A").

Definition display_crypto (rt : runtime) (crypto_data : gmap string pyval) : M unit :=
  sym ← subscript crypto_data "symbol";
  symbol ← upper_of sym;
  name ← subscript crypto_data "name";
  price ← subscript crypto_data "current_price";
  let change_24h := get_or_zero crypto_data "price_change_percentage_24h" in
  let market_cap := get_or_zero crypto_data "market_cap" in
  let volume := get_or_zero crypto_data "total_volume" in
  print (Py.LF +:+ symbol +:+ " - " +:+ str_of rt name);;
  p ← format_price_of price;
  print ("Price: " +:+ p);;
  ch ← format_change_of change_24h;
  print ("24h Change: " +:+ ch);;
  cap ← amount_or_na "Market Cap" market_cap;
  print cap;;
  vol ← amount_or_na "Volume (24h)" volume;
  print vol.

(** *** The [search] branches *)

(** [f"{coin['name']} ({coin['symbol'].upper()}) - ID: {coin['id']}"] *)
Definition coin_text (rt : runtime) (coin : gmap string pyval) : M string :=
  name ← subscript coin "name";
  sym ← subscript coin "symbol";
  symbol ← upper_of sym;
  id ← subscript coin "id";
  ret (str_of rt name +:+ " (" +:+ symbol +:+ ") - ID: " +:+ str_of rt id).

(** The [search] branch of [main]. *)
Definition main_search (rt : runtime) (query : string) (r : http_reply search_payload) : M unit :=
  results ← search_crypto query r;
  if truthy_list results
  then
    print ("Search results for '" +:+ query +:+ "':");;
    for_each (λ coin, t ← coin_text rt coin; print ("- " +:+ t)) (default [] results)
  else print "No results found.".

(** The [search] branch of [run_interactive]. *)
Definition interactive_search (rt : runtime) (query : string) (r : http_reply search_payload)
  : M unit :=
  results ← search_crypto query r;
  if truthy_list results
  then
    print (Py.LF +:+ "Search results for '" +:+ query +:+ "':");;
    for_each_from 1
      (λ i coin, t ← coin_text rt coin; print (Py.str_int (Z.of_nat i) +:+ ". " +:+ t))
      (default [] results)
  else print "No results found.".

(** The [price] branch of [run_interactive]. *)
Definition interactive_price (crypto_id : string) (r : http_reply price_payload) : M unit :=
  price_data ← get_crypto_price crypto_id r;
  match price_data with
  | Some json =>
      if negb (bool_decide (json = ∅)) && bool_decide (is_Some (json !! crypto_id))
      then
        match json !! crypto_id with
        | Some data =>
            usd ← subscript data vs_currency;
            amount ← format_f true 8 usd;
            print (Py.LF +:+ Py.upper crypto_id +:+ ": $" +:+ amount);;
            match data !! (vs_currency +:+ "_24h_change") with
            | Some ch => c ← format_change_of ch; print ("24h Change: " +:+ c)
            | None => ret tt
            end
        | None => raise (KeyError crypto_id)
        end
      else print "Cryptocurrency not found."
  | None => print "Cryptocurrency not found."
  end.

(** *** The last branch of [main] *)

Definition usage_lines : list string :=
  [ Py.LF +:+ "Usage examples:";
    "  cryptotrack --top 20";
    "  cryptotrack --price bitcoin";
    "  cryptotrack --search ethereum";
    "  cryptotrack --watch bitcoin";
    "  cryptotrack --interactive" ].

Definition main_default (r : http_reply (list (gmap string pyval))) : M unit :=
  show_top 10 r;;
  for_each print usage_lines.

(** *** [run_interactive] as a loop *)

(** What [input] gives: a line, the operator's interrupt, or the end of the
    input ([EOFError]). *)
Inductive typed :=
| Line (s : string)
| CtrlC
| EndOfInput.

(** What the outside world contributes to one turn of the loop: the input,
    and the replies and watch cycles the command may consume. *)
Record turn := {
  input : typed;
  markets_reply : http_reply (list (gmap string pyval));
  search_reply : http_reply search_payload;
  price_reply : http_reply price_payload;
  ticks : list cycle
}.

Inductive turn_end :=
| Next       (* back to the prompt *)
| Leave      (* [break] *)
| Hang.      (* the command has not returned within the cycles given *)

(** [except KeyboardInterrupt: break] and [except Exception as e:
    print(f"Error: {e}")] around a command. *)
Definition guarded (rt : runtime) (m : M unit) : list event * turn_end :=
  match m with
  | (t, inr _) => (t, Next)
  | (t, inl KeyboardInterrupt) => (t, Leave)
  | (t, inl e) => (t ++ [Print ("Error: " +:+ str_exn rt e +:+ Py.LF)], Next)
  end.

(** [self.watch_crypto(crypto_id)] seen from the loop. *)
Definition watch_call (rt : runtime) (crypto_id : string) (interval : Z) (env : list cycle)
  : list event * turn_end :=
  let s := watch_crypto crypto_id interval env in
  match state s with
  | Stopped => (out s, Next)
  | Crashed e => guarded rt (out s, inl e)
  | _ => (out s, Hang)
  end.

Definition prompt : event := Print (Py.LF +:+ "crypto> ").

(** One iteration of [while True:] in [run_interactive]. *)
Definition interactive_turn (rt : runtime) (t : turn) : list event * turn_end :=
  match input t with
  | CtrlC => ([prompt], Leave)
  | EndOfInput => ([prompt; Print ("Error: EOF when reading a line" +:+ Py.LF)], Next)
  | Line line =>
      let '(evs, e) :=
        match run_interactive_command line with
        | ReplQuit => ([], Leave)
        | ReplTop limit => guarded rt (show_top limit (markets_reply t))
        | ReplSearch query => guarded rt (interactive_search rt query (search_reply t))
        | ReplPrice crypto_id => guarded rt (interactive_price crypto_id (price_reply t))
        | ReplWatch crypto_id interval => watch_call rt crypto_id interval (ticks t)
        | ReplUnknown => guarded rt (print "Unknown command. Type 'quit' to exit.")
        | ReplError e => guarded rt (raise e)
        end in
      (prompt :: evs, e)
  end.

Inductive loop_state :=
| Active     (* the loop goes on: it is at the prompt *)
| Hung       (* inside a watch that has not returned *)
| Ended.     (* [run_interactive] has returned *)

Fixpoint interactive_loop (rt : runtime) (turns : list turn) : list event * loop_state :=
  match turns with
  | [] => ([], Active)
  | t :: rest =>
      match interactive_turn rt t with
      | (evs, Next) => let '(evs', s) := interactive_loop rt rest in (evs ++ evs', s)
      | (evs, Leave) => (evs, Ended)
      | (evs, Hang) => (evs, Hung)
      end
  end.

Definition banner : list event :=
  [ Print ("🚀 CryptoTrack - Interactive Mode" +:+ Py.LF);
    Print ("Commands: top [number], search [query], watch [crypto], price [crypto], quit" +:+ Py.LF) ].

Definition run_interactive (rt : runtime) (turns : list turn) : list event * loop_state :=
  let '(evs, s) := interactive_loop rt turns in (banner ++ evs, s).

(** ** Vocabulary for the further properties *)

Definition is_get (ev : event) : bool := match ev with Get _ _ => true | _ => false end.
Definition is_sleep (ev : event) : bool := match ev with Sleep _ => true | _ => false end.

Definition count_gets (t : list event) : nat := length (filter (λ ev, is_get ev = true) t).
Definition count_sleeps (t : list event) : nat := length (filter (λ ev, is_sleep ev = true) t).

Definition is_print (ev : event) : bool := match ev with Print _ => true | _ => false end.

(** Requests and sleeps take turns in [t]: no request is sent while one is
    [pending] (sent and not yet followed by a sleep), and no sleep is taken
    unless one is.  The result is the pending flag at the end, or [None]
    when the order is broken. *)
Fixpoint alternates (pending : bool) (t : list event) : option bool :=
  match t with
  | [] => Some pending
  | Get _ _ :: t' => if pending then None else alternates true t'
  | Sleep _ :: t' => if pending then alternates false t' else None
  | Print _ :: t' => alternates pending t'
  end.

(** A character other than the line feed. *)
Definition no_lf (c : ascii) : Prop := c ≠ Py.chr 10.

(** A search match as the API documents it: three strings. *)
Definition is_coin (c : gmap string pyval) : bool :=
  match c !! "name", c !! "symbol", c !! "id" with
  | Some (VStr _), Some (VStr _), Some (VStr _) => true
  | _, _, _ => false
  end.

(** The text of a well-formed match. *)
Definition coin_label (c : gmap string pyval) : string :=
  match c !! "name", c !! "symbol", c !! "id" with
  | Some (VStr name), Some (VStr symbol), Some (VStr id) =>
      name +:+ " (" +:+ Py.upper symbol +:+ ") - ID: " +:+ id
  | _, _, _ => ""
  end.

(** A stand-in for the runtime in the examples. *)
Definition sample_runtime : runtime :=
  {| str_number := λ q, Fmt.fixed false 1 q;
     str_exn := λ e, match e with
                     | KeyError k => "'" +:+ k +:+ "'"
                     | _ => "error"
                     end |}.

Definition quiet_turn (i : typed) : turn :=
  {| input := i; markets_reply := Body []; search_reply := Body ∅;
     price_reply := Body ∅; ticks := [] |}.

Definition no_usd_payload : gmap string (gmap string pyval) :=
  <["bitcoin" := <["usd_24h_change" := VNum (1 # 2)]> ∅]> ∅.

Definition null_change_payload : gmap string (gmap string pyval) :=
  <["bitcoin" := <["usd" := VNum (6543210 # 100)]> (<["usd_24h_change" := VNone]> ∅)]> ∅.

Definition cycle_no_usd : cycle :=
  {| reply := Body no_usd_payload; clock := "12:03:01"; monotonic := 3780000000000;
     sleep_interrupted := false |}.
Definition cycle_null_change : cycle :=
  {| reply := Body null_change_payload; clock := "12:03:31"; monotonic := 3810000000000;
     sleep_interrupted := false |}.

(** A line of the interactive mode whose count has one digit too many. *)
Definition long_count_line : string := "top " +:+ Py.text (replicate 4301 "7"%char).

(** A turn that starts a watch which is interrupted in the sleep of its
    second cycle. *)
Definition watch_turn : turn :=
  {| input := Line "watch bitcoin"; markets_reply := Body []; search_reply := Body ∅;
     price_reply := Body ∅; ticks := [cycle_ok; cycle_interrupted_sleep; cycle_ok] |}.

(** * Properties *)

(** ** Sanity checks of the embedding on concrete inputs *)

Example format_price_grouping : format_price (123456789 # 1000) = "$123,456.79".
Proof. by vm_compute. Qed.

Example format_price_below_tier : format_price (999995 # 1000) = "$999.9950".
Proof. by vm_compute. Qed.

Example fixed_ties_to_even : Fmt.fixed false 2 (1 # 8) = "0.12" ∧ Fmt.fixed false 2 (3 # 8) = "0.38".
Proof. by vm_compute. Qed.

Example fixed_negative_rounds_to_zero : Fmt.fixed false 2 (-1 # 1000) = "-0.00".
Proof. by vm_compute. Qed.

Example str_int_negative : Py.str_int (-305) = "-305".
Proof. by vm_compute. Qed.

Example split_on_whitespace : Py.split "  top   25 x " = ["top"; "25"; "x"].
Proof. by vm_compute. Qed.

Example strip_both_ends : Py.strip "  Watch BTC  " = "Watch BTC".
Proof. by vm_compute. Qed.

Example top_command_parses_count :
  run_interactive_command "top 25" = ReplTop 25
  ∧ run_interactive_command "top many" = ReplTop 10
  ∧ run_interactive_command "Q" = ReplQuit
  ∧ run_interactive_command "watch" = ReplUnknown.
Proof. by vm_compute. Qed.

Example watch_line_text :
  trace (watch_body "bitcoin" 30 cycle_ok)
  = [ price_request "bitcoin";
      Print (Py.CR +:+ "[12:00:01] BITCOIN: $65,432.10 (" +:+ RED +:+ "-3.20%" +:+ RESET +:+ ")");
      Sleep 30 ].
Proof. by vm_compute. Qed.

Example table_row_text :
  table_row (market_entry "btc" "Bitcoin is a very long name here" (6543210 # 100) 0 (1234567 # 1))
  = ([], inr "BTC      Bitcoin is a very .. $65,432.10      0.00%        $1,234,567     ").
Proof. by vm_compute. Qed.

(** ** Text and digits *)

Lemma text_app l1 l2 : Py.text (l1 ++ l2) = Py.text l1 +:+ Py.text l2.
Proof. induction l1 as [|c l1 IH]; simpl; [done|]. by rewrite IH. Qed.

Lemma chars_text l : Py.chars (Py.text l) = l.
Proof. apply String.list_ascii_of_string_of_list_ascii. Qed.

Lemma text_chars s : Py.text (Py.chars s) = s.
Proof. apply String.string_of_list_ascii_of_string. Qed.

Lemma digit_is_digit n : is_digit (Fmt.digit n).
Proof.
  unfold Fmt.digit.
  assert (H : (Z.to_nat (n mod 10) < 10)%nat) by (pose proof (Z.mod_pos_bound n 10); lia).
  revert H. generalize (Z.to_nat (n mod 10)). intros k Hk.
  do 10 (destruct k as [|k]; [reflexivity|]). lia.
Qed.

Lemma uint_chars_digits u : Forall is_digit (Py.uint_chars u).
Proof. induction u; simpl; constructor; done. Qed.

Lemma frac_digits_length d : ∀ n, length (Fmt.frac_digits d n) = d.
Proof. induction d as [|d IH]; intros n; simpl; [done|]. rewrite length_app, IH. simpl. lia. Qed.

Lemma frac_digits_digits d : ∀ n, Forall is_digit (Fmt.frac_digits d n).
Proof.
  induction d as [|d IH]; intros n; simpl; [constructor|].
  apply Forall_app. split; [apply IH|]. constructor; [apply digit_is_digit|constructor].
Qed.

Lemma nat_digits_nonempty n : Py.nat_digits n ≠ [].
Proof.
  unfold Py.nat_digits. destruct n as [|p]; simpl; [done|].
  pose proof (DecimalPos.Unsigned.to_uint_nonnil p) as H.
  destruct (Pos.to_uint p); simpl; done.
Qed.

Lemma group3_rev_index n :
  ∀ l, (length l ≤ n)%nat → Forall is_digit l →
  ∀ i c, Fmt.group3_rev l !! i = Some c →
    if bool_decide (i mod 4 = 3)%nat then c = Fmt.comma else is_digit c.
Proof.
  induction n as [|n IH]; intros l Hlen Hd i c Hi.
  - destruct l; simpl in *; [done|lia].
  - destruct l as [|x [|y [|z [|w rest]]]]; simpl in Hi.
    + done.
    + destruct i as [|i]; simpl in Hi; [|done]. inversion Hi; subst. by inversion Hd.
    + destruct i as [|[|i]]; simpl in Hi; try done; inversion Hi; subst;
        rewrite Forall_forall in Hd; apply Hd; set_solver.
    + destruct i as [|[|[|i]]]; simpl in Hi; try done; inversion Hi; subst;
        rewrite Forall_forall in Hd; apply Hd; set_solver.
    + destruct i as [|[|[|[|i]]]]; simpl in Hi.
      1-3: inversion Hi; subst; rewrite Forall_forall in Hd; apply Hd; set_solver.
      * by inversion Hi.
      * replace (S (S (S (S i))) mod 4)%nat with (i mod 4)%nat
          by (change (S (S (S (S i)))) with (4 + i)%nat;
              rewrite <- (Nat.Div0.mod_add i 1 4); f_equal; lia).
        apply (IH (w :: rest)); [simpl in *; lia| |done].
        by do 3 (apply Forall_cons in Hd as [_ Hd]).
Qed.

Lemma group3_rev_last n :
  ∀ l, (length l ≤ n)%nat → Forall is_digit l → l ≠ [] →
  ∃ c, last (Fmt.group3_rev l) = Some c ∧ is_digit c.
Proof.
  induction n as [|n IH]; intros l Hlen Hd Hne.
  - destruct l; simpl in *; [done|lia].
  - destruct l as [|x [|y [|z [|w rest]]]]; [done|..].
    1-3: simpl; eexists; split; [done|]; rewrite Forall_forall in Hd; apply Hd; set_solver.
    destruct (IH (w :: rest)) as (c & Hc & Hdc); [simpl in *; lia| |done|].
    { by do 3 (apply Forall_cons in Hd as [_ Hd]). }
    exists c. split; [|done].
    change (Fmt.group3_rev (x :: y :: z :: w :: rest))
      with ([x; y; z; Fmt.comma] ++ Fmt.group3_rev (w :: rest)).
    rewrite last_app, Hc. done.
Qed.

Lemma int_part_plain n : int_part false (Fmt.int_digits n).
Proof.
  unfold Fmt.int_digits, Py.nat_digits.
  pose proof (uint_chars_digits (N.to_uint (Z.to_N n))) as Hd.
  pose proof (nat_digits_nonempty (Z.to_N n)) as Hne. unfold Py.nat_digits in Hne.
  split.
  - destruct (Py.uint_chars _) as [|c l]; [done|]. exists c, l. split; [done|]. by inversion Hd.
  - intros i c Hi. simpl. rewrite Forall_forall in Hd. apply Hd.
    apply elem_of_reverse. by eapply list_elem_of_lookup_2.
Qed.

Lemma int_part_grouped n : int_part true (Fmt.group3 (Fmt.int_digits n)).
Proof.
  unfold Fmt.int_digits, Py.nat_digits.
  pose proof (uint_chars_digits (N.to_uint (Z.to_N n))) as Hd.
  pose proof (nat_digits_nonempty (Z.to_N n)) as Hne. unfold Py.nat_digits in Hne.
  set (l := Py.uint_chars _) in *.
  assert (Hr : Forall is_digit (reverse l)) by by apply Forall_reverse.
  split.
  - destruct (group3_rev_last (length (reverse l)) (reverse l)) as (c & Hc & Hdc); [done|done| |].
    { intros E. apply Hne. by rewrite <- (reverse_involutive l), E. }
    unfold Fmt.group3. rewrite last_Some in Hc. destruct Hc as [l' Hl'].
    rewrite Hl', reverse_snoc. eauto.
  - intros i c Hi. unfold Fmt.group3 in Hi. rewrite reverse_involutive in Hi. simpl.
    by eapply (group3_rev_index (length (reverse l)) (reverse l)).
Qed.

Lemma decode_from_app acc l1 l2 :
  decode_from acc (l1 ++ l2) = decode_from (decode_from acc l1) l2.
Proof. apply fold_left_app. Qed.

Lemma digit_value_digit n : digit_value (Fmt.digit n) = n mod 10.
Proof.
  unfold Fmt.digit, digit_value.
  pose proof (Z.mod_pos_bound n 10 ltac:(lia)) as Hb.
  rewrite <- (Z2Nat.id (n mod 10)) at 2 by lia.
  assert (H : (Z.to_nat (n mod 10) < 10)%nat) by lia.
  revert H. generalize (Z.to_nat (n mod 10)). intros k Hk.
  do 10 (destruct k as [|k]; [reflexivity|]). lia.
Qed.

Lemma digit_not_comma c : is_digit c → c ≠ Fmt.comma.
Proof. intros H ->. discriminate H. Qed.

Lemma decode_from_digit acc c l :
  c ≠ Fmt.comma → decode_from acc (c :: l) = decode_from (10 * acc + digit_value c) l.
Proof. intros H. unfold decode_from. cbn [fold_left]. by rewrite bool_decide_eq_false_2. Qed.

Lemma decode_from_comma acc l : decode_from acc (Fmt.comma :: l) = decode_from acc l.
Proof. reflexivity. Qed.

Lemma decode_frac_digits d : ∀ n acc, 0 <= n →
  decode_from acc (Fmt.frac_digits d n) = acc * 10 ^ Z.of_nat d + n mod 10 ^ Z.of_nat d.
Proof.
  induction d as [|d IH]; intros n acc Hn.
  - simpl. rewrite Z.mod_1_r. lia.
  - cbn [Fmt.frac_digits]. rewrite decode_from_app, IH by (apply Z.div_pos; lia).
    rewrite decode_from_digit by (apply digit_not_comma, digit_is_digit).
    change (decode_from ?a []) with a. rewrite digit_value_digit.
    rewrite Nat2Z.inj_succ, Z.pow_succ_r by lia.
    set (p := 10 ^ Z.of_nat d). assert (0 < p) by (apply Z.pow_pos_nonneg; lia).
    rewrite Z.rem_mul_r by lia. lia.
Qed.

Ltac digit_step :=
  rewrite decode_from_digit by done;
  match goal with |- context [digit_value ?c] =>
    let v := eval vm_compute in (digit_value c) in change (digit_value c) with v end.

Lemma decode_of_uint_acc u : ∀ acc,
  decode_from (Z.pos acc) (Py.uint_chars u) = Z.pos (Pos.of_uint_acc u acc).
Proof.
  induction u; intros acc; cbn [Py.uint_chars Pos.of_uint_acc]; [done|..];
    digit_step; rewrite <- IHu; f_equal; lia.
Qed.

Lemma decode_uint_chars u : decode (Py.uint_chars u) = Z.of_N (Pos.of_uint u).
Proof.
  unfold decode.
  induction u; cbn [Py.uint_chars Pos.of_uint]; [done|..]; digit_step;
    cbn [Z.mul Z.add Z.of_N]; first [apply IHu | apply decode_of_uint_acc].
Qed.

Lemma decode_int_digits n : 0 <= n → decode (Fmt.int_digits n) = n.
Proof.
  intros Hn. unfold Fmt.int_digits, Py.nat_digits.
  rewrite decode_uint_chars. change (Pos.of_uint ?u) with (N.of_uint u).
  rewrite DecimalN.Unsigned.of_to. lia.
Qed.


Lemma decode_skips_commas l : ∀ acc,
  decode_from acc l = decode_from acc (filter (λ c, c ≠ Fmt.comma) l).
Proof.
  induction l as [|c l IH]; intros acc; [done|].
  rewrite filter_cons. destruct (decide (c ≠ Fmt.comma)) as [Hc|Hc].
  - rewrite !decode_from_digit by done. apply IH.
  - apply dec_stable in Hc. subst c. rewrite decode_from_comma. apply IH.
Qed.

Lemma group3_rev_digits n :
  ∀ l, (length l ≤ n)%nat → Forall is_digit l →
  filter (λ c, c ≠ Fmt.comma) (Fmt.group3_rev l) = l.
Proof.
  induction n as [|n IH]; intros l Hlen Hd.
  - destruct l; simpl in *; [done|lia].
  - assert (Hf : ∀ k, Forall is_digit k → filter (λ c, c ≠ Fmt.comma) k = k).
    { intros k Hk. induction Hk as [|c k Hc _ IHk]; [done|].
      rewrite filter_cons_True by by apply digit_not_comma. by rewrite IHk. }
    destruct l as [|x [|y [|z [|w rest]]]]; try (by apply Hf).
    change (Fmt.group3_rev (x :: y :: z :: w :: rest))
      with ([x; y; z] ++ [Fmt.comma] ++ Fmt.group3_rev (w :: rest)).
    rewrite !filter_app.
    rewrite (IH (w :: rest)); [|simpl in *; lia|by do 3 (apply Forall_cons in Hd as [_ Hd])].
    rewrite (Hf [x; y; z]).
    + reflexivity.
    + apply Forall_cons in Hd as [? Hd]. apply Forall_cons in Hd as [? Hd].
      apply Forall_cons in Hd as [? Hd]. by repeat constructor.
Qed.

Lemma decode_group3 l : Forall is_digit l → decode (Fmt.group3 l) = decode l.
Proof.
  intros Hd. unfold decode, Fmt.group3.
  rewrite decode_skips_commas, filter_reverse.
  rewrite (group3_rev_digits (length (reverse l))); [|done|by apply Forall_reverse].
  by rewrite reverse_involutive.
Qed.

(** ** The [f] presentation type *)

Lemma round_scaled_nonneg d q : 0 <= Fmt.round_scaled d q.
Proof.
  unfold Fmt.round_scaled.
  set (n := Z.abs (Qnum q) * 10 ^ Z.of_nat d). set (den := Z.pos (Qden q)).
  assert (0 <= n) by (subst n; apply Z.mul_nonneg_nonneg; [lia|apply Z.pow_nonneg; lia]).
  assert (0 <= n / den) by (apply Z.div_pos; lia).
  repeat case_match; lia.
Qed.

(** The rounded value is within half a unit of [|q| * 10^d]. *)
Lemma round_scaled_nearest d q :
  Z.abs (2 * (Z.abs (Qnum q) * 10 ^ Z.of_nat d) - 2 * Fmt.round_scaled d q * Z.pos (Qden q))
  <= Z.pos (Qden q).
Proof.
  unfold Fmt.round_scaled.
  set (n := Z.abs (Qnum q) * 10 ^ Z.of_nat d). set (den := Z.pos (Qden q)).
  pose proof (Z.div_mod n den ltac:(lia)) as Hdm.
  pose proof (Z.mod_pos_bound n den ltac:(lia)) as Hb.
  repeat case_match; lia.
Qed.

Lemma fixed_shape grouped d q :
  ∃ body,
    Fmt.fixed grouped (S d) q = Fmt.sign_text q +:+ body
    ∧ numeral grouped (S d) (Fmt.round_scaled (S d) q) body.
Proof.
  unfold Fmt.fixed. eexists. split; [reflexivity|].
  pose proof (round_scaled_nonneg (S d) q) as Hn.
  set (n := Fmt.round_scaled (S d) q) in *.
  set (p := 10 ^ Z.of_nat (S d)). assert (Hp : 0 < p) by (apply Z.pow_pos_nonneg; lia).
  assert (Hq : 0 <= n / p) by (apply Z.div_pos; lia).
  eexists _, _. split; [reflexivity|]. split; [|split; [|split]].
  - destruct grouped; [apply int_part_grouped|apply int_part_plain].
  - apply frac_digits_digits.
  - apply frac_digits_length.
  - unfold decode at 2. rewrite decode_frac_digits by done. fold p.
    assert (Hip : decode (if grouped then Fmt.group3 (Fmt.int_digits (n / p))
                          else Fmt.int_digits (n / p)) = n / p).
    { destruct grouped; [rewrite decode_group3|]; try by apply decode_int_digits.
      apply uint_chars_digits. }
    rewrite Hip. pose proof (Z.div_mod n p ltac:(lia)). lia.
Qed.

Lemma chars_app s1 s2 : Py.chars (s1 +:+ s2) = Py.chars s1 ++ Py.chars s2.
Proof. induction s1 as [|c s1 IH]; simpl; [done|]. f_equal. apply IH. Qed.

Lemma append_assoc (s1 s2 s3 : string) : (s1 +:+ s2) +:+ s3 = s1 +:+ s2 +:+ s3.
Proof.
  induction s1 as [|c s1 IH]; [done|].
  change (String c ((s1 +:+ s2) +:+ s3) = String c (s1 +:+ s2 +:+ s3)). by rewrite IH.
Qed.

Lemma sign_text_pos q : (0 < q)%Q → Fmt.sign_text q = "".
Proof.
  unfold Qlt, Fmt.sign_text. simpl. intros H.
  destruct (Z.ltb_spec (Qnum q) 0); [lia|done].
Qed.

Lemma sign_text_neg q : (q < 0)%Q → Fmt.sign_text q = "-".
Proof.
  unfold Qlt, Fmt.sign_text. simpl. intros H.
  destruct (Z.ltb_spec (Qnum q) 0); [done|lia].
Qed.

Lemma Qle_bool_false x y : (y < x)%Q → Qle_bool x y = false.
Proof.
  intros H. destruct (Qle_bool x y) eqn:E; [|done].
  apply Qle_bool_iff in E. by apply Qlt_not_le in H.
Qed.

Lemma digit_value_bound c : is_digit c → 0 <= digit_value c <= 9.
Proof.
  unfold is_digit, Py.is_digit_char, digit_value. intros H.
  apply andb_true_iff in H as [H1 H2].
  apply Nat.leb_le in H1, H2. lia.
Qed.

Lemma decode_from_bound l : Forall is_digit l → ∀ acc, 0 <= acc →
  acc * 10 ^ Z.of_nat (length l) <= decode_from acc l < (acc + 1) * 10 ^ Z.of_nat (length l).
Proof.
  induction 1 as [|c l Hc _ IH]; intros acc Hacc.
  - cbn. lia.
  - rewrite decode_from_digit by by apply digit_not_comma.
    pose proof (digit_value_bound c Hc) as Hb.
    specialize (IH (10 * acc + digit_value c) ltac:(lia)).
    cbn [length]. rewrite Nat2Z.inj_succ, Z.pow_succ_r by lia.
    set (p := 10 ^ Z.of_nat (length l)) in *.
    assert (0 < p) by (apply Z.pow_pos_nonneg; lia). nia.
Qed.

Lemma contains_char c s : c ∈ Py.chars s → contains s (String c "") = true.
Proof.
  induction s as [|c' s IH]; cbn; [by intros ?%elem_of_nil|].
  intros [->|Hin]%elem_of_cons.
  - destruct (ascii_dec c' c') as [_|?]; [|done]. by destruct s.
  - rewrite IH by done. apply orb_true_r.
Qed.

(** In a grouped integer part that denotes at least 1000 there is a
    separator. *)
Lemma grouped_has_comma ip : int_part true ip → 1000 <= decode ip → Fmt.comma ∈ ip.
Proof.
  intros [_ Hip] Hv. destruct (decide (4 ≤ length ip)%nat) as [Hl|Hl].
  - destruct (lookup_lt_is_Some_2 (reverse ip) 3) as [c Hc]; [rewrite length_reverse; lia|].
    pose proof (Hip 3%nat c Hc) as H.
    rewrite bool_decide_eq_true_2 in H by done. cbn [andb] in H. subst c.
    apply elem_of_reverse. by eapply list_elem_of_lookup_2.
  - exfalso. assert (Hd : Forall is_digit ip).
    { apply Forall_reverse, Forall_lookup. intros i c Hc.
      pose proof (lookup_lt_Some _ _ _ Hc) as Hi. rewrite length_reverse in Hi.
      pose proof (Hip i c Hc) as H.
      rewrite bool_decide_eq_false_2 in H; [done|].
      rewrite Nat.mod_small by lia. lia. }
    pose proof (decode_from_bound ip Hd 0 ltac:(lia)) as Hb. fold (decode ip) in Hb.
    assert (10 ^ Z.of_nat (length ip) <= 10 ^ 3) by (apply Z.pow_le_mono_r; lia).
    lia.
Qed.

Lemma round_scaled_lower d q k :
  (inject_Z k <= q)%Q → 0 <= k → k * 10 ^ Z.of_nat d <= Fmt.round_scaled d q.
Proof.
  unfold Qle, Fmt.round_scaled. cbn [Qnum Qden inject_Z]. rewrite Z.mul_1_r. intros Hq Hk.
  set (p := 10 ^ Z.of_nat d). assert (0 < p) by (apply Z.pow_pos_nonneg; lia).
  set (den := Z.pos (Qden q)) in *.
  assert (Hn : (k * p) * den <= Z.abs (Qnum q) * p) by nia.
  assert (k * p <= Z.abs (Qnum q) * p / den) by (apply Z.div_le_lower_bound; lia).
  repeat case_match; lia.
Qed.

Lemma numeral_grouped_comma d n body :
  numeral true d n body → 1000 * 10 ^ Z.of_nat d <= n → contains body "," = true.
Proof.
  intros (ip & frac & -> & Hip & Hfrac & Hlen & Hval) Hn.
  apply contains_char. rewrite chars_app, chars_text. apply elem_of_app. left.
  apply grouped_has_comma; [done|].
  pose proof (decode_from_bound frac Hfrac 0 ltac:(lia)) as Hb. fold (decode frac) in Hb.
  rewrite Hlen in Hb. set (p := 10 ^ Z.of_nat d) in *.
  assert (0 < p) by (apply Z.pow_pos_nonneg; lia). nia.
Qed.

(** ** [format_price] *)

(** C5: [format_price] picks one of three precisions by comparing the value
    with 1000 and with 1: from 1000 on, a dollar sign and a numeral with two
    decimals and thousands separators; from 1 up to 1000, four decimals;
    below 1, eight decimals (after the sign of a negative value).  The
    numeral denotes the value rounded to that precision, and from 1000 on
    it does contain a separator.  In particular
    1500 gives [$1,500.00], 1 gives [$1.0000] and 0.5 gives [$0.50000000]. *)
Theorem format_price_tiers (value : Q) :
  ((1000 # 1 <= value)%Q →
     ∃ body, format_price value = "$" +:+ body
             ∧ numeral true 2 (Fmt.round_scaled 2 value) body
             ∧ contains body "," = true)
  ∧ ((1 # 1 <= value)%Q ∧ (value < 1000 # 1)%Q →
     ∃ body, format_price value = "$" +:+ body
             ∧ numeral false 4 (Fmt.round_scaled 4 value) body)
  ∧ ((value < 1 # 1)%Q →
     ∃ body, format_price value = "$" +:+ Fmt.sign_text value +:+ body
             ∧ numeral false 8 (Fmt.round_scaled 8 value) body)
  ∧ format_price (1500 # 1) = "$1,500.00"
  ∧ format_price (1 # 1) = "$1.0000"
  ∧ format_price (1 # 2) = "$0.50000000".
Proof.
  split; [|split; [|split; [|by vm_compute]]].
  - intros H. unfold format_price, Qge_bool.
    rewrite (proj2 (Qle_bool_iff _ _) H).
    destruct (fixed_shape true 1 value) as (body & E & Hn).
    exists body. split; [|split; [done|]].
    + rewrite E, sign_text_pos; [done|]. eapply Qlt_le_trans; [|exact H]. done.
    + apply (numeral_grouped_comma 2 _ _ Hn).
      by apply (round_scaled_lower 2 value 1000).
  - intros [H1 H2]. unfold format_price, Qge_bool.
    rewrite (Qle_bool_false _ _ H2), (proj2 (Qle_bool_iff _ _) H1).
    destruct (fixed_shape false 3 value) as (body & E & Hn).
    exists body. split; [|done]. rewrite E, sign_text_pos; [done|].
    eapply Qlt_le_trans; [|exact H1]. done.
  - intros H. unfold format_price, Qge_bool.
    rewrite (Qle_bool_false (1 # 1) value H).
    rewrite (Qle_bool_false (1000 # 1) value) by (eapply Qlt_trans; [exact H|done]).
    destruct (fixed_shape false 7 value) as (body & E & Hn).
    exists body. by rewrite E.
Qed.

Lemma format_price_tiers_witness :
  (∃ body, format_price (123456789 # 1000) = "$" +:+ body
           ∧ numeral true 2 (Fmt.round_scaled 2 (123456789 # 1000)) body
           ∧ contains body "," = true)
  ∧ (∃ body, format_price (5 # 2) = "$" +:+ body
             ∧ numeral false 4 (Fmt.round_scaled 4 (5 # 2)) body)
  ∧ (∃ body, format_price (123 # 1000000) = "$" +:+ Fmt.sign_text (123 # 1000000) +:+ body
             ∧ numeral false 8 (Fmt.round_scaled 8 (123 # 1000000)) body).
Proof.
  split; [|split].
  - apply (proj1 (format_price_tiers (123456789 # 1000))).
    unfold Qle. simpl. lia.
  - apply (proj1 (proj2 (format_price_tiers (5 # 2)))).
    unfold Qle, Qlt. simpl. lia.
  - apply (proj1 (proj2 (proj2 (format_price_tiers (123 # 1000000))))).
    unfold Qlt. simpl. lia.
Defined.

(** C10: a strictly negative value takes the last branch, since the two
    comparisons are on the signed value: the result is the dollar sign, a
    minus sign and an ungrouped numeral with eight decimals; -1500 gives
    [$-1500.00000000], not a grouped two-decimal text. *)
Theorem format_price_negative (value : Q) :
  ((value < 0)%Q →
     ∃ body, format_price value = "$-" +:+ body
             ∧ numeral false 8 (Fmt.round_scaled 8 value) body)
  ∧ format_price (-1500 # 1) = "$-1500.00000000".
Proof.
  split; [|by vm_compute].
  intros H. unfold format_price, Qge_bool.
  rewrite (Qle_bool_false (1 # 1) value) by (eapply Qlt_trans; [exact H|done]).
  rewrite (Qle_bool_false (1000 # 1) value) by (eapply Qlt_trans; [exact H|done]).
  destruct (fixed_shape false 7 value) as (body & E & Hn).
  exists body. by rewrite E, (sign_text_neg _ H).
Qed.

Lemma format_price_negative_witness :
  ∃ body, format_price (-5 # 2) = "$-" +:+ body
          ∧ numeral false 8 (Fmt.round_scaled 8 (-5 # 2)) body.
Proof.
  apply (proj1 (format_price_negative (-5 # 2))).
  unfold Qlt. simpl. lia.
Defined.

(** ** [format_change] *)

Lemma strip_style_go_plain l k :
  Forall (λ c, c ≠ Py.chr 27) l →
  strip_style_go false (l ++ k) = l ++ strip_style_go false k.
Proof.
  induction 1 as [|c l Hc _ IH]; [done|].
  cbn [app strip_style_go].
  destruct (Ascii.eqb_spec c (Py.chr 27)); [done|]. by rewrite IH.
Qed.

Lemma digit_not_escape c : is_digit c → c ≠ Py.chr 27.
Proof. intros H ->. discriminate H. Qed.

Lemma fixed_plain_no_escape d q :
  Forall (λ c, c ≠ Py.chr 27) (Py.chars (Fmt.fixed false d q)).
Proof.
  unfold Fmt.fixed. rewrite !chars_app, chars_text.
  apply Forall_app. split.
  { unfold Fmt.sign_text. case_match; repeat constructor; done. }
  apply Forall_app. split.
  { eapply Forall_impl; [apply uint_chars_digits|]. apply digit_not_escape. }
  destruct d as [|d]; [constructor|].
  rewrite chars_app, chars_text. apply Forall_app. split; [by repeat constructor|].
  eapply Forall_impl; [apply frac_digits_digits|]. apply digit_not_escape.
Qed.

Lemma plain_change_no_escape q : Forall (λ c, c ≠ Py.chr 27) (Py.chars (plain_change q)).
Proof.
  unfold plain_change. rewrite !chars_app.
  apply Forall_app. split; [case_match; by repeat constructor|].
  apply Forall_app. split; [apply fixed_plain_no_escape|by repeat constructor].
Qed.

Lemma strip_style_plain s :
  Forall (λ c, c ≠ Py.chr 27) (Py.chars s) → strip_style s = s.
Proof.
  intros H. unfold strip_style.
  rewrite <- (app_nil_r (Py.chars s)), strip_style_go_plain by done.
  simpl. by rewrite app_nil_r, text_chars.
Qed.

Lemma strip_style_wrapped code s :
  code = GREEN ∨ code = RED →
  Forall (λ c, c ≠ Py.chr 27) (Py.chars s) →
  strip_style (code +:+ s +:+ RESET) = s.
Proof.
  intros Hcode H. unfold strip_style. rewrite !chars_app.
  assert (E : ∀ k, strip_style_go false (Py.chars code ++ k) = strip_style_go false k)
    by (by destruct Hcode as [-> | ->]).
  rewrite E, strip_style_go_plain by done. simpl. by rewrite app_nil_r, text_chars.
Qed.

Lemma fixed_zero grouped d q : Qnum q = 0 → Fmt.fixed grouped d q = Fmt.fixed grouped d 0.
Proof.
  destruct q as [n den]. simpl. intros ->.
  unfold Fmt.fixed, Fmt.round_scaled, Fmt.sign_text. simpl Qnum. simpl Qden.
  rewrite Z.mul_0_l, Zdiv_0_l, Zmod_0_l. simpl. done.
Qed.

Lemma format_change_cases (percent : Q) :
  ((0 < percent)%Q → format_change percent = GREEN +:+ plain_change percent +:+ RESET)
  ∧ ((percent < 0)%Q → format_change percent = RED +:+ plain_change percent +:+ RESET)
  ∧ ((percent == 0)%Q → format_change percent = plain_change percent
                         ∧ plain_change percent = "0.00%").
Proof.
  unfold format_change, plain_change, Qgt_bool, Qlt_bool, Qlt, Qeq. simpl.
  rewrite !Z.mul_1_r. split; [|split]; intros H.
  - rewrite Qle_bool_false by (unfold Qlt; simpl; lia).
    destruct (Z.gtb_spec (Qnum percent) 0); [|lia]. simpl.
    by rewrite !append_assoc.
  - destruct (Qle_bool percent 0) eqn:E; simpl.
    + rewrite Qle_bool_false by (unfold Qlt; simpl; lia). simpl.
      destruct (Z.gtb_spec (Qnum percent) 0); [lia|]. by rewrite !append_assoc.
    + exfalso. assert (Qle_bool percent 0 = true); [|congruence].
      apply Qle_bool_iff. unfold Qle. simpl. lia.
  - assert (E1 : Qle_bool percent 0 = true) by (apply Qle_bool_iff; unfold Qle; simpl; lia).
    assert (E2 : Qle_bool 0 percent = true) by (apply Qle_bool_iff; unfold Qle; simpl; lia).
    rewrite E1, E2. simpl. destruct (Z.gtb_spec (Qnum percent) 0); [lia|].
    split; [done|]. by rewrite fixed_zero.
Qed.

(** C8: [format_change] gives the percentage with two decimals and its sign
    ([+] above zero, [-] below, none at zero), wrapped in the green
    sequence [ESC [92m] when positive, in the red one [ESC [91m] when
    negative, each closed by the reset [ESC [0m], and bare at zero; taking
    the colour sequences out leaves that plain text in every case.  The
    text for -3.2 contains [-3.20%], and the text for 0 is [0.00%], with
    no sign. *)
Theorem format_change_styles (percent : Q) :
  ((0 < percent)%Q →
     ∃ body, format_change percent = GREEN +:+ "+" +:+ body +:+ "%" +:+ RESET
             ∧ numeral false 2 (Fmt.round_scaled 2 percent) body)
  ∧ ((percent < 0)%Q →
     ∃ body, format_change percent = RED +:+ "-" +:+ body +:+ "%" +:+ RESET
             ∧ numeral false 2 (Fmt.round_scaled 2 percent) body)
  ∧ ((percent == 0)%Q → format_change percent = "0.00%")
  ∧ strip_style (format_change percent) = plain_change percent
  ∧ contains (format_change (-32 # 10)) "-3.20%" = true
  ∧ contains (format_change double_minus_3_2) "-3.20%" = true
  ∧ format_change 0 = "0.00%"
  ∧ contains (format_change 0) "+" = false
  ∧ contains (format_change 0) "-" = false
  ∧ GREEN = String (Py.chr 27) "[92m"
  ∧ RED = String (Py.chr 27) "[91m"
  ∧ RESET = String (Py.chr 27) "[0m".
Proof.
  destruct (format_change_cases percent) as (Hpos & Hneg & Hzero).
  split; [|split; [|split; [|split; [|by vm_compute]]]].
  - intros H. destruct (fixed_shape false 1 percent) as (body & E & Hn).
    exists body. split; [|done].
    rewrite (Hpos H). unfold plain_change. rewrite E, sign_text_pos by done.
    unfold Qlt in H. simpl in H. destruct (Z.gtb_spec (Qnum percent) 0); [|lia].
    by rewrite !append_assoc.
  - intros H. destruct (fixed_shape false 1 percent) as (body & E & Hn).
    exists body. split; [|done].
    rewrite (Hneg H). unfold plain_change. rewrite E, sign_text_neg by done.
    unfold Qlt in H. simpl in H. destruct (Z.gtb_spec (Qnum percent) 0); [lia|].
    by rewrite !append_assoc.
  - intros H. destruct (Hzero H) as [-> ->]. done.
  - destruct (Qlt_le_dec 0 percent) as [H|H].
    { rewrite (Hpos H). apply strip_style_wrapped; [by left|apply plain_change_no_escape]. }
    destruct (Qlt_le_dec percent 0) as [H'|H'].
    { rewrite (Hneg H'). apply strip_style_wrapped; [by right|apply plain_change_no_escape]. }
    assert (Hz : (percent == 0)%Q) by by apply Qle_antisym.
    destruct (Hzero Hz) as [-> _]. apply strip_style_plain, plain_change_no_escape.
Qed.

Lemma format_change_styles_witness :
  (∃ body, format_change (5 # 4) = GREEN +:+ "+" +:+ body +:+ "%" +:+ RESET
           ∧ numeral false 2 (Fmt.round_scaled 2 (5 # 4)) body)
  ∧ (∃ body, format_change (-32 # 10) = RED +:+ "-" +:+ body +:+ "%" +:+ RESET
             ∧ numeral false 2 (Fmt.round_scaled 2 (-32 # 10)) body)
  ∧ format_change (0 # 7) = "0.00%".
Proof.
  split; [|split].
  - apply (proj1 (format_change_styles (5 # 4))). unfold Qlt. simpl. lia.
  - apply (proj1 (proj2 (format_change_styles (-32 # 10)))). unfold Qlt. simpl. lia.
  - apply (proj1 (proj2 (proj2 (format_change_styles (0 # 7))))). unfold Qeq. simpl. lia.
Defined.

(** ** The writer-and-error monad *)

Lemma bind_ret_l {A B} (t : list event) (a : A) (f : A → M B) :
  ((t, inr a) : M A) ≫= f = (t ++ trace (f a), outcome (f a)).
Proof. unfold mbind, M_bind, bind, trace, outcome. by destruct (f a). Qed.

Lemma bind_raise {A B} (t : list event) (e : exn) (f : A → M B) :
  ((t, inl e) : M A) ≫= f = (t, inl e).
Proof. reflexivity. Qed.

(** ** [search_crypto] *)

(** C6: on a decoded reply, [search_crypto] returns the first ten entries of
    the [coins] list in their order: exactly ten when the list is longer,
    the whole list when it has ten or fewer, and the empty list (a value,
    not [None] and not an exception) when the list is empty. *)
Theorem search_crypto_first_ten (query : string) (json : gmap string (list (gmap string pyval))) :
  let coins := default [] (json !! "coins") in
  ∃ results,
    search_crypto query (Body json) = ([search_request query], inr (Some results))
    ∧ results = take 10 coins
    ∧ (10 < length coins → length results = 10 ∧ ∀ i, i < 10 → results !! i = coins !! i)%nat
    ∧ (length coins ≤ 10 → results = coins)%nat
    ∧ (coins = [] → results = []).
Proof.
  intros coins. exists (take 10 coins).
  split; [reflexivity|]. split; [reflexivity|]. split; [|split].
  - intros H. split; [rewrite length_take; lia|].
    intros i Hi. by apply lookup_take_lt.
  - intros H. by apply take_ge.
  - by intros ->.
Qed.

Lemma search_crypto_first_ten_witness :
  ∃ results,
    search_crypto "coin" (Body {["coins" := sample_coins]})
      = ([search_request "coin"], inr (Some results))
    ∧ length results = 10%nat
    ∧ results = take 10 sample_coins.
Proof.
  destruct (search_crypto_first_ten "coin" {["coins" := sample_coins]})
    as (results & E & Ht & Hlong & _ & _).
  exists results. split; [exact E|]. split; [|exact Ht].
  apply Hlong. vm_compute. lia.
Defined.

(** ** [display_top_list] *)

Lemma table_row_ok (c : gmap string pyval) :
  is_market_entry c = true → ∃ row, table_row c = ([], inr row).
Proof.
  unfold is_market_entry, table_row, subscript, get_or_zero. intros H.
  destruct (c !! "symbol") as [[| |sym]|]; try done.
  destruct (c !! "name") as [[| |nm]|]; try done.
  destruct (c !! "current_price") as [[|p|]|]; try done.
  destruct (c !! "price_change_percentage_24h") as [[|ch|]|]; try done;
    destruct (c !! "market_cap") as [[|cap|]|]; try done;
    eexists; reflexivity.
Qed.

Lemma display_rows_ok (cryptos : list (gmap string pyval)) :
  Forall (λ c, is_market_entry c = true) cryptos →
  ∃ rows,
    Forall2 (λ c row, table_row c = ([], inr row)) cryptos rows
    ∧ display_rows cryptos = ((λ row, Print (row +:+ Py.LF)) <$> rows, inr tt).
Proof.
  induction 1 as [|c cryptos Hc _ (rows & Hrows & E)].
  - exists []. split; [constructor|reflexivity].
  - destruct (table_row_ok c Hc) as (row & Hrow).
    exists (row :: rows). split; [by constructor|].
    cbn [display_rows]. rewrite Hrow, E. reflexivity.
Qed.

(** C7, as the code has it: [display_top_list] writes the header (the
    column titles and a dashed rule), then one row per entry in the order
    given, for every list of well-formed market records; for the empty
    list it writes the header alone.  The callers test [if cryptos:]
    first, so a top command whose reply is the empty list writes
    nothing. *)
Theorem display_top_list_rows (cryptos : list (gmap string pyval)) :
  (Forall (λ c, is_market_entry c = true) cryptos →
   ∃ rows,
     Forall2 (λ c row, table_row c = ([], inr row)) cryptos rows
     ∧ display_top_list cryptos
       = ([Print (header_line +:+ Py.LF); Print (rule_line +:+ Py.LF)]
            ++ ((λ row, Print (row +:+ Py.LF)) <$> rows), inr tt))
  ∧ display_top_list [] = ([Print (header_line +:+ Py.LF); Print (rule_line +:+ Py.LF)], inr tt)
  ∧ ∀ limit, show_top limit (Body []) = ([markets_request limit], inr tt).
Proof.
  split; [|split; [reflexivity|reflexivity]].
  intros H. destruct (display_rows_ok cryptos H) as (rows & Hrows & E).
  exists rows. split; [done|].
  unfold display_top_list, print, emit. rewrite !bind_ret_l, E. reflexivity.
Qed.

Lemma display_top_list_rows_witness :
  ∃ rows,
    Forall2 (λ c row, table_row c = ([], inr row)) sample_markets rows
    ∧ display_top_list sample_markets
      = ([Print (header_line +:+ Py.LF); Print (rule_line +:+ Py.LF)]
           ++ ((λ row, Print (row +:+ Py.LF)) <$> rows), inr tt).
Proof.
  apply (proj1 (display_top_list_rows sample_markets)).
  repeat constructor.
Defined.

(** C7 as stated fails: for the empty sequence [display_top_list] still
    writes the two header lines. *)
Lemma display_top_list_empty_prints_header :
  trace (display_top_list []) =
    [ Print (Py.LF +:+ "Symbol   Name                 Price           24h Change   Market Cap     " +:+ Py.LF);
      Print ("---------------------------------------------------------------------------" +:+ Py.LF) ]
  ∧ trace (display_top_list []) ≠ [].
Proof. split; [by vm_compute|discriminate]. Qed.

(** ** [get_crypto_price] and the [price] branch of [main] *)

(** C4: when the request succeeds and the body has no entry for the asset
    id, [get_crypto_price] returns that body (not [None]) and writes no
    error line, and [main] reports [Cryptocurrency not found.]; a failed
    request returns [None] after an [Error fetching data] line, so the
    caller can tell the two apart by the value returned and the operator
    by the output. *)
Theorem missing_id_is_not_found (crypto_id : string) (json : gmap string (gmap string pyval)) :
  json !! crypto_id = None →
  get_crypto_price crypto_id (Body json) = ([price_request crypto_id], inr (Some json))
  ∧ main_price crypto_id (Body json)
    = ([price_request crypto_id; Print ("Cryptocurrency not found." +:+ Py.LF)], inr tt)
  ∧ ∀ why,
      get_crypto_price crypto_id (Failed why)
      = ([price_request crypto_id; Print ("Error fetching data: " +:+ why +:+ Py.LF)], inr None)
      ∧ outcome (get_crypto_price crypto_id (Failed why))
        ≠ outcome (get_crypto_price crypto_id (Body json))
      ∧ trace (main_price crypto_id (Failed why)) ≠ trace (main_price crypto_id (Body json)).
Proof.
  intros Hmiss. split; [reflexivity|].
  assert (E : main_price crypto_id (Body json)
              = ([price_request crypto_id; Print ("Cryptocurrency not found." +:+ Py.LF)], inr tt)).
  { unfold main_price, get_crypto_price, emit.
    rewrite bind_ret_l. cbn [trace outcome ret fst snd]. rewrite bind_ret_l. cbn beta iota.
    rewrite Hmiss. rewrite (bool_decide_eq_false_2 (is_Some None)) by (by intros [? ?]).
    rewrite andb_false_r. reflexivity. }
  split; [exact E|]. intros why. split; [|split].
  - unfold get_crypto_price, print, emit. rewrite !bind_ret_l. cbn.
    by rewrite append_assoc.
  - discriminate.
  - rewrite E. discriminate.
Qed.

Lemma missing_id_is_not_found_witness :
  get_crypto_price "bitcoin" (Body other_payload)
    = ([price_request "bitcoin"], inr (Some other_payload))
  ∧ main_price "bitcoin" (Body other_payload)
    = ([price_request "bitcoin"; Print ("Cryptocurrency not found." +:+ Py.LF)], inr tt).
Proof.
  destruct (missing_id_is_not_found "bitcoin" other_payload) as (H1 & H2 & _).
  - by vm_compute.
  - split; [exact H1|exact H2].
Defined.

(** ** [run_interactive] *)

Lemma startswith_app (p s : string) : Py.startswith (p +:+ s) p = true.
Proof.
  unfold Py.startswith. induction p as [|c p IH]; [by destruct s|].
  change (String c p +:+ s) with (String c (p +:+ s)). cbn [String.prefix].
  destruct (ascii_dec c c); [apply IH|done].
Qed.

(** C9, as the code has it: a line that, stripped and lowered, reads
    [watch ] followed by some text starts the refresh loop with that whole
    text as the asset id and with the default interval of 30 seconds; the
    line is not searched for an interval. *)
Theorem watch_command_uses_default_interval (line rest : string) :
  Py.lower (Py.strip line) = "watch " +:+ rest →
  run_interactive_command line = ReplWatch rest DEFAULT_INTERVAL.
Proof.
  intros H. unfold run_interactive_command. rewrite H.
  rewrite bool_decide_eq_false_2.
  2:{ rewrite !elem_of_cons, elem_of_nil. intros [E|[E|[E|[]]]]; discriminate E. }
  change (Py.startswith ("watch " +:+ rest) "top") with false.
  change (Py.startswith ("watch " +:+ rest) "search ") with false.
  change (Py.startswith ("watch " +:+ rest) "price ") with false.
  rewrite startswith_app. f_equal. unfold Py.slice_from. rewrite chars_app.
  change (drop 6 (Py.chars "watch " ++ Py.chars rest)) with (Py.chars rest).
  apply text_chars.
Qed.

Lemma watch_command_uses_default_interval_witness :
  run_interactive_command "  Watch Bitcoin " = ReplWatch "bitcoin" DEFAULT_INTERVAL.
Proof.
  apply (watch_command_uses_default_interval "  Watch Bitcoin " "bitcoin").
  by vm_compute.
Defined.

(** C9 as stated fails: an interval typed after the id is not used; it
    becomes part of the asset id, and the loop runs with the default. *)
Lemma watch_command_ignores_interval :
  run_interactive_command "watch bitcoin 5" = ReplWatch "bitcoin 5" 30
  ∧ run_interactive_command "watch bitcoin 5" ≠ ReplWatch "bitcoin" 5.
Proof. split; [by vm_compute|]. vm_compute. discriminate. Qed.
(** ** The watch loop *)

Ltac bind_step :=
  match goal with
  | |- context [@mbind M M_bind _ _ ?f (?t, inr ?a)] =>
      rewrite (bind_ret_l t a f); cbn [trace outcome fst snd ret]; cbn beta iota
  end.

Lemma time_sleep_cases interval now b :
  time_sleep interval now b =
    if (interval <? - SLEEP_MAX) || (SLEEP_MAX <? interval) then ([], inl OverflowError)
    else if interval <? 0 then ([], inl ValueError)
    else if TIME_MAX <? now + interval * 10 ^ 9 then ([], inl OSError)
    else ([Sleep interval], if b then inl KeyboardInterrupt else inr tt).
Proof. unfold time_sleep. repeat case_match; reflexivity. Qed.

Lemma time_sleep_accepts interval c :
  sleep_accepted interval c →
  time_sleep interval (monotonic c) (sleep_interrupted c)
  = ([Sleep interval], if sleep_interrupted c then inl KeyboardInterrupt else inr tt).
Proof.
  intros [Hi Hd]. rewrite time_sleep_cases.
  destruct (Z.ltb_spec interval (- SLEEP_MAX)); [unfold SLEEP_MAX in *; lia|].
  destruct (Z.ltb_spec SLEEP_MAX interval); [lia|]. cbn [orb].
  destruct (Z.ltb_spec interval 0); [lia|].
  destruct (Z.ltb_spec TIME_MAX (monotonic c + interval * 10 ^ 9)); [lia|done].
Qed.

Lemma watch_body_failed id interval c why :
  reply c = Failed why →
  watch_body id interval c =
    ([price_request id; Print ("Error fetching data: " +:+ why +:+ Py.LF)]
       ++ trace (time_sleep interval (monotonic c) (sleep_interrupted c)),
     outcome (time_sleep interval (monotonic c) (sleep_interrupted c))).
Proof.
  intros E. unfold watch_body, get_crypto_price, print, emit. rewrite E.
  repeat bind_step. unfold watch_render, ret. bind_step. rewrite append_assoc.
  destruct (time_sleep _ _). reflexivity.
Qed.

Lemma watch_body_missing id interval c json :
  reply c = Body json → json !! id = None →
  watch_body id interval c =
    (price_request id :: trace (time_sleep interval (monotonic c) (sleep_interrupted c)),
     outcome (time_sleep interval (monotonic c) (sleep_interrupted c))).
Proof.
  intros E Hm. unfold watch_body, get_crypto_price, emit. rewrite E.
  do 2 bind_step. unfold watch_render.
  rewrite Hm, (bool_decide_eq_false_2 (is_Some None)) by (by intros [? ?]).
  rewrite andb_false_r. unfold ret. bind_step.
  destruct (time_sleep _ _). reflexivity.
Qed.

Lemma watch_body_interrupted id interval c :
  reply c = Interrupted →
  watch_body id interval c = ([price_request id], inl KeyboardInterrupt).
Proof.
  intros E. unfold watch_body, get_crypto_price, emit. rewrite E. reflexivity.
Qed.

Lemma found_quote (json : gmap string (gmap string pyval)) id data :
  json !! id = Some data →
  negb (bool_decide (json = ∅)) && bool_decide (is_Some (json !! id)) = true.
Proof.
  intros H. rewrite bool_decide_eq_false_2, bool_decide_eq_true_2; [done|by rewrite H|].
  intros ->. by rewrite lookup_empty in H.
Qed.

(** A cycle with a quote that has a numeric price and change. *)
Lemma watch_body_quote id interval c json data p ch :
  reply c = Body json → json !! id = Some data →
  data !! "usd" = Some (VNum p) → get_or_zero data "usd_24h_change" = VNum ch →
  watch_body id interval c
  = (price_request id
       :: Print (Py.CR +:+ "[" +:+ clock c +:+ "] " +:+ Py.upper id +:+ ": " +:+ format_price p
                 +:+ " (" +:+ format_change ch +:+ ")")
       :: trace (time_sleep interval (monotonic c) (sleep_interrupted c)),
     outcome (time_sleep interval (monotonic c) (sleep_interrupted c))).
Proof.
  intros Hr Hj Hd Hch.
  unfold watch_body, get_crypto_price, emit. rewrite Hr. do 2 bind_step.
  unfold watch_render. rewrite (found_quote json id data Hj), Hj.
  unfold subscript, vs_currency. rewrite Hd.
  change ("usd" +:+ "_24h_change") with "usd_24h_change". rewrite Hch.
  cbn [format_price_of format_change_of]. unfold emit, ret. repeat bind_step.
  destruct (time_sleep _ _ _). reflexivity.
Qed.

(** Whatever the interval, a cycle that gets to its sleep asks for that
    interval and ends as the sleep does. *)
Lemma watch_body_sleeps id interval c :
  reaches_sleep id c →
  outcome (watch_body id interval c)
  = outcome (time_sleep interval (monotonic c) (sleep_interrupted c)).
Proof.
  unfold reaches_sleep. destruct (reply c) as [|why|json] eqn:E; [done|..].
  - intros _. by rewrite (watch_body_failed _ _ _ why).
  - destruct (json !! id) as [data|] eqn:Hj.
    + intros [[p Hp] [ch Hch]]. by rewrite (watch_body_quote _ _ _ json data p ch).
    + intros _. by rewrite (watch_body_missing _ _ _ json).
Qed.

Lemma run_app s env1 env2 : run s (env1 ++ env2) = run (run s env1) env2.
Proof. apply fold_left_app. Qed.

Lemma step_halted s c : state s ≠ Running → step s c = s.
Proof. unfold step. by destruct (state s). Qed.

Lemma run_halted s env : state s ≠ Running → run s env = s.
Proof.
  intros H. induction env as [|c env IH]; [done|].
  cbn [run fold_left]. rewrite step_halted by done. apply IH.
Qed.

Lemma step_running s c :
  state s = Running →
  step s c =
    {| assetId := assetId s; intervalSeconds := intervalSeconds s;
       state := match outcome (watch_body (assetId s) (intervalSeconds s) c) with
                | inr _ => Running
                | inl KeyboardInterrupt => Stopped
                | inl e => Crashed e
                end;
       out := out s ++ trace (watch_body (assetId s) (intervalSeconds s) c) ++
              match outcome (watch_body (assetId s) (intervalSeconds s) c) with
              | inl KeyboardInterrupt => [stop_notice]
              | _ => []
              end |}.
Proof.
  intros H. unfold step, trace, outcome. rewrite H.
  by destruct (watch_body _ _ c).
Qed.

Lemma step_assetId s c : assetId (step s c) = assetId s.
Proof. unfold step. destruct (state s); try done. by destruct (watch_body _ _ c). Qed.

Lemma step_interval s c : intervalSeconds (step s c) = intervalSeconds s.
Proof. unfold step. destruct (state s); try done. by destruct (watch_body _ _ c). Qed.

Lemma run_assetId s env : assetId (run s env) = assetId s.
Proof.
  revert s. induction env as [|c env IH]; intros s; [done|].
  cbn [run fold_left]. fold (run (step s c) env). by rewrite IH, step_assetId.
Qed.

Lemma run_interval s env : intervalSeconds (run s env) = intervalSeconds s.
Proof.
  revert s. induction env as [|c env IH]; intros s; [done|].
  cbn [run fold_left]. fold (run (step s c) env). by rewrite IH, step_interval.
Qed.

Lemma run_cons s c env : run s (c :: env) = run (step s c) env.
Proof. reflexivity. Qed.






(** *** What a computation can write and how it can end *)

Lemma trace_bind {A B} (m : M A) (f : A → M B) :
  trace (m ≫= f)
  = trace m ++ match outcome m with inr a => trace (f a) | inl _ => [] end.
Proof.
  destruct m as [t [e|a]]; cbn; [by rewrite app_nil_r|].
  unfold mbind, M_bind, bind. by destruct (f a).
Qed.

Lemma outcome_bind {A B} (m : M A) (f : A → M B) :
  outcome (m ≫= f)
  = match outcome m with inr a => outcome (f a) | inl e => inl e end.
Proof.
  destruct m as [t [e|a]]; cbn; [done|].
  unfold mbind, M_bind, bind. by destruct (f a).
Qed.

Lemma trace_bind_Forall {A B} (P : event → Prop) (m : M A) (f : A → M B) :
  Forall P (trace m) → (∀ a, Forall P (trace (f a))) → Forall P (trace (m ≫= f)).
Proof.
  intros Hm Hf. rewrite trace_bind. apply Forall_app. split; [done|].
  destruct (outcome m); [constructor|apply Hf].
Qed.

Lemma subscript_silent d k : trace (subscript d k) = [].
Proof. unfold subscript. by destruct (d !! k). Qed.

Lemma format_price_of_silent v : trace (format_price_of v) = [].
Proof. by destruct v. Qed.

Lemma format_change_of_silent v : trace (format_change_of v) = [].
Proof. by destruct v. Qed.

Lemma watch_line_not_notice s : Print (Py.CR +:+ s) ≠ stop_notice.
Proof. discriminate. Qed.

Lemma error_line_not_notice s : Print (("Error fetching data: " +:+ s) +:+ Py.LF) ≠ stop_notice.
Proof. discriminate. Qed.

Lemma watch_render_events interval id now pd :
  Forall (body_event interval) (trace (watch_render id now pd)).
Proof.
  unfold watch_render. destruct pd as [json|]; [|constructor].
  case_match; [|constructor]. destruct (json !! id) as [data|]; [|constructor].
  apply trace_bind_Forall; [rewrite subscript_silent; constructor|intros price].
  apply trace_bind_Forall; [rewrite format_price_of_silent; constructor|intros p].
  apply trace_bind_Forall; [rewrite format_change_of_silent; constructor|intros ch].
  repeat constructor. apply watch_line_not_notice.
Qed.

Lemma get_crypto_price_events interval id r :
  Forall (body_event interval) (trace (get_crypto_price id r)).
Proof.
  unfold get_crypto_price. apply trace_bind_Forall; [by repeat constructor|intros _].
  destruct r as [|why|json]; [constructor| |constructor].
  apply trace_bind_Forall; [|intros; constructor].
  repeat constructor. apply error_line_not_notice.
Qed.

Lemma time_sleep_events interval now b :
  Forall (body_event interval) (trace (time_sleep interval now b)).
Proof. rewrite time_sleep_cases. repeat case_match; by repeat constructor. Qed.

Lemma watch_body_events id interval c :
  Forall (body_event interval) (trace (watch_body id interval c)).
Proof.
  unfold watch_body.
  apply trace_bind_Forall; [apply get_crypto_price_events|intros pd].
  apply trace_bind_Forall; [apply watch_render_events|intros _].
  apply time_sleep_events.
Qed.

Lemma watch_render_not_interrupted id now pd :
  outcome (watch_render id now pd) ≠ inl KeyboardInterrupt.
Proof.
  unfold watch_render, subscript, get_or_zero. destruct pd as [json|]; [|done].
  case_match; [|done]. destruct (json !! id) as [data|]; [|done].
  destruct (data !! vs_currency) as [[|q|s]|]; try done.
  destruct (default (VNum 0) (data !! (vs_currency +:+ "_24h_change"))); done.
Qed.

(** An interrupt ends the body right after the blocking call it hit. *)
Lemma watch_body_interrupt id interval c :
  outcome (watch_body id interval c) = inl KeyboardInterrupt →
  cancelled c
  ∧ ∃ t op, trace (watch_body id interval c) = t ++ [op]
            ∧ (op = price_request id ∨ op = Sleep interval).
Proof.
  destruct (reply c) as [|why|json] eqn:E.
  { intros _. split; [by left|]. rewrite watch_body_interrupted by done.
    exists [], (price_request id). split; [done|by left]. }
  all: unfold watch_body; rewrite outcome_bind, trace_bind, E;
    set (pd := outcome (get_crypto_price id _));
    assert (Hpd : ∃ a, pd = inr a) by (subst pd; eexists; reflexivity);
    destruct Hpd as [a ->]; rewrite outcome_bind, trace_bind;
    pose proof (watch_render_not_interrupted id (clock c) a) as Hr;
    destruct (outcome (watch_render id (clock c) a)) as [e|[]]; [by intros ?; simplify_eq| ];
    rewrite time_sleep_cases; repeat case_match; try done; intros _;
    (split; [by right|]); eexists _, (Sleep interval);
    (split; [|by right]); cbn [trace fst]; by rewrite !app_assoc.
Qed.

Lemma watch_body_cancelled id interval c :
  cancelled c → (reply c = Interrupted → outcome (watch_body id interval c) = inl KeyboardInterrupt)
  ∧ outcome (watch_body id interval c) ≠ inr tt.
Proof.
  intros Hc. split.
  { intros E. by rewrite watch_body_interrupted. }
  destruct (reply c) as [|why|json] eqn:E.
  { by rewrite watch_body_interrupted. }
  all: destruct Hc as [Hc|Hc]; [congruence|];
    unfold watch_body; rewrite outcome_bind, E;
    set (pd := outcome (get_crypto_price id _));
    assert (Hpd : ∃ a, pd = inr a) by (subst pd; eexists; reflexivity);
    destruct Hpd as [a ->]; rewrite outcome_bind;
    destruct (outcome (watch_render id (clock c) a)) as [e|[]]; [done|];
    rewrite Hc, time_sleep_cases; repeat case_match; done.
Qed.

(** *** Sessions *)

Lemma body_event_not_notice interval ev : body_event interval ev → ev ≠ stop_notice.
Proof. destruct ev; [done|discriminate|discriminate]. Qed.

Lemma count_notices_app t1 t2 : count_notices (t1 ++ t2) = (count_notices t1 + count_notices t2)%nat.
Proof. unfold count_notices. by rewrite filter_app, length_app. Qed.

Lemma count_notices_none interval t : Forall (body_event interval) t → count_notices t = 0%nat.
Proof.
  unfold count_notices. induction 1 as [|ev t Hev _ IH]; [done|].
  rewrite filter_cons_False by (by eapply body_event_not_notice). apply IH.
Qed.

Lemma start_state id interval : state (start (new_session id interval)) = Running.
Proof. reflexivity. Qed.

Lemma start_events id interval :
  Forall (λ ev, ev ≠ stop_notice ∧ ∀ secs, ev ≠ Sleep secs) (out (start (new_session id interval))).
Proof. cbn. repeat constructor; discriminate. Qed.



Lemma step_tally s c :
  count_notices (out s) = match state s with Stopped => 1 | _ => 0 end%nat →
  count_notices (out (step s c)) = match state (step s c) with Stopped => 1 | _ => 0 end%nat.
Proof.
  intros H. destruct (decide (state s = Running)) as [Hr|Hr]; [|by rewrite step_halted].
  rewrite step_running by done. cbn [out state].
  rewrite !count_notices_app, H, Hr.
  rewrite (count_notices_none (intervalSeconds s)) by apply watch_body_events.
  destruct (outcome _) as [[]|]; reflexivity.
Qed.

Lemma run_tally env : ∀ s,
  count_notices (out s) = match state s with Stopped => 1 | _ => 0 end%nat →
  count_notices (out (run s env)) = match state (run s env) with Stopped => 1 | _ => 0 end%nat.
Proof.
  induction env as [|c env IH]; intros s H; [done|].
  rewrite run_cons. by apply IH, step_tally.
Qed.

Lemma run_stopped env : ∀ s,
  state s = Running → state (run s env) = Stopped →
  ∃ before c after t op,
    env = before ++ c :: after
    ∧ state (run s before) = Running
    ∧ cancelled c
    ∧ trace (watch_body (assetId s) (intervalSeconds s) c) = t ++ [op]
    ∧ (op = price_request (assetId s) ∨ op = Sleep (intervalSeconds s))
    ∧ out (run s env) = out (run s before) ++ t ++ [op; stop_notice].
Proof.
  induction env as [|c env IH]; intros s Hr Hs; [cbn in Hs; congruence|].
  rewrite run_cons in Hs.
  pose proof (step_running s c Hr) as Hstep.
  destruct (outcome (watch_body (assetId s) (intervalSeconds s) c)) as [e|[]] eqn:Ho.
  - assert (Hne : state (step s c) ≠ Running) by (rewrite Hstep; cbn; by destruct e).
    rewrite run_halted in Hs by done.
    destruct e; try (rewrite Hstep in Hs; cbn in Hs; congruence).
    destruct (watch_body_interrupt _ _ _ Ho) as (Hc & t & op & Ht & Hop).
    exists [], c, env, t, op. split; [done|]. split; [done|]. split; [done|].
    split; [done|]. split; [done|].
    rewrite run_cons, run_halted by done. rewrite Hstep. cbn [out run fold_left].
    rewrite Ht. by rewrite <- !app_assoc.
  - assert (Hr' : state (step s c) = Running) by (by rewrite Hstep).
    destruct (IH (step s c) Hr' Hs) as (before & c' & after & t & op & -> & Hb & Hc & Ht & Hop & Hout).
    rewrite step_assetId, step_interval in Ht, Hop.
    exists (c :: before), c', after, t, op. rewrite !run_cons. done.
Qed.

Lemma run_stays_stopped s env more :
  state (run s env) = Stopped → run s (env ++ more) = run s env.
Proof. intros H. rewrite run_app. apply run_halted. by rewrite H. Qed.

Lemma run_cancelled s before c after :
  state (run s before) = Running → cancelled c →
  state (run s (before ++ c :: after)) = Stopped
  ∨ (∃ e, state (run s (before ++ c :: after)) = Crashed e ∧ reply c ≠ Interrupted).
Proof.
  intros Hr Hc. rewrite run_app, run_cons.
  set (s' := run s before) in *.
  destruct (watch_body_cancelled (assetId s') (intervalSeconds s') c Hc) as [Hi Hn].
  pose proof (step_running s' c Hr) as Hstep.
  destruct (outcome (watch_body (assetId s') (intervalSeconds s') c)) as [e|[]] eqn:Ho; [|done].
  rewrite run_halted by (rewrite Hstep; cbn; by destruct e).
  rewrite Hstep. cbn [state].
  destruct e; [by left|right; eexists; split; [done|]; intros E; specialize (Hi E); done..].
Qed.

Lemma run_not_idle env : ∀ s, state s ≠ Idle → state (run s env) ≠ Idle.
Proof.
  induction env as [|c env IH]; intros s H; [done|].
  rewrite run_cons. apply IH.
  destruct (decide (state s = Running)) as [Hr|Hr]; [|by rewrite step_halted].
  rewrite step_running by done. cbn [state].
  destruct (outcome _) as [e|[]]; [by destruct e|done].
Qed.

(** A session that is running no more left the loop in the first cycle
    whose body raised. *)
Lemma run_left env : ∀ s,
  state s = Running → state (run s env) ≠ Running →
  ∃ before c after,
    env = before ++ c :: after
    ∧ state (run s before) = Running
    ∧ outcome (watch_body (assetId s) (intervalSeconds s) c) ≠ inr tt
    ∧ run s env = step (run s before) c.
Proof.
  induction env as [|c env IH]; intros s Hr Hs; [done|].
  rewrite run_cons in Hs.
  pose proof (step_running s c Hr) as Hstep.
  destruct (outcome (watch_body (assetId s) (intervalSeconds s) c)) as [e|[]] eqn:Ho.
  - exists [], c, env. split; [done|]. split; [done|]. split; [by rewrite Ho|].
    change (run (step s c) env = step s c).
    apply run_halted. rewrite Hstep. cbn. by destruct e.
  - assert (Hr' : state (step s c) = Running) by (by rewrite Hstep).
    destruct (IH (step s c) Hr' Hs) as (before & c' & after & -> & Hb & Hc & E).
    rewrite step_assetId, step_interval in Hc.
    exists (c :: before), c', after. rewrite !run_cons. done.
Qed.

Lemma run_leaves s before c after :
  state (run s before) = Running →
  outcome (watch_body (assetId s) (intervalSeconds s) c) ≠ inr tt →
  state (run s (before ++ c :: after)) ≠ Running.
Proof.
  intros Hr Hc. rewrite run_app, run_cons.
  pose proof (step_running (run s before) c Hr) as Hstep.
  rewrite run_assetId, run_interval in Hstep.
  destruct (outcome (watch_body (assetId s) (intervalSeconds s) c)) as [e|[]] eqn:Ho; [|done].
  rewrite run_halted; rewrite Hstep; cbn [state]; by destruct e.
Qed.

(** A session that an exception ended wrote nothing after the events of
    the cycle that raised it. *)
Lemma run_crashed_at env s e :
  state s = Running → state (run s env) = Crashed e →
  e ≠ KeyboardInterrupt
  ∧ ∃ before c after t,
      env = before ++ c :: after
      ∧ state (run s before) = Running
      ∧ watch_body (assetId s) (intervalSeconds s) c = (t, inl e)
      ∧ out (run s env) = out (run s before) ++ t.
Proof.
  intros Hr Hs.
  destruct (run_left env s Hr) as (before & c & after & -> & Hb & Hc & E); [by rewrite Hs|].
  pose proof (step_running (run s before) c Hb) as Hstep.
  rewrite run_assetId, run_interval in Hstep.
  rewrite E, Hstep in Hs. rewrite E, Hstep. cbn [state out] in *.
  destruct (watch_body (assetId s) (intervalSeconds s) c) as [t [e'|[]]] eqn:Hw;
    cbn [trace outcome fst snd] in *; [|done].
  destruct e'; simplify_eq; (split; [done|]);
    exists before, c, after, t; by rewrite app_nil_r.
Qed.

(** C2, as the code has it: a watch session leaves the running state in
    two ways, and in the first cycle whose body raises.  When the operator
    interrupts the request or the sleep, the handler writes the stop
    notice and [watch_crypto] returns: nothing is done between the
    interrupted call and the notice, which ends the output and is written
    exactly once.  When a cycle raises anything else, no handler catches
    it: the session ends with that exception, nothing is written after
    the events of the cycle that raised it, and there is no notice.
    Either way the session ignores whatever comes next.  An interrupt
    during the request always stops a running session; one during the
    sleep does unless the cycle raised before sleeping. *)
Theorem watch_leaves_running (crypto_id : string) (interval : Z) (env : list cycle) :
  let s := watch_crypto crypto_id interval env in
  (state s = Running ∨ ended s)
  ∧ (ended s ↔
       ∃ before c after,
         env = before ++ c :: after
         ∧ state (watch_crypto crypto_id interval before) = Running
         ∧ outcome (watch_body crypto_id interval c) ≠ inr tt)
  ∧ (state s = Stopped →
       ∃ before c after t op,
         env = before ++ c :: after
         ∧ state (watch_crypto crypto_id interval before) = Running
         ∧ cancelled c
         ∧ trace (watch_body crypto_id interval c) = t ++ [op]
         ∧ (op = price_request crypto_id ∨ op = Sleep interval)
         ∧ out s = out (watch_crypto crypto_id interval before) ++ t ++ [op; stop_notice])
  ∧ (∀ e, state s = Crashed e →
       e ≠ KeyboardInterrupt
       ∧ ∃ before c after t,
           env = before ++ c :: after
           ∧ state (watch_crypto crypto_id interval before) = Running
           ∧ watch_body crypto_id interval c = (t, inl e)
           ∧ out s = out (watch_crypto crypto_id interval before) ++ t)
  ∧ count_notices (out s) = match state s with Stopped => 1 | _ => 0 end%nat
  ∧ stop_notice
    = Print (String (Py.chr 10) (String (Py.chr 10) ("Stopped watching." +:+ String (Py.chr 10) "")))
  ∧ (ended s → ∀ more, watch_crypto crypto_id interval (env ++ more) = s)
  ∧ (∀ before c after,
       env = before ++ c :: after →
       state (watch_crypto crypto_id interval before) = Running →
       cancelled c →
       (reply c = Interrupted → state s = Stopped)
       ∧ (state s = Stopped ∨ (∃ e, state s = Crashed e ∧ reply c ≠ Interrupted))).
Proof.
  intros s. subst s. unfold watch_crypto, ended.
  set (s0 := start (new_session crypto_id interval)).
  assert (Hends : ∀ st, st ≠ Idle → st ≠ Running → st = Stopped ∨ ∃ e, st = Crashed e).
  { intros [| | |e] H1 H2; [done|done|by left|right; by exists e]. }
  assert (Hnr : ∀ st, (st = Stopped ∨ ∃ e, st = Crashed e) → st ≠ Running).
  { intros st [->|[e ->]]; done. }
  split; [|split; [|split; [|split; [|split; [|split; [|split]]]]]].
  - destruct (decide (state (run s0 env) = Running)) as [Hr|Hr]; [by left|right].
    apply Hends; [by apply run_not_idle|done].
  - split.
    + intros He. apply Hnr in He.
      destruct (run_left env s0 eq_refl He) as (before & c & after & -> & Hb & Hc & _).
      by exists before, c, after.
    + intros (before & c & after & -> & Hb & Hc).
      apply Hends; [by apply run_not_idle|]. by apply (run_leaves s0).
  - intros H. apply (run_stopped env s0); done.
  - intros e H. apply (run_crashed_at env s0 e); done.
  - apply run_tally. by vm_compute.
  - reflexivity.
  - intros He more. rewrite run_app. apply run_halted. by apply Hnr.
  - intros before c after -> Hr Hc.
    pose proof (run_cancelled s0 before c after Hr Hc) as H. split; [|exact H].
    intros Hi. destruct H as [H|(e & _ & H)]; done.
Qed.

Lemma watch_leaves_running_witness :
  state (watch_crypto "bitcoin" 30 [cycle_ok; cycle_interrupted_sleep; cycle_ok]) = Stopped
  ∧ count_notices (out (watch_crypto "bitcoin" 30 [cycle_ok; cycle_interrupted_sleep; cycle_ok])) = 1%nat
  ∧ watch_crypto "bitcoin" 30 ([cycle_ok; cycle_interrupted_sleep; cycle_ok] ++ [cycle_network_error])
    = watch_crypto "bitcoin" 30 [cycle_ok; cycle_interrupted_sleep; cycle_ok].
Proof.
  destruct (watch_leaves_running "bitcoin" 30 [cycle_ok; cycle_interrupted_sleep; cycle_ok])
    as (_ & _ & _ & _ & Hcount & _ & Hstay & Hcancel).
  assert (Hs : state (watch_crypto "bitcoin" 30 [cycle_ok; cycle_interrupted_sleep; cycle_ok]) = Stopped).
  { destruct (Hcancel [cycle_ok] cycle_interrupted_sleep [cycle_ok]) as [_ [H|(e & H & _)]].
    - reflexivity.
    - by vm_compute.
    - by right.
    - exact H.
    - vm_compute in H. discriminate H. }
  split; [exact Hs|]. split.
  - rewrite Hcount, Hs. reflexivity.
  - apply Hstay. by left.
Defined.

(** C2 as stated fails: a session leaves the running state without any
    interrupt when a cycle raises.  A quote without the [usd] field ends
    it with [KeyError], a null 24h change with [TypeError], a negative
    interval with [ValueError] and one whose deadline does not fit the
    clock with [OSError]; no stop notice is written. *)
Lemma watch_ends_without_cancellation :
  Forall (λ c, ¬ cancelled c) [cycle_ok; cycle_no_usd; cycle_ok]
  ∧ state (watch_crypto "bitcoin" 30 [cycle_ok; cycle_no_usd; cycle_ok]) = Crashed (KeyError "usd")
  ∧ state (watch_crypto "bitcoin" 30 [cycle_ok; cycle_no_usd; cycle_ok]) ≠ Running
  ∧ count_notices (out (watch_crypto "bitcoin" 30 [cycle_ok; cycle_no_usd; cycle_ok])) = 0%nat
  ∧ last (out (watch_crypto "bitcoin" 30 [cycle_ok; cycle_no_usd; cycle_ok]))
    = Some (price_request "bitcoin")
  ∧ state (watch_crypto "bitcoin" 30 [cycle_ok; cycle_null_change]) = Crashed TypeError
  ∧ state (watch_crypto "bitcoin" (-5) [cycle_ok]) = Crashed ValueError
  ∧ state (watch_crypto "bitcoin" 9223372036 [cycle_ok]) = Crashed OSError.
Proof.
  split; [repeat constructor; intros [H|H]; discriminate H|].
  assert (E : state (watch_crypto "bitcoin" 30 [cycle_ok; cycle_no_usd; cycle_ok])
              = Crashed (KeyError "usd")) by (by vm_compute).
  split; [exact E|]. split; [by rewrite E|].
  repeat split; by vm_compute.
Qed.

(** *** The interval *)











(** * Further properties *)

(** ** Lengths *)

Lemma len_app s1 s2 : Py.len (s1 +:+ s2) = (Py.len s1 + Py.len s2)%nat.
Proof.
  unfold Py.len. induction s1 as [|c s1 IH]; [done|].
  change (String c s1 +:+ s2) with (String c (s1 +:+ s2)). cbn [String.length]. by rewrite IH.
Qed.

Lemma len_text l : Py.len (Py.text l) = length l.
Proof.
  unfold Py.len, Py.text. induction l as [|c l IH]; [done|].
  cbn [String.string_of_list_ascii String.length length]. by rewrite IH.
Qed.

Lemma len_chars s : length (Py.chars s) = Py.len s.
Proof. by rewrite <- len_text, text_chars. Qed.

Lemma ljust_long w s : (w ≤ Py.len s)%nat → Py.ljust w s = s.
Proof.
  intros H. unfold Py.ljust. replace (w - Py.len s)%nat with 0%nat by lia.
  cbn. clear H. induction s as [|c s IH]; [done|].
  change (String c s +:+ "") with (String c (s +:+ "")). by rewrite IH.
Qed.

Lemma len_ljust w s : Py.len (Py.ljust w s) = Nat.max w (Py.len s).
Proof.
  unfold Py.ljust, Py.repeat_char. rewrite len_app, len_text, length_replicate. lia.
Qed.

(** ** The name column of the table *)

(** X3: the name shown in the table is the name itself when it has at most
    18 characters, and its first 18 characters followed by two dots when it
    is longer; either way it fits the 20 characters of its column, which
    is therefore always exactly 20 wide. *)
Theorem short_name_fits (s : string) :
  ∃ name,
    short_name_of (VStr s) = ([], inr name)
    ∧ ((Py.len s ≤ 18)%nat → name = s)
    ∧ ((18 < Py.len s)%nat → name = Py.slice_to 18 s +:+ ".." ∧ Py.len name = 20%nat)
    ∧ (Py.len name ≤ 20)%nat
    ∧ Py.len (Py.ljust 20 name) = 20%nat.
Proof.
  eexists. split; [reflexivity|].
  assert (Hcut : Py.len (Py.slice_to 18 s) = Nat.min 18 (Py.len s)).
  { unfold Py.slice_to. by rewrite len_text, length_take, len_chars. }
  destruct (Nat.ltb_spec 18 (Py.len s)) as [Hl|Hl].
  - assert (Hn : Py.len (Py.slice_to 18 s +:+ "..") = 20%nat)
      by (rewrite len_app, Hcut; change (Py.len "..") with 2%nat; lia).
    split; [intros ?; lia|]. split; [done|]. split; [lia|]. rewrite len_ljust. lia.
  - assert (E : Py.slice_to 18 s +:+ "" = s).
    { unfold Py.slice_to. rewrite take_ge by (rewrite len_chars; lia).
      rewrite text_chars. apply (ljust_long 0). lia. }
    rewrite E. split; [done|]. split; [intros ?; lia|]. split; [lia|]. rewrite len_ljust. lia.
Qed.

Lemma short_name_fits_witness :
  ∃ name,
    short_name_of (VStr "Wrapped Liquid Staked Ether") = ([], inr name)
    ∧ name = "Wrapped Liquid Sta.."
    ∧ Py.len name = 20%nat.
Proof.
  destruct (short_name_fits "Wrapped Liquid Staked Ether") as (name & E & _ & Hlong & _).
  exists name. split; [exact E|].
  destruct Hlong as [Hn Hl]; [vm_compute; lia|]. split; [|exact Hl].
  rewrite Hn. reflexivity.
Defined.

(** ** The table *)

Lemma len_fixed_two q : (4 ≤ Py.len (Fmt.fixed false 2 q))%nat
  ∧ ((q < 0)%Q → (5 ≤ Py.len (Fmt.fixed false 2 q))%nat).
Proof.
  destruct (fixed_shape false 1 q) as (body & E & ip & frac & Hb & [(c & l & Hip & _) _] & _ & Hlen & _).
  subst body ip. rewrite E, !len_app, !len_text, Hlen. cbn [length].
  change (Py.len ".") with 1%nat. split; [lia|].
  intros H. rewrite (sign_text_neg _ H). change (Py.len "-") with 1%nat. lia.
Qed.

(** X4: the colour sequences count towards the width of the change column.
    A change other than zero gives a styled text of at least 15 bytes, so
    the 12-wide column adds no padding and the visible text is just the
    signed percentage; a change of zero is unstyled and padded to 12. *)
Theorem change_cell_is_not_padded (q : Q) :
  (¬ (q == 0)%Q →
     (15 ≤ Py.len (format_change q))%nat
     ∧ Py.ljust 12 (format_change q) = format_change q
     ∧ strip_style (Py.ljust 12 (format_change q)) = plain_change q)
  ∧ ((q == 0)%Q → Py.ljust 12 (format_change q) = "0.00%       ").
Proof.
  destruct (format_change_cases q) as (Hpos & Hneg & Hzero).
  destruct (len_fixed_two q) as [H4 H5]. split.
  - intros Hnz.
    assert (Hlen : (15 ≤ Py.len (format_change q))%nat).
    { destruct (Qlt_le_dec 0 q) as [H|H].
      - unfold Qlt in H. cbn in H. rewrite (Hpos ltac:(unfold Qlt; cbn; lia)).
        unfold plain_change. destruct (Z.gtb_spec (Qnum q) 0); [|lia].
        rewrite !len_app. change (Py.len GREEN) with 5%nat. change (Py.len RESET) with 4%nat.
        change (Py.len "+") with 1%nat. change (Py.len "%") with 1%nat. lia.
      - assert (Hl : (q < 0)%Q).
        { apply Qle_lteq in H as [H|H]; [done|]. by destruct Hnz. }
        rewrite (Hneg Hl). unfold plain_change.
        unfold Qlt in Hl. cbn in Hl. destruct (Z.gtb_spec (Qnum q) 0); [lia|].
        specialize (H5 ltac:(unfold Qlt; cbn; lia)).
        rewrite !len_app. change (Py.len RED) with 5%nat. change (Py.len RESET) with 4%nat.
        change (Py.len "") with 0%nat. change (Py.len "%") with 1%nat. lia. }
    split; [done|]. rewrite ljust_long by lia. split; [done|].
    destruct (Qlt_le_dec 0 q) as [H|H].
    + rewrite (Hpos H). apply strip_style_wrapped; [by left|apply plain_change_no_escape].
    + assert (Hl : (q < 0)%Q).
      { apply Qle_lteq in H as [H|H]; [done|]. by destruct Hnz. }
      rewrite (Hneg Hl). apply strip_style_wrapped; [by right|apply plain_change_no_escape].
  - intros Hz. destruct (Hzero Hz) as [-> ->]. reflexivity.
Qed.

Lemma change_cell_is_not_padded_witness :
  Py.ljust 12 (format_change (-32 # 10)) = format_change (-32 # 10)
  ∧ strip_style (Py.ljust 12 (format_change (-32 # 10))) = plain_change (-32 # 10)
  ∧ Py.ljust 12 (format_change (0 # 3)) = "0.00%       ".
Proof.
  destruct (change_cell_is_not_padded (-32 # 10)) as [H _].
  destruct H as (_ & H1 & H2); [unfold Qeq; cbn; lia|].
  split; [exact H1|]. split; [exact H2|].
  apply (proj2 (change_cell_is_not_padded (0 # 3))). unfold Qeq. cbn. lia.
Defined.

Lemma table_row_silent c : trace (table_row c) = [].
Proof.
  unfold table_row, subscript, get_or_zero.
  destruct (c !! "symbol") as [[| |sym]|]; try done.
  destruct (c !! "name") as [[| |nm]|]; try done.
  destruct (c !! "current_price") as [[|p|]|]; try done.
  destruct (default (VNum 0) (c !! "price_change_percentage_24h")); try done.
  destruct (default (VNum 0) (c !! "market_cap")); done.
Qed.

Lemma display_rows_app good rest rows :
  Forall2 (λ c row, table_row c = ([], inr row)) good rows →
  display_rows (good ++ rest)
  = (((λ row, Print (row +:+ Py.LF)) <$> rows) ++ trace (display_rows rest),
     outcome (display_rows rest)).
Proof.
  induction 1 as [|c row good rows Hrow _ IH];
    [change ([] ++ rest) with rest; by destruct (display_rows rest)|].
  cbn [app display_rows]. rewrite Hrow, IH. reflexivity.
Qed.

(** X5: the rows of the table are written one at a time: when an entry
    cannot be formatted (a key is missing or a value has the wrong type),
    the header and the rows of the entries before it are already written,
    the exception leaves [display_top_list], and no later entry is shown. *)
Theorem display_top_list_stops_at_bad_entry
    (good : list (gmap string pyval)) (bad : gmap string pyval)
    (rest : list (gmap string pyval)) (e : exn) :
  Forall (λ c, is_market_entry c = true) good →
  outcome (table_row bad) = inl e →
  ∃ rows,
    Forall2 (λ c row, table_row c = ([], inr row)) good rows
    ∧ display_top_list (good ++ bad :: rest)
      = ([Print (header_line +:+ Py.LF); Print (rule_line +:+ Py.LF)]
           ++ ((λ row, Print (row +:+ Py.LF)) <$> rows), inl e).
Proof.
  intros Hgood Hbad.
  destruct (display_rows_ok good Hgood) as (rows & Hrows & _).
  exists rows. split; [done|].
  assert (Hb : display_rows (bad :: rest) = ([], inl e)).
  { cbn [display_rows]. pose proof (table_row_silent bad) as Ht.
    destruct (table_row bad) as [t [e'|row]]; cbn in *; by simplify_eq. }
  unfold display_top_list, print, emit. rewrite !bind_ret_l.
  rewrite (display_rows_app good (bad :: rest) rows Hrows), Hb.
  cbn [trace outcome fst snd]. by rewrite app_nil_r.
Qed.

Lemma display_top_list_stops_at_bad_entry_witness :
  ∃ rows,
    Forall2 (λ c row, table_row c = ([], inr row)) (take 2 sample_markets) rows
    ∧ display_top_list (take 2 sample_markets ++ coin "x" "X" "x" :: drop 2 sample_markets)
      = ([Print (header_line +:+ Py.LF); Print (rule_line +:+ Py.LF)]
           ++ ((λ row, Print (row +:+ Py.LF)) <$> rows), inl (KeyError "current_price")).
Proof.
  apply (display_top_list_stops_at_bad_entry (take 2 sample_markets) (coin "x" "X" "x")
           (drop 2 sample_markets) (KeyError "current_price")).
  - repeat constructor.
  - by vm_compute.
Defined.

(** X6: the limit is only a request parameter: for a non-empty list of
    well-formed records the top command writes one row for every record
    of the reply, however many there are, in the order of the reply; a
    failed request leaves the error line and no table. *)
Theorem show_top_prints_every_entry (limit : Z) (cryptos : list (gmap string pyval)) :
  (cryptos ≠ [] → Forall (λ c, is_market_entry c = true) cryptos →
   ∃ rows,
     Forall2 (λ c row, table_row c = ([], inr row)) cryptos rows
     ∧ length rows = length cryptos
     ∧ show_top limit (Body cryptos)
       = (markets_request limit
            :: [Print (header_line +:+ Py.LF); Print (rule_line +:+ Py.LF)]
            ++ ((λ row, Print (row +:+ Py.LF)) <$> rows), inr tt))
  ∧ ∀ why, show_top limit (Failed why)
           = ([markets_request limit; Print ("Error fetching data: " +:+ why +:+ Py.LF)], inr tt).
Proof.
  assert (Hget : ∀ l, get_top_cryptos limit (Body l) = ([markets_request limit], inr (Some l)))
    by reflexivity.
  split.
  - intros Hne Hwf. destruct (display_rows_ok cryptos Hwf) as (rows & Hrows & E).
    exists rows. split; [done|]. split; [symmetry; by eapply Forall2_length|].
    assert (Hd : display_top_list cryptos
                 = ([Print (header_line +:+ Py.LF); Print (rule_line +:+ Py.LF)]
                      ++ ((λ row, Print (row +:+ Py.LF)) <$> rows), inr tt)).
    { unfold display_top_list, print, emit. rewrite !bind_ret_l, E. reflexivity. }
    unfold show_top. rewrite Hget, bind_ret_l.
    destruct cryptos as [|c cryptos]; [done|].
    change (truthy_list (Some (c :: cryptos))) with true.
    change (default [] (Some (c :: cryptos))) with (c :: cryptos).
    cbv beta iota. rewrite Hd. reflexivity.
  - intros why. unfold show_top, get_top_cryptos, print, emit. repeat bind_step.
    cbn [truthy_list]. unfold ret. cbn. by rewrite append_assoc.
Qed.

Lemma show_top_prints_every_entry_witness :
  ∃ rows,
    length rows = 3%nat
    ∧ show_top 1 (Body sample_markets)
      = (markets_request 1
           :: [Print (header_line +:+ Py.LF); Print (rule_line +:+ Py.LF)]
           ++ ((λ row, Print (row +:+ Py.LF)) <$> rows), inr tt).
Proof.
  destruct (show_top_prints_every_entry 1 sample_markets) as [H _].
  destruct H as (rows & _ & Hl & E); [discriminate|repeat constructor|].
  exists rows. split; [exact Hl|exact E].
Defined.

(** ** [display_crypto] *)

Lemma amount_or_na_number label q :
  amount_or_na label (VNum q)
  = ([], inr (label +:+ ": " +:+ (if Qnum q =? 0 then "N/A" else "$" +:+ Fmt.fixed true 0 q))).
Proof. unfold amount_or_na. cbn [truthy]. by destruct (Qnum q =? 0). Qed.

(** X1: for a record with a string symbol and name and a numeric price,
    [display_crypto] writes exactly five lines: the heading, the price, the
    24h change (that of 0 when the field is absent), the market cap and the
    volume; a market cap or volume that is absent or zero is shown as
    [N/A], any other as a dollar amount without decimals. *)
Theorem display_crypto_lines (rt : runtime) (c : gmap string pyval)
    (sym nm : string) (p ch cap vol : Q) :
  c !! "symbol" = Some (VStr sym) →
  c !! "name" = Some (VStr nm) →
  c !! "current_price" = Some (VNum p) →
  get_or_zero c "price_change_percentage_24h" = VNum ch →
  get_or_zero c "market_cap" = VNum cap →
  get_or_zero c "total_volume" = VNum vol →
  display_crypto rt c =
    ([ Print ((Py.LF +:+ Py.upper sym +:+ " - " +:+ nm) +:+ Py.LF);
       Print (("Price: " +:+ format_price p) +:+ Py.LF);
       Print (("24h Change: " +:+ format_change ch) +:+ Py.LF);
       Print (("Market Cap" +:+ ": " +:+
               (if Qnum cap =? 0 then "N/A" else "$" +:+ Fmt.fixed true 0 cap)) +:+ Py.LF);
       Print (("Volume (24h)" +:+ ": " +:+
               (if Qnum vol =? 0 then "N/A" else "$" +:+ Fmt.fixed true 0 vol)) +:+ Py.LF) ],
     inr tt).
Proof.
  intros Hs Hn Hp Hch Hcap Hvol. unfold display_crypto, subscript.
  rewrite Hs, Hn, Hp, Hch, Hcap, Hvol, !amount_or_na_number. reflexivity.
Qed.

Lemma display_crypto_lines_witness :
  display_crypto sample_runtime
    (<["total_volume" := VNum (0 # 1)]> (market_entry "btc" "Bitcoin" (6543210 # 100) (125 # 100) (1290000 # 1)))
  = ([ Print ((Py.LF +:+ "BTC - Bitcoin") +:+ Py.LF);
       Print ("Price: $65,432.10" +:+ Py.LF);
       Print (("24h Change: " +:+ GREEN +:+ "+1.25%" +:+ RESET) +:+ Py.LF);
       Print ("Market Cap: $1,290,000" +:+ Py.LF);
       Print ("Volume (24h): N/A" +:+ Py.LF) ], inr tt).
Proof.
  apply (display_crypto_lines sample_runtime _ "btc" "Bitcoin" (6543210 # 100) (125 # 100)
           (1290000 # 1) (0 # 1)); by vm_compute.
Defined.

(** X2: [display_crypto] reads the three required fields before it writes
    anything: when [symbol], [name] or [current_price] is missing it raises
    [KeyError] for the first missing one and writes nothing.  A price that
    is present but null is found only after the heading has been written:
    the heading is the whole output and [TypeError] is raised. *)
Theorem display_crypto_missing_field (rt : runtime) (c : gmap string pyval) :
  (c !! "symbol" = None → display_crypto rt c = ([], inl (KeyError "symbol")))
  ∧ (∀ sym, c !! "symbol" = Some (VStr sym) → c !! "name" = None →
       display_crypto rt c = ([], inl (KeyError "name")))
  ∧ (∀ sym nm, c !! "symbol" = Some (VStr sym) → c !! "name" = Some nm →
       c !! "current_price" = None →
       display_crypto rt c = ([], inl (KeyError "current_price")))
  ∧ (∀ sym nm, c !! "symbol" = Some (VStr sym) → c !! "name" = Some nm →
       c !! "current_price" = Some VNone →
       display_crypto rt c
       = ([Print ((Py.LF +:+ Py.upper sym +:+ " - " +:+ str_of rt nm) +:+ Py.LF)], inl TypeError)).
Proof.
  unfold display_crypto, subscript. repeat split.
  - by intros ->.
  - by intros sym -> ->.
  - by intros sym nm -> -> ->.
  - by intros sym nm -> -> ->.
Qed.

Lemma display_crypto_missing_field_witness :
  display_crypto sample_runtime (coin "bitcoin" "Bitcoin" "btc") = ([], inl (KeyError "current_price"))
  ∧ display_crypto sample_runtime (<["current_price" := VNone]> (coin "bitcoin" "Bitcoin" "btc"))
    = ([Print ((Py.LF +:+ "BTC - Bitcoin") +:+ Py.LF)], inl TypeError).
Proof.
  destruct (display_crypto_missing_field sample_runtime (coin "bitcoin" "Bitcoin" "btc"))
    as (_ & _ & H3 & _).
  destruct (display_crypto_missing_field sample_runtime
              (<["current_price" := VNone]> (coin "bitcoin" "Bitcoin" "btc")))
    as (_ & _ & _ & H4).
  split.
  - apply (H3 "btc" (VStr "Bitcoin")); by vm_compute.
  - apply (H4 "btc" (VStr "Bitcoin")); by vm_compute.
Defined.

(** ** The [search] branches *)

Ltac bind_first :=
  match goal with
  | |- context [@mbind M M_bind _ _ ?f (?t, inr ?a)] => rewrite (bind_ret_l t a f)
  end.

Lemma print_then {B} (s : string) (f : unit → M B) :
  print s ≫= f = (Print (s +:+ Py.LF) :: trace (f tt), outcome (f tt)).
Proof. unfold print, emit. by rewrite bind_ret_l. Qed.

Ltac print_step :=
  match goal with
  | |- context [@mbind M M_bind _ _ ?f (print ?s)] => rewrite (print_then s f); cbv beta
  end.

Lemma coin_text_ok rt c : is_coin c = true → coin_text rt c = ([], inr (coin_label c)).
Proof.
  unfold is_coin, coin_text, coin_label, subscript. intros H.
  destruct (c !! "name") as [[| |nm]|]; try done.
  destruct (c !! "symbol") as [[| |sym]|]; try done.
  destruct (c !! "id") as [[| |id]|]; done.
Qed.

Lemma for_each_coins rt (pre : string) coins :
  Forall (λ c, is_coin c = true) coins →
  for_each (λ coin, t ← coin_text rt coin; print (pre +:+ t)) coins
  = ((λ c, Print ((pre +:+ coin_label c) +:+ Py.LF)) <$> coins, inr tt).
Proof.
  induction 1 as [|c coins Hc _ IH]; [done|].
  cbn [for_each]. rewrite coin_text_ok, IH by done. reflexivity.
Qed.

Lemma for_each_from_coins rt coins : ∀ i,
  Forall (λ c, is_coin c = true) coins →
  for_each_from i
    (λ k coin, t ← coin_text rt coin; print (Py.str_int (Z.of_nat k) +:+ ". " +:+ t)) coins
  = (imap (λ k c, Print ((Py.str_int (Z.of_nat (i + k)) +:+ ". " +:+ coin_label c) +:+ Py.LF)) coins,
     inr tt).
Proof.
  induction coins as [|c coins IH]; intros i Hall; [done|].
  apply Forall_cons in Hall as [Hc Hall].
  cbn [for_each_from imap]. rewrite coin_text_ok, IH by done.
  unfold print, emit. repeat bind_step.
  cbn [app]. f_equal. f_equal.
  - by rewrite Nat.add_0_r.
  - apply imap_ext. intros k x _. cbn. by rewrite Nat.add_succ_r.
Qed.

Lemma search_crypto_body query json :
  search_crypto query (Body json)
  = ([search_request query], inr (Some (take 10 (default [] (json !! "coins"))))).
Proof. reflexivity. Qed.

Lemma search_crypto_failed query why :
  search_crypto query (Failed why)
  = ([search_request query; Print ("Error searching: " +:+ why +:+ Py.LF)], inr None).
Proof.
  unfold search_crypto, print, emit. rewrite !bind_ret_l. cbn. by rewrite append_assoc.
Qed.

(** X7: the search command of [main] reports a failed request as no
    result: after the [Error searching] line it still writes [No results
    found.]; an empty or absent list of matches gives that line alone;
    a non-empty list of matches gives a heading and one line for each of
    the first ten, in order. *)
Theorem main_search_reports (rt : runtime) (query : string) :
  (∀ why, main_search rt query (Failed why)
          = ([ search_request query;
               Print ("Error searching: " +:+ why +:+ Py.LF);
               Print ("No results found." +:+ Py.LF) ], inr tt))
  ∧ (∀ json, default [] (json !! "coins") = [] →
       main_search rt query (Body json)
       = ([search_request query; Print ("No results found." +:+ Py.LF)], inr tt))
  ∧ (∀ json, default [] (json !! "coins") ≠ [] →
       Forall (λ c, is_coin c = true) (default [] (json !! "coins")) →
       main_search rt query (Body json)
       = (search_request query
            :: Print (("Search results for '" +:+ query +:+ "':") +:+ Py.LF)
            :: ((λ c, Print (("- " +:+ coin_label c) +:+ Py.LF))
                  <$> take 10 (default [] (json !! "coins"))),
          inr tt)).
Proof.
  split; [|split].
  - intros why. unfold main_search. rewrite search_crypto_failed. bind_first. reflexivity.
  - intros json H. unfold main_search. rewrite search_crypto_body. bind_first. cbv beta. rewrite H. reflexivity.
  - intros json Hne Hall. unfold main_search. rewrite search_crypto_body. bind_first.
    set (coins := default [] (json !! "coins")) in *.
    assert (Ht : Forall (λ c, is_coin c = true) (take 10 coins)) by by apply Forall_take.
    destruct coins as [|c coins]; [done|].
    change (truthy_list (Some (take 10 (c :: coins)))) with true.
    change (default [] (Some (take 10 (c :: coins)))) with (take 10 (c :: coins)).
    cbv beta iota. print_step.
    rewrite (for_each_coins rt "- " _ Ht). reflexivity.
Qed.

Lemma main_search_reports_witness :
  main_search sample_runtime "coin" (Body ∅)
    = ([search_request "coin"; Print ("No results found." +:+ Py.LF)], inr tt)
  ∧ main_search sample_runtime "coin" (Body {["coins" := take 2 sample_coins]})
    = (search_request "coin"
         :: Print (("Search results for '" +:+ "coin" +:+ "':") +:+ Py.LF)
         :: ((λ c, Print (("- " +:+ coin_label c) +:+ Py.LF)) <$> take 10 (take 2 sample_coins)),
       inr tt).
Proof.
  destruct (main_search_reports sample_runtime "coin") as (_ & Hnone & Hsome).
  split; [by apply Hnone|].
  specialize (Hsome {["coins" := take 2 sample_coins]}).
  rewrite lookup_singleton_eq in Hsome. apply Hsome; [discriminate|repeat constructor].
Defined.

(** X8: the search command of the interactive mode numbers its result
    lines from 1, in the order of the reply, and shows at most ten. *)
Theorem interactive_search_numbers_results (rt : runtime) (query : string)
    (json : gmap string (list (gmap string pyval))) :
  default [] (json !! "coins") ≠ [] →
  Forall (λ c, is_coin c = true) (default [] (json !! "coins")) →
  ∃ lines,
    interactive_search rt query (Body json)
    = (search_request query
         :: Print ((Py.LF +:+ "Search results for '" +:+ query +:+ "':") +:+ Py.LF)
         :: lines, inr tt)
    ∧ lines = imap (λ k c, Print ((Py.str_int (Z.of_nat (1 + k)) +:+ ". " +:+ coin_label c) +:+ Py.LF))
                   (take 10 (default [] (json !! "coins")))
    ∧ (length lines ≤ 10)%nat.
Proof.
  intros Hne Hall. eexists. split; [|split; [reflexivity|]].
  - unfold interactive_search. rewrite search_crypto_body. bind_first.
    set (coins := default [] (json !! "coins")) in *.
    assert (Ht : Forall (λ c, is_coin c = true) (take 10 coins)) by by apply Forall_take.
    destruct coins as [|c coins]; [done|].
    change (truthy_list (Some (take 10 (c :: coins)))) with true.
    change (default [] (Some (take 10 (c :: coins)))) with (take 10 (c :: coins)).
    cbv beta iota. print_step.
    rewrite (for_each_from_coins rt _ 1 Ht). reflexivity.
  - rewrite length_imap, length_take. lia.
Qed.

Lemma interactive_search_numbers_results_witness :
  ∃ lines,
    interactive_search sample_runtime "coin" (Body {["coins" := take 2 sample_coins]})
    = (search_request "coin"
         :: Print ((Py.LF +:+ "Search results for 'coin':") +:+ Py.LF)
         :: lines, inr tt)
    ∧ (length lines ≤ 10)%nat.
Proof.
  destruct (interactive_search_numbers_results sample_runtime "coin"
              {["coins" := take 2 sample_coins]}) as (lines & E & _ & Hl).
  - rewrite lookup_singleton_eq. discriminate.
  - rewrite lookup_singleton_eq. repeat constructor.
  - exists lines. split; [exact E|exact Hl].
Defined.

(** ** The branches of [main] *)

Lemma for_each_print lines :
  for_each print lines = ((λ l, Print (l +:+ Py.LF)) <$> lines, inr tt).
Proof.
  induction lines as [|l lines IH]; [done|].
  cbn [for_each]. rewrite print_then, IH. reflexivity.
Qed.

(** X9: without options [main] writes the usage lines after the top-10
    table whenever the table part returns: also when the request failed
    (after the error line) and when the list is empty (no table at all);
    when the table part raises, the usage lines are not written. *)
Theorem main_default_shows_usage (r : http_reply (list (gmap string pyval))) :
  main_default r
  = (trace (show_top 10 r)
       ++ match outcome (show_top 10 r) with
          | inr _ => (λ l, Print (l +:+ Py.LF)) <$> usage_lines
          | inl _ => []
          end,
     outcome (show_top 10 r))
  ∧ (∀ why, r = Failed why →
       main_default r
       = ([markets_request 10; Print ("Error fetching data: " +:+ why +:+ Py.LF)]
            ++ ((λ l, Print (l +:+ Py.LF)) <$> usage_lines), inr tt))
  ∧ (r = Body [] →
       main_default r
       = (markets_request 10 :: ((λ l, Print (l +:+ Py.LF)) <$> usage_lines), inr tt))
  ∧ (r = Interrupted → main_default r = ([markets_request 10], inl KeyboardInterrupt)).
Proof.
  assert (Hgen : main_default r
    = (trace (show_top 10 r)
         ++ match outcome (show_top 10 r) with
            | inr _ => (λ l, Print (l +:+ Py.LF)) <$> usage_lines
            | inl _ => []
            end, outcome (show_top 10 r))).
  { unfold main_default. destruct (show_top 10 r) as [t [e|[]]].
    - by rewrite bind_raise, app_nil_r.
    - rewrite bind_ret_l, for_each_print. reflexivity. }
  split; [exact Hgen|]. split; [|split].
  - intros why ->. rewrite Hgen.
    assert (E : show_top 10 (Failed why)
                = ([markets_request 10; Print ("Error fetching data: " +:+ why +:+ Py.LF)], inr tt)).
    { unfold show_top, get_top_cryptos, print, emit. repeat bind_step.
      cbn. by rewrite append_assoc. }
    by rewrite E.
  - intros ->. by rewrite Hgen.
  - intros ->. by rewrite Hgen.
Qed.

Lemma main_default_shows_usage_witness :
  length (trace (main_default (Failed "timed out"))) = 8%nat
  ∧ main_default (Body [])
    = (markets_request 10 :: ((λ l, Print (l +:+ Py.LF)) <$> usage_lines), inr tt).
Proof.
  destruct (main_default_shows_usage (Failed "timed out")) as (_ & Hf & _).
  destruct (main_default_shows_usage (Body [])) as (_ & _ & He & _).
  split; [|by apply He].
  rewrite (Hf "timed out" eq_refl). reflexivity.
Defined.

(** X10: [main] tests its options for truth, not for presence: [--top 0]
    and empty texts for [--price], [--search] and [--watch] are passed
    over as if they were absent, so [--top 0] alone ends in the default
    top-10 branch.  Any other count, a negative one included, is handed to
    the top branch unchanged. *)
Theorem main_passes_over_falsy_options
    (top : option Z) (price search watch : option string) (interval : Z) :
  let run t p s w :=
    main {| arg_top := t; arg_price := p; arg_search := s; arg_watch := w;
            arg_interval := interval; arg_interactive := false |} in
  run (Some 0) price search watch = run None price search watch
  ∧ run top (Some "") search watch = run top None search watch
  ∧ run top price (Some "") watch = run top price None watch
  ∧ run top price search (Some "") = run top price search None
  ∧ run (Some 0) None None None = MainDefault
  ∧ ∀ n, n ≠ 0 → run (Some n) price search watch = MainTop n.
Proof.
  cbn zeta. repeat split.
  intros n Hn. unfold main. cbn.
  destruct (Z.eqb_spec n 0); [done|reflexivity].
Qed.

Lemma main_passes_over_falsy_options_witness :
  main {| arg_top := Some (-3); arg_price := Some "bitcoin"; arg_search := None;
          arg_watch := None; arg_interval := 30; arg_interactive := false |}
  = MainTop (-3).
Proof.
  apply (main_passes_over_falsy_options None (Some "bitcoin") None None 30). lia.
Defined.

(** ** Command lines *)

Lemma chars_map_string f s : Py.chars (Py.map_string f s) = f <$> Py.chars s.
Proof.
  unfold Py.chars. induction s as [|c s IH]; [done|].
  cbn [Py.map_string String.list_ascii_of_string fmap list_fmap]. by rewrite IH.
Qed.

Lemma map_string_text f l : Py.map_string f (Py.text l) = Py.text (f <$> l).
Proof.
  unfold Py.text. induction l as [|c l IH]; [done|].
  cbn [Py.map_string String.string_of_list_ascii fmap list_fmap]. by rewrite IH.
Qed.

Lemma map_string_app f s1 s2 :
  Py.map_string f (s1 +:+ s2) = Py.map_string f s1 +:+ Py.map_string f s2.
Proof.
  induction s1 as [|c s1 IH]; [done|].
  change (String c s1 +:+ s2) with (String c (s1 +:+ s2)). cbn [Py.map_string].
  by rewrite IH.
Qed.

Lemma lower_char_idemp c : Py.lower_char (Py.lower_char c) = Py.lower_char c.
Proof. destruct c as [[] [] [] [] [] [] [] []]; reflexivity. Qed.

Lemma isspace_lower_char c : Py.isspace (Py.lower_char c) = Py.isspace c.
Proof. destruct c as [[] [] [] [] [] [] [] []]; reflexivity. Qed.

Lemma lower_idemp s : Py.lower (Py.lower s) = Py.lower s.
Proof.
  unfold Py.lower. induction s as [|c s IH]; [done|].
  cbn. by rewrite lower_char_idemp, IH.
Qed.

Lemma lstrip_chars_lower l :
  Py.lstrip_chars (Py.lower_char <$> l) = Py.lower_char <$> Py.lstrip_chars l.
Proof.
  induction l as [|c l IH]; [done|].
  cbn [fmap list_fmap Py.lstrip_chars]. rewrite isspace_lower_char.
  destruct (Py.isspace c); [apply IH|done].
Qed.

Lemma strip_lower s : Py.strip (Py.lower s) = Py.lower (Py.strip s).
Proof.
  unfold Py.strip, Py.rstrip, Py.lstrip, Py.lower.
  rewrite !chars_text, !chars_map_string, !map_string_text.
  by rewrite lstrip_chars_lower, <- fmap_reverse, lstrip_chars_lower, fmap_reverse.
Qed.

(** A text that does not start with a blank. *)
Lemma lstrip_chars_fixed l : head (Py.lstrip_chars l) = None ∨
  ∃ c, head (Py.lstrip_chars l) = Some c ∧ Py.isspace c = false.
Proof.
  induction l as [|c l IH]; [by left|].
  cbn [Py.lstrip_chars]. destruct (Py.isspace c) eqn:E; [done|]. right. by exists c.
Qed.

Lemma lstrip_chars_id l c : head l = Some c → Py.isspace c = false → Py.lstrip_chars l = l.
Proof. destruct l as [|c' l]; [done|]. intros [= ->] H. cbn. by rewrite H. Qed.

Lemma lstrip_chars_suffix l : ∃ pre, l = pre ++ Py.lstrip_chars l.
Proof.
  induction l as [|c l [pre IH]]; [by exists []|].
  cbn [Py.lstrip_chars]. destruct (Py.isspace c); [|by exists []].
  exists (c :: pre). cbn. by rewrite <- IH.
Qed.

Lemma strip_chars_idemp l :
  let trim k := reverse (Py.lstrip_chars (reverse (Py.lstrip_chars k))) in
  trim (trim l) = trim l.
Proof.
  cbv zeta beta. set (y := Py.lstrip_chars l).
  set (x := reverse (Py.lstrip_chars (reverse y))).
  (* x is y without its trailing blanks *)
  destruct (lstrip_chars_suffix (reverse y)) as [pre Hpre].
  assert (Hy : y = x ++ reverse pre).
  { subst x. rewrite <- reverse_app, <- Hpre. by rewrite reverse_involutive. }
  assert (Hx : Py.lstrip_chars x = x).
  { destruct x as [|c x'] eqn:Ex; [done|].
    destruct (lstrip_chars_fixed l) as [Hn|(c' & Hc' & Hsp)]; fold y in Hn || fold y in Hc'.
    - rewrite Hy in Hn. done.
    - rewrite Hy in Hc'. cbn in Hc'. simplify_eq. cbn. by rewrite Hsp. }
  rewrite Hx. subst x. rewrite reverse_involutive.
  destruct (lstrip_chars_fixed (reverse y)) as [Hn|(c' & Hc' & Hsp)].
  - destruct (Py.lstrip_chars (reverse y)); done.
  - by rewrite (lstrip_chars_id _ c').
Qed.

Lemma strip_idemp s : Py.strip (Py.strip s) = Py.strip s.
Proof.
  unfold Py.strip, Py.rstrip, Py.lstrip. rewrite !chars_text.
  f_equal. apply strip_chars_idemp.
Qed.

Lemma normalize_idemp line : Py.lower (Py.strip (Py.lower (Py.strip line))) = Py.lower (Py.strip line).
Proof. by rewrite strip_lower, strip_idemp, lower_idemp. Qed.

(** X11: the interactive dispatcher looks only at the line stripped of the
    blanks around it and put in lower case: a line and that normal form of
    it are always dispatched alike. *)
Theorem commands_ignore_case_and_outer_blanks (line : string) :
  run_interactive_command line = run_interactive_command (Py.lower (Py.strip line)).
Proof. unfold run_interactive_command. by rewrite normalize_idemp. Qed.

Lemma lower_app_inv p rest :
  Py.lower (p +:+ rest) = p +:+ rest → Py.lower p = p → Py.lower rest = rest.
Proof.
  unfold Py.lower. rewrite map_string_app. intros H Hp. rewrite Hp in H.
  by apply (inj (String.append p)) in H.
Qed.

Lemma slice_from_app p rest : Py.slice_from (Py.len p) (p +:+ rest) = rest.
Proof.
  unfold Py.slice_from. rewrite chars_app, <- len_chars, drop_app_length. apply text_chars.
Qed.

(** X12: a line that, stripped and lowered, reads [search ] or [price ]
    followed by some text is dispatched with that whole text as the query
    or the asset id; the text is in lower case, whatever case was typed. *)
Theorem search_and_price_commands (line rest : string) :
  (Py.lower (Py.strip line) = "search " +:+ rest →
     run_interactive_command line = ReplSearch rest ∧ Py.lower rest = rest)
  ∧ (Py.lower (Py.strip line) = "price " +:+ rest →
     run_interactive_command line = ReplPrice rest ∧ Py.lower rest = rest).
Proof.
  split; intros H.
  - split.
    + unfold run_interactive_command. rewrite H.
      rewrite bool_decide_eq_false_2.
      2:{ rewrite !elem_of_cons, elem_of_nil. intros [E|[E|[E|[]]]]; discriminate E. }
      change (Py.startswith ("search " +:+ rest) "top") with false.
      rewrite startswith_app. cbv iota. f_equal. apply (slice_from_app "search " rest).
    + apply (lower_app_inv "search "); [|done]. rewrite <- H. apply lower_idemp.
  - split.
    + unfold run_interactive_command. rewrite H.
      rewrite bool_decide_eq_false_2.
      2:{ rewrite !elem_of_cons, elem_of_nil. intros [E|[E|[E|[]]]]; discriminate E. }
      change (Py.startswith ("price " +:+ rest) "top") with false.
      change (Py.startswith ("price " +:+ rest) "search ") with false.
      rewrite startswith_app. cbv iota. f_equal. apply (slice_from_app "price " rest).
    + apply (lower_app_inv "price "); [|done]. rewrite <- H. apply lower_idemp.
Qed.

Lemma search_and_price_commands_witness :
  run_interactive_command " Search  Bitcoin Cash " = ReplSearch " bitcoin cash"
  ∧ run_interactive_command "PRICE Bitcoin" = ReplPrice "bitcoin".
Proof.
  split.
  - apply (proj1 (search_and_price_commands " Search  Bitcoin Cash " " bitcoin cash")).
    by vm_compute.
  - apply (proj2 (search_and_price_commands "PRICE Bitcoin" "bitcoin")). by vm_compute.
Defined.

Lemma startswith_top_head cmd :
  Py.startswith cmd "top" = true → ∃ rest, cmd = String "t" rest.
Proof.
  unfold Py.startswith. destruct cmd as [|c cmd]; [cbn; done|].
  cbn [String.prefix]. destruct (ascii_dec "t" c) as [<-|]; [|done]. by exists cmd.
Qed.

Lemma digits_value_decode l :
  Forall is_digit l →
  ∀ acc, fold_left (λ a c, 10 * a + Z.of_nat (Py.ord c - 48)) l acc = decode_from acc l.
Proof.
  induction 1 as [|c l Hc _ IH]; intros acc; [done|].
  rewrite decode_from_digit by by apply digit_not_comma. cbn [fold_left]. apply IH.
Qed.

Lemma isdigit_digits p : Py.isdigit p = true → Forall is_digit (Py.chars p).
Proof.
  unfold Py.isdigit. destruct (Py.chars p) as [|c l]; [done|].
  intros H. apply Forall_forall. intros x Hx.
  apply (proj1 (forallb_forall _ _) H). by apply list_elem_of_In.
Qed.

(** A text of digits denotes a number below the power of ten of its
    length. *)
Lemma digits_value_bound p :
  Py.isdigit p = true → 0 <= Py.digits_value p < 10 ^ Z.of_nat (Py.len p).
Proof.
  intros H%isdigit_digits. unfold Py.digits_value.
  rewrite digits_value_decode by done.
  pose proof (decode_from_bound _ H 0 ltac:(lia)) as Hb. rewrite len_chars in Hb. lia.
Qed.

Lemma int_of_digits_cases p :
  Py.int_of_digits p = if (Py.len p <=? 4300)%nat then Some (Py.digits_value p) else None.
Proof. reflexivity. Qed.

Lemma int_of_digits_bound p limit :
  Py.isdigit p = true → Py.int_of_digits p = Some limit → 0 <= limit < 10 ^ 4300.
Proof.
  intros Hd. rewrite int_of_digits_cases.
  destruct (Nat.leb_spec (Py.len p) 4300) as [Hl|Hl]; [|done]. intros [= <-].
  pose proof (digits_value_bound p Hd) as Hb.
  assert (Hp : 10 ^ Z.of_nat (Py.len p) <= 10 ^ Z.of_nat 4300)
    by (apply Z.pow_le_mono_r; [lia|]; by apply Nat2Z.inj_le).
  change (Z.of_nat 4300) with 4300 in Hp.
  split; [apply Hb|]. eapply Z.lt_le_trans; [apply Hb|exact Hp].
Qed.

(** *** The decimal text of a count *)

Lemma str_int_nonneg n : 0 <= n → Py.str_int n = Py.text (Py.nat_digits (Z.to_N n)).
Proof.
  intros H. unfold Py.str_int. destruct (Z.ltb_spec n 0); [lia|].
  replace (Z.abs_N n) with (Z.to_N n) by lia. reflexivity.
Qed.

Lemma isspace_digit c : is_digit c → Py.isspace c = false.
Proof.
  unfold is_digit, Py.is_digit_char, Py.isspace. intros H.
  apply andb_true_iff in H as [H1 H2]. apply Nat.leb_le in H1, H2.
  repeat (apply orb_false_iff; split); [apply andb_false_iff; right| apply andb_false_iff; right|];
    first [apply Nat.leb_gt; lia | apply Nat.eqb_neq; lia].
Qed.

Lemma lower_char_digit c : is_digit c → Py.lower_char c = c.
Proof.
  unfold is_digit, Py.is_digit_char, Py.lower_char. intros H.
  apply andb_true_iff in H as [H1 H2]. apply Nat.leb_le in H1, H2.
  destruct (Nat.leb_spec 65 (Py.ord c)); [lia|]. done.
Qed.

Lemma split_go_word l : Forall is_digit l → ∀ cur,
  cur ++ l ≠ [] → Py.split_go cur l = [Py.text (reverse cur ++ l)].
Proof.
  induction 1 as [|c l Hc _ IH]; intros cur Hne.
  - rewrite app_nil_r in *. cbn. by destruct cur.
  - cbn [Py.split_go]. rewrite isspace_digit by done.
    rewrite IH by done. by rewrite reverse_cons, <- app_assoc.
Qed.

(** A line made of [top ] and a text of digits is its own normal form, and
    the digits are its second word. *)
Lemma top_line_parts ds :
  Forall is_digit ds → ds ≠ [] →
  Py.lower (Py.strip ("top " +:+ Py.text ds)) = "top " +:+ Py.text ds
  ∧ Py.split ("top " +:+ Py.text ds) = ["top"; Py.text ds].
Proof.
  intros Hd Hne.
  assert (Hstrip : Py.strip ("top " +:+ Py.text ds) = "top " +:+ Py.text ds).
  { unfold Py.strip, Py.rstrip, Py.lstrip. rewrite chars_text, chars_app, chars_text.
    change (Py.lstrip_chars (Py.chars "top " ++ ds)) with (Py.chars "top " ++ ds).
    rewrite reverse_app.
    destruct (reverse ds) as [|c rds] eqn:E.
    { apply (f_equal reverse) in E. rewrite reverse_involutive in E. done. }
    assert (Hc : is_digit c).
    { apply Forall_reverse in Hd. rewrite E in Hd. by inversion Hd. }
    cbn [app Py.lstrip_chars]. rewrite isspace_digit by done.
    change (c :: rds ++ reverse (Py.chars "top ")) with ((c :: rds) ++ reverse (Py.chars "top ")).
    rewrite <- E, <- reverse_app, reverse_involutive, text_app. by rewrite text_chars. }
  assert (Hlow : Py.lower ("top " +:+ Py.text ds) = "top " +:+ Py.text ds).
  { unfold Py.lower. rewrite map_string_app, map_string_text. f_equal. f_equal.
    clear -Hd. induction Hd as [|c l Hc _ IH]; [done|].
    cbn. by rewrite lower_char_digit, IH. }
  split; [by rewrite Hstrip, Hlow|].
  unfold Py.split. rewrite chars_app, chars_text.
  change (Py.split_go [] (Py.chars "top " ++ ds)) with ("top" :: Py.split_go [] ds).
  by rewrite split_go_word.
Qed.

(** What the dispatcher makes of [top ] followed by a text of digits. *)
Lemma top_digits_command ds :
  Forall is_digit ds → ds ≠ [] →
  Py.isdigit (Py.text ds) = true
  ∧ run_interactive_command ("top " +:+ Py.text ds)
    = match Py.int_of_digits (Py.text ds) with
      | Some limit => ReplTop limit
      | None => ReplError ValueError
      end.
Proof.
  intros Hd Hne.
  assert (Hdig : Py.isdigit (Py.text ds) = true).
  { unfold Py.isdigit. rewrite chars_text. destruct ds as [|c ds']; [done|].
    apply forallb_forall. intros x Hx. rewrite Forall_forall in Hd.
    apply Hd. by apply list_elem_of_In. }
  split; [done|].
  destruct (top_line_parts ds Hd Hne) as [Hnorm Hsplit].
  unfold run_interactive_command. rewrite Hnorm.
  rewrite bool_decide_eq_false_2.
  2:{ rewrite !elem_of_cons, elem_of_nil. intros [E|[E|[E|[]]]]; discriminate E. }
  change (Py.startswith ("top " +:+ Py.text ds) "top") with true.
  cbv iota. rewrite Hsplit. cbn [lookup list_lookup]. by rewrite Hdig.
Qed.

Lemma forallb_replicate {A} (f : A → bool) n x : f x = true → forallb f (replicate n x) = true.
Proof. intros H. induction n as [|n IH]; [done|]. cbn. by rewrite H, IH. Qed.

(** A count of 4301 digits: the line is ASCII and [int] refuses it. *)
Lemma long_count_refused :
  is_ascii long_count_line = true
  ∧ run_interactive_command long_count_line = ReplError ValueError.
Proof.
  unfold long_count_line. split.
  - unfold is_ascii. rewrite chars_app, chars_text, forallb_app.
    by rewrite forallb_replicate.
  - destruct (top_digits_command (replicate 4301 "7"%char)) as [_ ->]; [by apply Forall_replicate|done|].
    by rewrite int_of_digits_cases, len_text, length_replicate.
Qed.

(** X13: in the interactive mode the [top] branch takes every line whose
    normal form starts with [top] (so [topic] too), for text within ASCII.
    When the second word is all digits it is read as the count, unless it
    has more than 4300 digits: then [int] raises [ValueError], the loop
    writes an [Error:] line and prompts again, and no request is made.
    Otherwise the count is 10.  A count is never negative, and has at most
    4300 digits. *)
Theorem top_command_count (rt : runtime) (line : string) :
  is_ascii line = true →
  let cmd := Py.lower (Py.strip line) in
  (Py.startswith cmd "top" = true →
     run_interactive_command line =
       match Py.split cmd !! 1%nat with
       | Some p =>
           if Py.isdigit p
           then if (Py.len p <=? 4300)%nat
                then ReplTop (Py.digits_value p) else ReplError ValueError
           else ReplTop 10
       | None => ReplTop 10
       end)
  ∧ (∀ limit, run_interactive_command line = ReplTop limit → 0 <= limit < 10 ^ 4300)
  ∧ (∀ e, run_interactive_command line = ReplError e →
       e = ValueError
       ∧ Py.startswith cmd "top" = true
       ∧ ∃ p, Py.split cmd !! 1%nat = Some p ∧ Py.isdigit p = true ∧ (4300 < Py.len p)%nat)
  ∧ (∀ t, input t = Line line → run_interactive_command line = ReplError ValueError →
       interactive_turn rt t
       = ([prompt; Print ("Error: " +:+ str_exn rt ValueError +:+ Py.LF)], Next)).
Proof.
  intros _. cbn zeta.
  assert (Hten : 10 < 10 ^ 4300).
  { apply (Z.lt_le_trans _ (10 ^ 2)); [by vm_compute|]. apply Z.pow_le_mono_r; lia. }
  split; [|split; [|split]].
  - intros H. unfold run_interactive_command. rewrite H.
    destruct (startswith_top_head _ H) as [rest E].
    rewrite bool_decide_eq_false_2.
    2:{ rewrite E, !elem_of_cons, elem_of_nil. intros [?|[?|[?|[]]]]; discriminate. }
    destruct (Py.split _ !! 1%nat) as [p|]; [|done].
    destruct (Py.isdigit p); [|done].
    rewrite int_of_digits_cases. by destruct (Py.len p <=? 4300)%nat.
  - intros limit. unfold run_interactive_command.
    destruct (bool_decide _); [done|].
    destruct (Py.startswith _ "top").
    + destruct (Py.split _ !! 1%nat) as [p|]; [|by intros [= <-]].
      destruct (Py.isdigit p) eqn:Hd; [|by intros [= <-]].
      destruct (Py.int_of_digits p) as [n|] eqn:Hn; [|done].
      intros [= <-]. by apply (int_of_digits_bound p).
    + repeat case_match; done.
  - intros e. unfold run_interactive_command.
    destruct (bool_decide _); [done|].
    destruct (Py.startswith _ "top").
    + destruct (Py.split _ !! 1%nat) as [p|]; [|done].
      destruct (Py.isdigit p) eqn:Hd; [|done].
      rewrite int_of_digits_cases.
      destruct (Nat.leb_spec (Py.len p) 4300) as [Hl|Hl]; [done|].
      intros [= <-]. split; [done|]. split; [done|]. by exists p.
    + repeat case_match; done.
  - intros t Hin Hcmd. unfold interactive_turn. by rewrite Hin, Hcmd.
Qed.

Lemma top_command_count_witness :
  run_interactive_command "Topic -5" = ReplTop 10
  ∧ 0 <= 25 < 10 ^ 4300
  ∧ interactive_turn sample_runtime (quiet_turn (Line long_count_line))
    = ([prompt; Print ("Error: error" +:+ Py.LF)], Next).
Proof.
  destruct (top_command_count sample_runtime "Topic -5") as (H1 & _); [reflexivity|].
  destruct (top_command_count sample_runtime "top 25") as (_ & H2 & _); [reflexivity|].
  destruct (top_command_count sample_runtime long_count_line) as (_ & _ & _ & H4);
    [exact (proj1 long_count_refused)|].
  split; [|split].
  - rewrite H1; by vm_compute.
  - apply H2. by vm_compute.
  - apply H4; [reflexivity|exact (proj2 long_count_refused)].
Defined.

(** X14: a count goes through the interactive mode unchanged.  For every
    [n >= 0] the decimal text of [n] is all digits and denotes [n].  When
    that text has at most 4300 digits, [int] reads it back as [n], the
    line [top ] followed by it asks for [n] entries, and the request made
    for it carries the same text as its [per_page].  When it has more,
    [int] refuses it and the line raises [ValueError]. *)
Theorem top_count_round_trip (n : Z) :
  0 <= n →
  Py.isdigit (Py.str_int n) = true
  ∧ Py.digits_value (Py.str_int n) = n
  ∧ ((Py.len (Py.str_int n) ≤ 4300)%nat →
       Py.int_of_digits (Py.str_int n) = Some n
       ∧ run_interactive_command ("top " +:+ Py.str_int n) = ReplTop n
       ∧ ∀ r, head (trace (show_top n r))
              = Some (Get (base_url +:+ "/coins/markets")
                          [("vs_currency", "usd"); ("order", "market_cap_desc");
                           ("per_page", Py.str_int n); ("page", "1"); ("sparkline", "false")]))
  ∧ ((4300 < Py.len (Py.str_int n))%nat →
       Py.int_of_digits (Py.str_int n) = None
       ∧ run_interactive_command ("top " +:+ Py.str_int n) = ReplError ValueError).
Proof.
  intros Hn. rewrite str_int_nonneg by done.
  set (ds := Py.nat_digits (Z.to_N n)).
  assert (Hd : Forall is_digit ds) by apply uint_chars_digits.
  assert (Hne : ds ≠ []) by apply nat_digits_nonempty.
  destruct (top_digits_command ds Hd Hne) as [Hdig Hcmd].
  assert (Hval : Py.digits_value (Py.text ds) = n).
  { unfold Py.digits_value. rewrite chars_text, digits_value_decode by done.
    fold (decode ds). unfold ds. change (Py.nat_digits (Z.to_N n)) with (Fmt.int_digits n).
    by apply decode_int_digits. }
  split; [done|]. split; [done|]. split.
  - intros Hlen.
    assert (Hint : Py.int_of_digits (Py.text ds) = Some n).
    { rewrite int_of_digits_cases, Hval.
      by destruct (Nat.leb_spec (Py.len (Py.text ds)) 4300) as [|]; [|lia]. }
    split; [done|]. split; [by rewrite Hcmd, Hint|].
    intros r. unfold show_top, get_top_cryptos, emit. rewrite !trace_bind.
    cbn [trace outcome fst snd app head]. unfold markets_request.
    by rewrite str_int_nonneg.
  - intros Hlen.
    assert (Hint : Py.int_of_digits (Py.text ds) = None).
    { rewrite int_of_digits_cases.
      by destruct (Nat.leb_spec (Py.len (Py.text ds)) 4300) as [|]; [lia|]. }
    split; [done|]. by rewrite Hcmd, Hint.
Qed.

Lemma top_count_round_trip_witness :
  Py.int_of_digits (Py.str_int 250) = Some 250
  ∧ run_interactive_command ("top " +:+ Py.str_int 250) = ReplTop 250.
Proof.
  destruct (top_count_round_trip 250) as (_ & _ & H & _); [lia|].
  destruct H as (H1 & H2 & _); [apply Nat.leb_le; reflexivity|].
  split; [exact H1|exact H2].
Defined.

(** ** The interactive loop *)

Lemma interactive_loop_app rt before after evs :
  interactive_loop rt before = (evs, Active) →
  interactive_loop rt (before ++ after)
  = (evs ++ fst (interactive_loop rt after), snd (interactive_loop rt after)).
Proof.
  revert evs. induction before as [|t before IH]; intros evs H.
  - cbn in H. simplify_eq. cbn. by destruct (interactive_loop rt after).
  - cbn [app interactive_loop] in *.
    destruct (interactive_turn rt t) as [e1 []]; [|done..].
    destruct (interactive_loop rt before) as [e2 s2] eqn:E2. simplify_eq.
    rewrite (IH e2 eq_refl). by rewrite app_assoc.
Qed.

Lemma quit_words line :
  run_interactive_command line = ReplQuit ↔ Py.lower (Py.strip line) ∈ ["quit"; "exit"; "q"].
Proof.
  unfold run_interactive_command. split.
  - intros H. destruct (decide (Py.lower (Py.strip line) ∈ ["quit"; "exit"; "q"])) as [|Hn]; [done|].
    rewrite bool_decide_eq_false_2 in H by done. by repeat case_match.
  - intros H. by rewrite bool_decide_eq_true_2.
Qed.

(** X15: the interactive loop ends on exactly three words, [quit], [exit]
    and [q], in any letter case and with blanks around them.  Such a line
    ends the loop at once: after its prompt nothing more is written and no
    later input is read. *)
Theorem quit_ends_the_loop (rt : runtime) (before after : list turn) (q : turn)
    (line : string) (evs : list event) :
  (run_interactive_command line = ReplQuit
     ↔ Py.lower (Py.strip line) ∈ ["quit"; "exit"; "q"])
  ∧ (interactive_loop rt before = (evs, Active) →
     input q = Line line →
     Py.lower (Py.strip line) ∈ ["quit"; "exit"; "q"] →
     run_interactive rt (before ++ q :: after) = (banner ++ evs ++ [prompt], Ended)).
Proof.
  split; [apply quit_words|].
  intros Hb Hq Hw. apply quit_words in Hw.
  unfold run_interactive. rewrite (interactive_loop_app rt before (q :: after) evs Hb).
  cbn [interactive_loop]. unfold interactive_turn. rewrite Hq, Hw. reflexivity.
Qed.

Lemma quit_ends_the_loop_witness :
  run_interactive sample_runtime
    ([quiet_turn (Line "frobnicate")] ++ quiet_turn (Line "  EXIT ") :: [quiet_turn (Line "top")])
  = (banner ++ [prompt; Print ("Unknown command. Type 'quit' to exit." +:+ Py.LF)] ++ [prompt],
     Ended).
Proof.
  apply (quit_ends_the_loop sample_runtime [quiet_turn (Line "frobnicate")]
           [quiet_turn (Line "top")] (quiet_turn (Line "  EXIT ")) "  EXIT ").
  - by vm_compute.
  - reflexivity.
  - vm_compute. right. left.
Defined.

(** X16: at the end of the input [input] raises [EOFError], which the loop
    reports like any other error and then prompts again: as long as the
    input stays at its end the loop never ends, and each turn writes the
    prompt and one error line. *)
Theorem end_of_input_does_not_end_the_loop (rt : runtime) (turns : list turn) :
  Forall (λ t, input t = EndOfInput) turns →
  run_interactive rt turns
  = (banner ++ flat_map (λ _, [prompt; Print ("Error: EOF when reading a line" +:+ Py.LF)]) turns,
     Active).
Proof.
  intros H. unfold run_interactive.
  assert (E : interactive_loop rt turns
              = (flat_map (λ _, [prompt; Print ("Error: EOF when reading a line" +:+ Py.LF)]) turns,
                 Active)).
  { induction H as [|t turns Ht _ IH]; [done|].
    cbn [interactive_loop flat_map]. unfold interactive_turn. by rewrite Ht, IH. }
  by rewrite E.
Qed.

Lemma end_of_input_does_not_end_the_loop_witness :
  snd (run_interactive sample_runtime (replicate 3 (quiet_turn EndOfInput))) = Active
  ∧ length (fst (run_interactive sample_runtime (replicate 3 (quiet_turn EndOfInput)))) = 8%nat.
Proof.
  rewrite (end_of_input_does_not_end_the_loop sample_runtime (replicate 3 (quiet_turn EndOfInput))).
  - split; reflexivity.
  - repeat constructor.
Defined.

Lemma watch_crypto_interrupted id interval before c after :
  state (watch_crypto id interval before) = Running →
  outcome (watch_body id interval c) = inl KeyboardInterrupt →
  watch_crypto id interval (before ++ c :: after)
  = {| assetId := id; intervalSeconds := interval; state := Stopped;
       out := out (watch_crypto id interval before)
              ++ trace (watch_body id interval c) ++ [stop_notice] |}.
Proof.
  unfold watch_crypto. set (s0 := start (new_session id interval)). intros Hr Ho.
  rewrite run_app, run_cons.
  pose proof (step_running (run s0 before) c Hr) as Hstep.
  rewrite run_assetId, run_interval in Hstep.
  change (assetId s0) with id in Hstep. change (intervalSeconds s0) with interval in Hstep.
  rewrite Ho in Hstep. rewrite run_halted; rewrite Hstep; done.
Qed.

(** X17: what the operator's interrupt does in the interactive mode depends
    on where it arrives.  At the prompt, or during the request of a [top],
    [search] or [price] command, it ends the loop without a message.
    During a watch it only stops the watch, in whatever cycle it arrives
    and whether it hits the request or the sleep: the interrupted call is
    the last thing the watch does, the stop notice follows it, and the
    loop goes on to its next turn.  An interrupt of the request always
    arrives; one of the sleep arrives when the cycle gets to its sleep
    (its reply brings no quote, or a well-formed one) and [time.sleep]
    accepts it. *)
Theorem interrupt_in_interactive_mode (rt : runtime) (t : turn) :
  (input t = CtrlC → interactive_turn rt t = ([prompt], Leave))
  ∧ (∀ line limit, input t = Line line → run_interactive_command line = ReplTop limit →
       markets_reply t = Interrupted →
       interactive_turn rt t = ([prompt; markets_request limit], Leave))
  ∧ (∀ line query, input t = Line line → run_interactive_command line = ReplSearch query →
       search_reply t = Interrupted →
       interactive_turn rt t = ([prompt; search_request query], Leave))
  ∧ (∀ line id, input t = Line line → run_interactive_command line = ReplPrice id →
       price_reply t = Interrupted →
       interactive_turn rt t = ([prompt; price_request id], Leave))
  ∧ (∀ line id interval before c after, input t = Line line →
       run_interactive_command line = ReplWatch id interval →
       ticks t = before ++ c :: after →
       state (watch_crypto id interval before) = Running →
       outcome (watch_body id interval c) = inl KeyboardInterrupt →
       cancelled c
       ∧ ∃ evs op,
           trace (watch_body id interval c) = evs ++ [op]
           ∧ (op = price_request id ∨ op = Sleep interval)
           ∧ interactive_turn rt t
             = (prompt :: out (watch_crypto id interval before) ++ evs
                  ++ [op; Print (String (Py.chr 10) (String (Py.chr 10)
                                   ("Stopped watching." +:+ String (Py.chr 10) "")))],
                Next)
           ∧ ∀ more,
               interactive_loop rt (t :: more)
               = (fst (interactive_turn rt t) ++ fst (interactive_loop rt more),
                  snd (interactive_loop rt more)))
  ∧ (∀ id interval c, reply c = Interrupted →
       outcome (watch_body id interval c) = inl KeyboardInterrupt)
  ∧ (∀ id interval c, reaches_sleep id c → sleep_accepted interval c →
       sleep_interrupted c = true →
       outcome (watch_body id interval c) = inl KeyboardInterrupt).
Proof.
  split; [|split; [|split; [|split; [|split; [|split]]]]].
  - unfold interactive_turn. by intros ->.
  - unfold interactive_turn. by intros line limit -> -> ->.
  - unfold interactive_turn. by intros line query -> -> ->.
  - unfold interactive_turn. by intros line id -> -> ->.
  - intros line id interval before c after Hin Hcmd Ht Hr Ho.
    destruct (watch_body_interrupt id interval c Ho) as (Hc & evs & op & Hev & Hop).
    split; [done|]. exists evs, op. split; [done|]. split; [done|].
    assert (E : interactive_turn rt t
              = (prompt :: out (watch_crypto id interval before) ++ evs
                   ++ [op; Print (String (Py.chr 10) (String (Py.chr 10)
                                    ("Stopped watching." +:+ String (Py.chr 10) "")))],
                 Next)).
    { unfold interactive_turn. rewrite Hin, Hcmd. unfold watch_call.
      rewrite Ht, (watch_crypto_interrupted id interval before c after Hr Ho).
      cbn [state out]. rewrite Hev, <- !app_assoc. reflexivity. }
    split; [exact E|]. intros more. cbn [interactive_loop]. rewrite E.
    cbn [fst]. by destruct (interactive_loop rt more).
  - intros id interval c Hc. by rewrite watch_body_interrupted.
  - intros id interval c Hq Ha Hc.
    by rewrite watch_body_sleeps, time_sleep_accepts, Hc.
Qed.

Lemma interrupt_in_interactive_mode_witness :
  cancelled cycle_interrupted_sleep
  ∧ snd (interactive_turn sample_runtime watch_turn) = Next
  ∧ last (fst (interactive_turn sample_runtime watch_turn)) = Some stop_notice
  ∧ (∀ more, snd (interactive_loop sample_runtime (watch_turn :: more))
             = snd (interactive_loop sample_runtime more))
  ∧ interactive_turn sample_runtime
      {| input := Line "price bitcoin"; markets_reply := Body []; search_reply := Body ∅;
         price_reply := Interrupted; ticks := [] |}
    = ([prompt; price_request "bitcoin"], Leave).
Proof.
  destruct (interrupt_in_interactive_mode sample_runtime watch_turn) as (_ & _ & _ & _ & Hw & _).
  destruct (Hw "watch bitcoin" "bitcoin" 30 [cycle_ok] cycle_interrupted_sleep [cycle_ok])
    as (Hc & evs & op & _ & _ & E & Hloop).
  - reflexivity.
  - by vm_compute.
  - reflexivity.
  - by vm_compute.
  - by vm_compute.
  - split; [exact Hc|]. split; [by rewrite E|]. split; [|split].
    + rewrite E. cbn [fst]. change [op; ?n] with ([op] ++ [n]).
      rewrite !app_assoc, app_comm_cons. apply last_snoc.
    + intros more. by rewrite Hloop.
    + eapply (proj1 (proj2 (proj2 (proj2 (interrupt_in_interactive_mode sample_runtime _)))));
        [reflexivity|by vm_compute|reflexivity].
Defined.

(** X18: a quote record that has the asset id but no [usd] field makes the
    price lookup raise [KeyError]: in the interactive mode the error is
    written as an [Error:] line and the loop prompts again; from the
    command line the same reply makes [main] end with the exception, and
    nothing is written after the request. *)
Theorem price_without_usd (rt : runtime) (t : turn) (line id : string)
    (json : gmap string (gmap string pyval)) (data : gmap string pyval) :
  input t = Line line →
  run_interactive_command line = ReplPrice id →
  price_reply t = Body json →
  json !! id = Some data →
  data !! "usd" = None →
  interactive_turn rt t
  = ([prompt; price_request id; Print ("Error: " +:+ str_exn rt (KeyError "usd") +:+ Py.LF)], Next)
  ∧ main_price id (Body json) = ([price_request id], inl (KeyError "usd")).
Proof.
  intros Hin Hcmd Hr Hj Hd.
  assert (Hne : json ≠ ∅) by (intros ->; by rewrite lookup_empty in Hj).
  split.
  - unfold interactive_turn. rewrite Hin, Hcmd, Hr.
    unfold interactive_price, get_crypto_price, emit. do 2 bind_step.
    rewrite Hj, bool_decide_eq_false_2, bool_decide_eq_true_2 by done.
    cbn [negb andb]. unfold subscript, vs_currency. rewrite Hd. reflexivity.
  - unfold main_price, get_crypto_price, emit. do 2 bind_step.
    rewrite Hj, bool_decide_eq_false_2, bool_decide_eq_true_2 by done.
    cbn [negb andb]. unfold subscript. rewrite Hd. reflexivity.
Qed.

Lemma price_without_usd_witness :
  interactive_turn sample_runtime
    {| input := Line "price bitcoin"; markets_reply := Body []; search_reply := Body ∅;
       price_reply := Body no_usd_payload; ticks := [] |}
  = ([prompt; price_request "bitcoin"; Print ("Error: 'usd'" +:+ Py.LF)], Next)
  ∧ main_price "bitcoin" (Body no_usd_payload) = ([price_request "bitcoin"], inl (KeyError "usd")).
Proof.
  eapply (price_without_usd sample_runtime _ "price bitcoin" "bitcoin" no_usd_payload).
  - reflexivity.
  - by vm_compute.
  - reflexivity.
  - apply lookup_insert_eq.
  - reflexivity.
Defined.

Lemma startswith_split p : ∀ cmd,
  Py.startswith cmd p = true → cmd = p +:+ Py.slice_from (Py.len p) cmd.
Proof.
  unfold Py.startswith, Py.slice_from.
  induction p as [|a p IH]; intros cmd H.
  - change (cmd = Py.text (Py.chars cmd)). by rewrite text_chars.
  - destruct cmd as [|b cmd]; [cbn in H; done|].
    cbn [String.prefix] in H. destruct (ascii_dec a b) as [<-|]; [|done].
    change (String a p +:+ ?s) with (String a (p +:+ s)).
    f_equal. apply (IH cmd H).
Qed.

Lemma normalized_last line pre c :
  Py.chars (Py.lower (Py.strip line)) = pre ++ [c] → Py.isspace c = false.
Proof.
  unfold Py.lower, Py.strip, Py.rstrip, Py.lstrip.
  rewrite chars_map_string, !chars_text.
  set (z := Py.lstrip_chars (reverse _)). intros H.
  apply (f_equal reverse) in H. rewrite <- fmap_reverse, reverse_involutive, reverse_snoc in H.
  destruct (lstrip_chars_fixed (reverse (Py.lstrip_chars (Py.chars line)))) as [Hn|(c0 & Hc0 & Hsp)];
    fold z in Hn || fold z in Hc0.
  - destruct z; done.
  - destruct z as [|c1 z']; [done|]. cbn in Hc0, H. simplify_eq.
    by rewrite isspace_lower_char.
Qed.

Lemma argument_not_empty line (p : string) pre :
  Py.chars p = pre ++ [" "%char] →
  Py.startswith (Py.lower (Py.strip line)) p = true →
  Py.slice_from (Py.len p) (Py.lower (Py.strip line)) ≠ "".
Proof.
  intros Hp Hs E. apply startswith_split in Hs. rewrite E in Hs.
  assert (Hc : Py.chars (Py.lower (Py.strip line)) = pre ++ [" "%char]).
  { rewrite Hs, chars_app, Hp. cbn. by rewrite app_nil_r. }
  by apply normalized_last in Hc.
Qed.

(** X19: the interactive mode never hands an empty query or asset id to a
    command: the blanks at the end of the line are stripped before the
    command word is matched, so [search], [price] and [watch] are only
    recognised when some text follows them. *)
Theorem interactive_argument_never_empty (line : string) :
  match run_interactive_command line with
  | ReplSearch x | ReplPrice x | ReplWatch x _ => x ≠ ""
  | _ => True
  end.
Proof.
  unfold run_interactive_command.
  destruct (bool_decide _); [done|].
  destruct (Py.startswith _ "top"); [by repeat case_match|].
  destruct (Py.startswith _ "search ") eqn:H1.
  { by apply (argument_not_empty line "search " (Py.chars "search")). }
  destruct (Py.startswith _ "price ") eqn:H2.
  { by apply (argument_not_empty line "price " (Py.chars "price")). }
  destruct (Py.startswith _ "watch ") eqn:H3; [|done].
  by apply (argument_not_empty line "watch " (Py.chars "watch")).
Qed.

(** ** More on the watch loop *)

Lemma alternates_prints t k p : Forall (λ ev, is_print ev = true) t →
  alternates p (t ++ k) = alternates p k.
Proof. induction 1 as [|[] t Hev _ IH]; try done. Qed.

Lemma watch_render_prints id now pd :
  Forall (λ ev, is_print ev = true) (trace (watch_render id now pd)).
Proof.
  unfold watch_render. destruct pd as [json|]; [|constructor].
  case_match; [|constructor]. destruct (json !! id) as [data|]; [|constructor].
  apply trace_bind_Forall; [rewrite subscript_silent; constructor|intros price].
  apply trace_bind_Forall; [rewrite format_price_of_silent; constructor|intros p].
  apply trace_bind_Forall; [rewrite format_change_of_silent; constructor|intros ch].
  by repeat constructor.
Qed.

Lemma get_crypto_price_trace id r :
  ∃ ps, trace (get_crypto_price id r) = price_request id :: ps
        ∧ Forall (λ ev, is_print ev = true) ps.
Proof.
  destruct r as [|why|json]; eexists; (split; [reflexivity|]); by repeat constructor.
Qed.

Lemma watch_body_alternates id interval c :
  ∃ b, alternates false (trace (watch_body id interval c)) = Some b
       ∧ (outcome (watch_body id interval c) = inr tt → b = false).
Proof.
  unfold watch_body. rewrite trace_bind, outcome_bind.
  destruct (get_crypto_price_trace id (reply c)) as (ps & -> & Hps).
  unfold price_request. cbn [app alternates]. rewrite alternates_prints by done.
  destruct (outcome (get_crypto_price id (reply c))) as [e|pd];
    [exists true; split; [done|discriminate]|].
  rewrite trace_bind, outcome_bind.
  rewrite alternates_prints by apply watch_render_prints.
  destruct (outcome (watch_render id (clock c) pd)) as [e|[]];
    [exists true; split; [done|discriminate]|].
  rewrite time_sleep_cases. repeat case_match; eexists; (split; [reflexivity|]); done.
Qed.

Lemma alternates_app t1 t2 p b :
  alternates p t1 = Some b → alternates p (t1 ++ t2) = alternates b t2.
Proof.
  revert p. induction t1 as [|[] t1 IH]; intros p H; cbn in *;
    try destruct p; by simplify_eq || apply IH.
Qed.

Lemma run_alternates env : ∀ s,
  match state s with
  | Running => alternates false (out s) = Some false
  | _ => is_Some (alternates false (out s))
  end →
  match state (run s env) with
  | Running => alternates false (out (run s env)) = Some false
  | _ => is_Some (alternates false (out (run s env)))
  end.
Proof.
  induction env as [|c env IH]; intros s H; [done|].
  rewrite run_cons. apply IH.
  destruct (decide (state s = Running)) as [Hr|Hr]; [|by rewrite step_halted].
  rewrite Hr in H. rewrite step_running by done. cbn [state out].
  destruct (watch_body_alternates (assetId s) (intervalSeconds s) c) as (b & Hb & Hret).
  rewrite (alternates_app _ _ _ _ H), (alternates_app _ _ _ _ Hb).
  destruct (outcome (watch_body (assetId s) (intervalSeconds s) c)) as [e|[]].
  - destruct e; cbn; eauto.
  - rewrite (Hret eq_refl). reflexivity.
Qed.

Lemma count_gets_app t1 t2 : count_gets (t1 ++ t2) = (count_gets t1 + count_gets t2)%nat.
Proof. unfold count_gets. by rewrite filter_app, length_app. Qed.

Lemma count_sleeps_app t1 t2 : count_sleeps (t1 ++ t2) = (count_sleeps t1 + count_sleeps t2)%nat.
Proof. unfold count_sleeps. by rewrite filter_app, length_app. Qed.

Lemma count_prints t : Forall (λ ev, is_print ev = true) t →
  count_gets t = 0%nat ∧ count_sleeps t = 0%nat.
Proof.
  unfold count_gets, count_sleeps. induction 1 as [|[] t Hev _ [IH1 IH2]]; done.
Qed.

Lemma watch_body_counts id interval c :
  outcome (watch_body id interval c) = inr tt →
  count_gets (trace (watch_body id interval c)) = 1%nat
  ∧ count_sleeps (trace (watch_body id interval c)) = 1%nat.
Proof.
  unfold watch_body. rewrite trace_bind, outcome_bind.
  destruct (get_crypto_price_trace id (reply c)) as (ps & -> & Hps).
  destruct (count_prints ps Hps) as [Hg Hs].
  destruct (outcome (get_crypto_price id (reply c))) as [e|pd]; [done|].
  rewrite trace_bind, outcome_bind.
  destruct (count_prints _ (watch_render_prints id (clock c) pd)) as [Hg' Hs'].
  destruct (outcome (watch_render id (clock c) pd)) as [e|[]]; [done|].
  rewrite time_sleep_cases. intros H.
  change (price_request id :: ps) with ([price_request id] ++ ps).
  rewrite !count_gets_app, !count_sleeps_app, Hg, Hs, Hg', Hs'.
  repeat case_match; try done.
Qed.

Lemma run_counts env : ∀ s,
  state s = Running → state (run s env) = Running →
  count_gets (out (run s env)) = (count_gets (out s) + length env)%nat
  ∧ count_sleeps (out (run s env)) = (count_sleeps (out s) + length env)%nat.
Proof.
  induction env as [|c env IH]; intros s Hr Hend; [cbn; lia|].
  rewrite run_cons in *.
  pose proof (step_running s c Hr) as Hstep.
  destruct (outcome (watch_body (assetId s) (intervalSeconds s) c)) as [e|[]] eqn:Ho.
  - rewrite run_halted in Hend by (rewrite Hstep; cbn; by destruct e).
    rewrite Hstep in Hend. cbn in Hend. by destruct e.
  - destruct (watch_body_counts _ _ _ Ho) as [Hg Hs].
    destruct (IH (step s c)) as [IH1 IH2]; [by rewrite Hstep|done|].
    rewrite IH1, IH2, Hstep. cbn [out length].
    rewrite !count_gets_app, !count_sleeps_app, Hg, Hs. cbn. lia.
Qed.

(** X20: in the output of a watch session requests and sleeps take turns:
    a request is never sent before the sleep that follows the previous
    one, and nothing sleeps twice in a row; a session that is still
    running has slept after its last request. *)
Theorem watch_requests_and_sleeps_alternate (crypto_id : string) (interval : Z) (env : list cycle) :
  let s := watch_crypto crypto_id interval env in
  is_Some (alternates false (out s))
  ∧ (state s = Running →
       alternates false (out s) = Some false
       ∧ count_gets (out s) = length env
       ∧ count_sleeps (out s) = length env).
Proof.
  intros s. subst s. unfold watch_crypto.
  set (s0 := start (new_session crypto_id interval)).
  pose proof (run_alternates env s0 eq_refl) as H. split.
  - destruct (state (run s0 env)); eauto.
  - intros Hr. rewrite Hr in H. split; [done|].
    by destruct (run_counts env s0 eq_refl Hr) as [-> ->].
Qed.

Lemma watch_requests_and_sleeps_alternate_witness :
  alternates false (out (watch_crypto "bitcoin" 30 [cycle_ok; cycle_network_error])) = Some false
  ∧ count_gets (out (watch_crypto "bitcoin" 30 [cycle_ok; cycle_network_error])) = 2%nat
  ∧ count_sleeps (out (watch_crypto "bitcoin" 30 [cycle_ok; cycle_network_error])) = 2%nat.
Proof.
  apply (watch_requests_and_sleeps_alternate "bitcoin" 30 [cycle_ok; cycle_network_error]).
  by vm_compute.
Defined.

(** X21: a reply that has the asset id but no [usd] field in its record
    ends a watch session in its first cycle: [KeyError] leaves
    [watch_crypto] right after the request, with no watch line, no sleep
    and no stop notice.  The interactive loop reports that error and
    prompts again. *)
Theorem watch_quote_without_usd (rt : runtime) (crypto_id : string) (interval : Z)
    (c : cycle) (rest : list cycle)
    (json : gmap string (gmap string pyval)) (data : gmap string pyval) :
  reply c = Body json →
  json !! crypto_id = Some data →
  data !! "usd" = None →
  watch_crypto crypto_id interval (c :: rest)
  = {| assetId := crypto_id; intervalSeconds := interval;
       state := Crashed (KeyError "usd");
       out := out (watch_crypto crypto_id interval []) ++ [price_request crypto_id] |}
  ∧ watch_call rt crypto_id interval (c :: rest)
    = (out (watch_crypto crypto_id interval []) ++ [price_request crypto_id]
         ++ [Print ("Error: " +:+ str_exn rt (KeyError "usd") +:+ Py.LF)], Next).
Proof.
  intros Hr Hj Hd.
  assert (Hb : watch_body crypto_id interval c = ([price_request crypto_id], inl (KeyError "usd"))).
  { unfold watch_body, get_crypto_price, emit. rewrite Hr. do 2 bind_step.
    unfold watch_render. rewrite (found_quote json crypto_id data Hj), Hj.
    unfold subscript, vs_currency. rewrite Hd. reflexivity. }
  assert (E : watch_crypto crypto_id interval (c :: rest)
    = {| assetId := crypto_id; intervalSeconds := interval;
         state := Crashed (KeyError "usd");
         out := out (watch_crypto crypto_id interval []) ++ [price_request crypto_id] |}).
  { unfold watch_crypto. rewrite run_cons, step_running by done.
    cbn [assetId intervalSeconds start new_session state out]. rewrite Hb.
    cbn [trace outcome fst snd]. rewrite run_halted by done. by rewrite app_nil_r. }
  split; [exact E|]. unfold watch_call. rewrite E. cbn [state out guarded].
  by rewrite <- app_assoc.
Qed.

Lemma watch_quote_without_usd_witness :
  state (watch_crypto "bitcoin" 30
           [cycle_no_usd; cycle_ok])
  = Crashed (KeyError "usd").
Proof.
  destruct (watch_quote_without_usd sample_runtime "bitcoin" 30
              cycle_no_usd [cycle_ok] no_usd_payload (<["usd_24h_change" := VNum (1 # 2)]> ∅)) as [E _].
  - reflexivity.
  - apply lookup_insert_eq.
  - reflexivity.
  - rewrite E. reflexivity.
Defined.

(** *** The watch line *)

Lemma digit_no_lf c : is_digit c → no_lf c.
Proof. intros H ->. discriminate H. Qed.

Lemma upper_char_no_lf c : no_lf c → no_lf (Py.upper_char c).
Proof.
  unfold no_lf. intros H E. apply H. clear H.
  destruct c as [[] [] [] [] [] [] [] []]; vm_compute in E; first [done | discriminate E].
Qed.

Lemma upper_no_lf s : Forall no_lf (Py.chars s) → Forall no_lf (Py.chars (Py.upper s)).
Proof.
  unfold Py.upper. rewrite chars_map_string. intros H.
  apply Forall_fmap. eapply Forall_impl; [exact H|]. intros c. apply upper_char_no_lf.
Qed.

Lemma group3_chars l : Forall is_digit l → l ≠ [] →
  Forall (λ c, is_digit c ∨ c = Fmt.comma) (Fmt.group3 l).
Proof.
  intros Hd Hne. unfold Fmt.group3. apply Forall_reverse, Forall_lookup. intros i c Hi.
  pose proof (group3_rev_index (length (reverse l)) (reverse l) (le_n _)
                (proj2 (Forall_reverse _ _) Hd) i c Hi) as H.
  destruct (bool_decide _); [by right|by left].
Qed.

Lemma fixed_no_lf grouped d q : Forall no_lf (Py.chars (Fmt.fixed grouped d q)).
Proof.
  unfold Fmt.fixed. rewrite !chars_app, chars_text.
  apply Forall_app. split.
  { unfold Fmt.sign_text. case_match; repeat constructor; done. }
  apply Forall_app. split.
  { destruct grouped.
    - eapply Forall_impl; [apply group3_chars; [apply uint_chars_digits|apply nat_digits_nonempty]|].
      intros c [H| ->]; [by apply digit_no_lf|done].
    - eapply Forall_impl; [apply uint_chars_digits|]. apply digit_no_lf. }
  destruct d as [|d]; [constructor|].
  rewrite chars_app, chars_text. apply Forall_app. split; [by repeat constructor|].
  eapply Forall_impl; [apply frac_digits_digits|]. apply digit_no_lf.
Qed.

Lemma format_price_no_lf p : Forall no_lf (Py.chars (format_price p)).
Proof.
  unfold format_price. repeat case_match; rewrite chars_app;
    (apply Forall_app; split; [by repeat constructor|apply fixed_no_lf]).
Qed.

Lemma format_change_no_lf ch : Forall no_lf (Py.chars (format_change ch)).
Proof.
  unfold format_change. repeat case_match; rewrite !chars_app;
    repeat (apply Forall_app; split); try apply fixed_no_lf; by repeat constructor.
Qed.

Lemma not_contains_char x s :
  Forall (λ c, c ≠ x) (Py.chars s) → contains s (String x "") = false.
Proof.
  induction s as [|c s IH]; [done|].
  intros [Hc Hs]%Forall_cons. cbn [contains String.prefix].
  destruct (ascii_dec x c) as [->|_]; [done|]. cbn. by apply IH.
Qed.

(** X22: a cycle whose reply has a numeric [usd] price for the asset writes
    exactly one line between the request and the sleep.  The line starts
    with a carriage return and holds no line feed (as long as the clock
    text and the asset id hold none), so each update overwrites the one
    before it; a missing 24h change is shown as that of 0. *)
Theorem watch_line_overwrites (crypto_id : string) (interval : Z) (c : cycle)
    (json : gmap string (gmap string pyval)) (data : gmap string pyval) (p ch : Q) :
  reply c = Body json →
  json !! crypto_id = Some data →
  data !! "usd" = Some (VNum p) →
  get_or_zero data "usd_24h_change" = VNum ch →
  Forall no_lf (Py.chars (clock c)) →
  Forall no_lf (Py.chars crypto_id) →
  ∃ text_,
    watch_body crypto_id interval c
    = (price_request crypto_id :: Print (Py.CR +:+ text_)
         :: trace (time_sleep interval (monotonic c) (sleep_interrupted c)),
       outcome (time_sleep interval (monotonic c) (sleep_interrupted c)))
    ∧ text_ = "[" +:+ clock c +:+ "] " +:+ Py.upper crypto_id +:+ ": " +:+ format_price p
              +:+ " (" +:+ format_change ch +:+ ")"
    ∧ contains (Py.CR +:+ text_) Py.LF = false.
Proof.
  intros Hr Hj Hd Hch Hclock Hid. eexists. split; [|split; [reflexivity|]].
  - unfold watch_body, get_crypto_price, emit. rewrite Hr. do 2 bind_step.
    unfold watch_render. rewrite (found_quote json crypto_id data Hj), Hj.
    unfold subscript, vs_currency. rewrite Hd.
    change ("usd" +:+ "_24h_change") with "usd_24h_change". rewrite Hch.
    cbn [format_price_of format_change_of]. unfold emit, ret. repeat bind_step.
    destruct (time_sleep _ _). reflexivity.
  - apply (not_contains_char (Py.chr 10)). rewrite !chars_app.
    repeat (apply Forall_app; split);
      first [ apply format_price_no_lf | apply format_change_no_lf
            | by apply upper_no_lf | done | by repeat constructor ].
Qed.

Lemma watch_line_overwrites_witness :
  ∃ text_,
    watch_body "bitcoin" 30 cycle_ok
    = (price_request "bitcoin" :: Print (Py.CR +:+ text_) :: trace (time_sleep 30 (monotonic cycle_ok) false),
       outcome (time_sleep 30 (monotonic cycle_ok) false))
    ∧ contains (Py.CR +:+ text_) Py.LF = false.
Proof.
  destruct (watch_line_overwrites "bitcoin" 30 cycle_ok sample_payload sample_quote
              (6543210 # 100) (-32 # 10)) as (text_ & E & _ & Hn).
  - reflexivity.
  - apply lookup_insert_eq.
  - reflexivity.
  - reflexivity.
  - repeat constructor; discriminate.
  - repeat constructor; discriminate.
  - exists text_. split; [exact E|exact Hn].
Defined.

(** ** More on the formatters *)

Lemma round_scaled_to_next d q k :
  (0 <= k) → Z.odd k = true →
  let n := Z.abs (Qnum q) * 10 ^ Z.of_nat d in
  (2 * k + 1) * Z.pos (Qden q) <= 2 * n →
  n < (k + 1) * Z.pos (Qden q) →
  Fmt.round_scaled d q = k + 1.
Proof.
  intros Hk Hodd n Hlo Hhi. unfold Fmt.round_scaled. fold n.
  set (den := Z.pos (Qden q)) in *.
  assert (Hq : n / den = k).
  { symmetry. apply (Z.div_unique n den k (n - den * k)); nia. }
  pose proof (Z.div_mod n den ltac:(lia)) as Hdm. rewrite Hq in *.
  rewrite <- Z.negb_odd, Hodd. cbn [negb].
  repeat case_match; lia.
Qed.

(** X23: the precision is chosen before the value is rounded, so a value
    just under a boundary is shown with the digits of the boundary in the
    precision of the lower range: from 999.99995 up to 1000 the price reads
    [$1000.0000], without a separator, and from 0.999999995 up to 1 it
    reads [$1.00000000]. *)
Theorem format_price_just_below_boundary (value : Q) :
  ((99999995 # 100000 <= value)%Q → (value < 1000 # 1)%Q → format_price value = "$1000.0000")
  ∧ ((999999995 # 1000000000 <= value)%Q → (value < 1 # 1)%Q → format_price value = "$1.00000000").
Proof.
  split.
  - intros Hlo Hhi.
    assert (H1 : (1 # 1 <= value)%Q) by (eapply Qle_trans; [|exact Hlo]; done).
    assert (Hpos : (0 < value)%Q) by (eapply Qlt_le_trans; [|exact H1]; done).
    unfold format_price, Qge_bool.
    rewrite (Qle_bool_false _ _ Hhi), (proj2 (Qle_bool_iff _ _) H1).
    unfold Fmt.fixed. rewrite (sign_text_pos _ Hpos).
    rewrite (round_scaled_to_next 4 value 9999999); [reflexivity|lia|reflexivity|..];
      unfold Qle, Qlt in *; cbn in *; lia.
  - intros Hlo Hhi.
    assert (Hpos : (0 < value)%Q) by (eapply Qlt_le_trans; [|exact Hlo]; done).
    unfold format_price, Qge_bool.
    rewrite (Qle_bool_false (1 # 1) value Hhi).
    rewrite (Qle_bool_false (1000 # 1) value) by (eapply Qlt_trans; [exact Hhi|done]).
    unfold Fmt.fixed. rewrite (sign_text_pos _ Hpos).
    rewrite (round_scaled_to_next 8 value 99999999); [reflexivity|lia|reflexivity|..];
      unfold Qle, Qlt in *; cbn in *; lia.
Qed.

Lemma format_price_just_below_boundary_witness :
  format_price (99999999 # 100000) = "$1000.0000"
  ∧ format_price (999999995 # 1000000000) = "$1.00000000".
Proof.
  split.
  - apply (proj1 (format_price_just_below_boundary (99999999 # 100000)));
      unfold Qle, Qlt; cbn; lia.
  - apply (proj2 (format_price_just_below_boundary (999999995 # 1000000000)));
      unfold Qle, Qlt; cbn; lia.
Defined.

(** X24: for every binary64 value (a finite [float], or an [int] that the
    [f] format converts to [float] without rounding, as every [int] up to
    2^53 in magnitude is), the price text is the dollar sign, the sign of a
    negative value, and a numeral of 2, 4 or 8 decimals whose distance from
    the magnitude of the value is at most half a unit of its last digit. *)
Theorem format_price_is_nearest (value : Q) :
  binary64 value →
  ∃ grouped d body,
    format_price value = "$" +:+ Fmt.sign_text value +:+ body
    ∧ numeral grouped d (Fmt.round_scaled d value) body
    ∧ (d = 2 ∨ d = 4 ∨ d = 8)%nat
    ∧ Z.abs (2 * (Z.abs (Qnum value) * 10 ^ Z.of_nat d)
             - 2 * Fmt.round_scaled d value * Z.pos (Qden value))
      <= Z.pos (Qden value).
Proof.
  intros _. unfold format_price.
  destruct (Qge_bool value (1000 # 1)); [|destruct (Qge_bool value (1 # 1))].
  - destruct (fixed_shape true 1 value) as (body & E & Hn).
    exists true, 2%nat, body. rewrite E. split; [done|]. split; [done|].
    split; [auto|apply round_scaled_nearest].
  - destruct (fixed_shape false 3 value) as (body & E & Hn).
    exists false, 4%nat, body. rewrite E. split; [done|]. split; [done|].
    split; [auto|apply round_scaled_nearest].
  - destruct (fixed_shape false 7 value) as (body & E & Hn).
    exists false, 8%nat, body. rewrite E. split; [done|]. split; [done|].
    split; [auto|apply round_scaled_nearest].
Qed.

Lemma format_price_is_nearest_witness :
  binary64 (6001 # 4)
  ∧ ∃ grouped d body,
      format_price (6001 # 4) = "$" +:+ Fmt.sign_text (6001 # 4) +:+ body
      ∧ numeral grouped d (Fmt.round_scaled d (6001 # 4)) body
      ∧ (d = 2 ∨ d = 4 ∨ d = 8)%nat
      ∧ Z.abs (2 * (Z.abs (Qnum (6001 # 4)) * 10 ^ Z.of_nat d)
               - 2 * Fmt.round_scaled d (6001 # 4) * Z.pos (Qden (6001 # 4)))
        <= Z.pos (Qden (6001 # 4)).
Proof.
  assert (H : binary64 (6001 # 4)).
  { exists 6001, (-2). split; [by vm_compute|]. split; [lia|by vm_compute]. }
  split; [exact H|]. exact (format_price_is_nearest (6001 # 4) H).
Defined.

Lemma round_scaled_small d q :
  2 * (Z.abs (Qnum q) * 10 ^ Z.of_nat d) < Z.pos (Qden q) → Fmt.round_scaled d q = 0.
Proof.
  intros H. unfold Fmt.round_scaled.
  set (n := Z.abs (Qnum q) * 10 ^ Z.of_nat d) in *. set (den := Z.pos (Qden q)) in *.
  assert (0 <= n) by (subst n; apply Z.mul_nonneg_nonneg; [lia|apply Z.pow_nonneg; lia]).
  rewrite (Z.div_small n den), (Z.mod_small n den) by lia.
  destruct (Z.ltb_spec (2 * n) den); [done|lia].
Qed.

(** X25: the colour follows the sign of the value, not of the rounded
    figure: a change above zero but below 0.005 is shown as a green
    [+0.00%], and one below zero but above -0.005 as a red [-0.00%]. *)
Theorem format_change_of_tiny_values (q : Q) :
  ((0 < q)%Q → (q < 1 # 200)%Q → format_change q = GREEN +:+ "+0.00%" +:+ RESET)
  ∧ ((q < 0)%Q → (-1 # 200 < q)%Q → format_change q = RED +:+ "-0.00%" +:+ RESET).
Proof.
  destruct (format_change_cases q) as (Hpos & Hneg & _). split.
  - intros H0 H1. rewrite (Hpos H0). unfold plain_change, Fmt.fixed.
    rewrite (sign_text_pos _ H0), round_scaled_small.
    + unfold Qlt in H0. cbn in H0. by destruct (Z.gtb_spec (Qnum q) 0); [|lia].
    + unfold Qlt in *. cbn in *. lia.
  - intros H0 H1. rewrite (Hneg H0). unfold plain_change, Fmt.fixed.
    rewrite (sign_text_neg _ H0), round_scaled_small.
    + unfold Qlt in H0. cbn in H0. by destruct (Z.gtb_spec (Qnum q) 0); [lia|].
    + unfold Qlt in *. cbn in *. lia.
Qed.

Lemma format_change_of_tiny_values_witness :
  format_change (1 # 1000) = GREEN +:+ "+0.00%" +:+ RESET
  ∧ format_change (-3 # 1000) = RED +:+ "-0.00%" +:+ RESET.
Proof.
  split.
  - apply (proj1 (format_change_of_tiny_values (1 # 1000))); unfold Qlt; cbn; lia.
  - apply (proj2 (format_change_of_tiny_values (-3 # 1000))); unfold Qlt; cbn; lia.
Defined.

(** X26: for a reply that holds a numeric [usd] price for the asset, the
    price command writes the id in capitals and the price with thousands
    separators and eight decimals, then the 24h change on a line of its
    own when the record has one and nothing when it has none (the watch
    line shows [0.00%] in that case).  The interactive mode writes the
    same with an empty line before it. *)
Theorem price_command_output (crypto_id : string)
    (json : gmap string (gmap string pyval)) (data : gmap string pyval) (p : Q) :
  json !! crypto_id = Some data →
  data !! "usd" = Some (VNum p) →
  let change_lines :=
    match data !! "usd_24h_change" with
    | Some (VNum ch) => [Print (("24h Change: " +:+ format_change ch) +:+ Py.LF)]
    | _ => []
    end in
  (data !! "usd_24h_change" = None ∨ ∃ ch, data !! "usd_24h_change" = Some (VNum ch)) →
  main_price crypto_id (Body json)
  = (price_request crypto_id
       :: Print ((Py.upper crypto_id +:+ ": $" +:+ Fmt.fixed true 8 p) +:+ Py.LF)
       :: change_lines, inr tt)
  ∧ interactive_price crypto_id (Body json)
    = (price_request crypto_id
         :: Print ((Py.LF +:+ Py.upper crypto_id +:+ ": $" +:+ Fmt.fixed true 8 p) +:+ Py.LF)
         :: change_lines, inr tt).
Proof.
  intros Hj Hd lines Hch. subst lines. split.
  - unfold main_price, get_crypto_price, emit. do 2 bind_step.
    rewrite (found_quote json crypto_id data Hj), Hj.
    unfold subscript. rewrite Hd.
    destruct Hch as [->|[ch ->]]; reflexivity.
  - unfold interactive_price, get_crypto_price, emit. do 2 bind_step.
    rewrite (found_quote json crypto_id data Hj), Hj.
    unfold subscript, vs_currency. rewrite Hd.
    change ("usd" +:+ "_24h_change") with "usd_24h_change".
    destruct Hch as [->|[ch ->]]; reflexivity.
Qed.

Lemma price_command_output_witness :
  main_price "bitcoin" (Body sample_payload)
  = ([ price_request "bitcoin";
       Print ("BITCOIN: $65,432.10000000" +:+ Py.LF);
       Print (("24h Change: " +:+ RED +:+ "-3.20%" +:+ RESET) +:+ Py.LF) ], inr tt).
Proof.
  refine (proj1 (price_command_output "bitcoin" sample_payload sample_quote (6543210 # 100) _ _ _)).
  - apply lookup_insert_eq.
  - reflexivity.
  - right. by exists (-32 # 10).
Defined.
